(** * Skill guardrails: the escalation pipeline, shallowly embedded

    This development embeds the scanner of [skill-guardrails]
    ([src/scanner.py], [src/levels/l1_static.py] ... [l4_trust.py],
    [src/models/skill.py], [src/models/report.py]) and checks the
    pipeline's specification against it.

    Conventions of the embedding.
    - Python [float] values (severities, weights, scores) are rationals [Q];
      every decimal literal of the source is written as the same decimal.
      Comparisons use [Qle_bool], so [0.30] and [0.3] compare equal as they
      do in Python. Sums and products are exact: the rounding of binary
      floating point is not modelled.
    - Python [str] is [string], read as ASCII text: [str.upper], [str.lower]
      and [str.strip] are the ASCII ones, and a statement that depends on
      them beyond ASCII says so with [PyStr.is_ascii].
    - A dict with string keys is a [gmap string _]; [d.get(k, v)] is
      [default v (d !! k)].
    - The values that come from outside as JSON - the answer of the
      classifier, the entries of the author registry - are dynamically typed
      in the source. Where the source computes with such a value it is a
      [PyVal] (null, a boolean, a number, a string), and the operation that
      does not apply to it raises [TypeError] as in Python. Where the source
      only stores the value in an attribute annotated [str], it is a string.
    - The standard [re] module, the remote classifier, the container runtime
      and the file system are not part of the repository: they are inputs,
      gathered in the record [Env].
    - Mutable objects (the analyzers held by the scanner, the audit log file)
      live in a [World] that every method threads; a Python exception is the
      [Raise] outcome of the monad [M]. *)

From Stdlib Require Import QArith String List Ascii Sorted Lia Lqa.
From stdpp Require Import base gmap strings list pretty.

#[local] Open Scope string_scope.
#[local] Open Scope list_scope.

(** ** Python string operations used by the scanner *)

Module PyStr.

Definition newline : ascii := "010"%char.

(** [c.isspace()] for an ASCII character: tab, line feed, vertical tab,
    form feed, carriage return, the four separators 0x1c-0x1f, space. *)
Definition isspace (c : ascii) : bool :=
  let n := nat_of_ascii c in
  ((9 <=? n)%nat && (n <=? 13)%nat) || ((28 <=? n)%nat && (n <=? 32)%nat).

Definition upper_char (c : ascii) : ascii :=
  let n := nat_of_ascii c in
  if ((97 <=? n)%nat && (n <=? 122)%nat) then ascii_of_nat (n - 32) else c.

Definition lower_char (c : ascii) : ascii :=
  let n := nat_of_ascii c in
  if ((65 <=? n)%nat && (n <=? 90)%nat) then ascii_of_nat (n + 32) else c.

Fixpoint map_chars (f : ascii -> ascii) (s : string) : string :=
  match s with
  | EmptyString => EmptyString
  | String c t => String (f c) (map_chars f t)
  end.

Definition upper : string -> string := map_chars upper_char.
Definition lower : string -> string := map_chars lower_char.

(** [needle in hay] *)
Fixpoint contains (needle hay : string) : bool :=
  String.prefix needle hay
  || match hay with
     | EmptyString => false
     | String _ t => contains needle t
     end.

(** [s.startswith(p)] *)
Definition startswith (s p : string) : bool := String.prefix p s.

Fixpoint lstrip_by (p : ascii -> bool) (s : string) : string :=
  match s with
  | EmptyString => EmptyString
  | String c t => if p c then lstrip_by p t else s
  end.

Fixpoint rstrip_by (p : ascii -> bool) (s : string) : string :=
  match s with
  | EmptyString => EmptyString
  | String c t =>
      match rstrip_by p t with
      | EmptyString => if p c then EmptyString else String c EmptyString
      | t' => String c t'
      end
  end.

(** [s.strip()] and [s.strip(ch)] for a one-character [ch] *)
Definition strip (s : string) : string :=
  rstrip_by isspace (lstrip_by isspace s).
Definition strip_char (ch : ascii) (s : string) : string :=
  rstrip_by (Ascii.eqb ch) (lstrip_by (Ascii.eqb ch) s).

(** [s.split(sep)] for a one-character separator: never empty. *)
Fixpoint split (sep : ascii) (s : string) : list string :=
  match s with
  | EmptyString => [EmptyString]
  | String c t =>
      if Ascii.eqb c sep then EmptyString :: split sep t
      else match split sep t with
           | [] => [String c EmptyString]
           | h :: r => String c h :: r
           end
  end.

(** [s.split(sep, 1)] when [sep in s]: the text before the first
    separator and the text after it. *)
Fixpoint split_once (sep : ascii) (s : string) : option (string * string) :=
  match s with
  | EmptyString => None
  | String c t =>
      if Ascii.eqb c sep then Some (EmptyString, t)
      else match split_once sep t with
           | Some (k, v) => Some (String c k, v)
           | None => None
           end
  end.

(** [s[:n]] and [s[a:b]] for [0 <= a] *)
Definition take (n : nat) (s : string) : string := String.substring 0 n s.
Definition slice (a b : nat) (s : string) : string :=
  String.substring a (b - a) s.

(** [s.count(ch)] *)
Fixpoint count (ch : ascii) (s : string) : nat :=
  match s with
  | EmptyString => 0
  | String c t => (if Ascii.eqb c ch then 1 else 0) + count ch t
  end.

(** The characters of [s], as Python iterates over a string. *)
Fixpoint chars (s : string) : list string :=
  match s with
  | EmptyString => []
  | String c t => String c EmptyString :: chars t
  end.

(** Truthiness of a string: [bool(s)] *)
Definition truthy (s : string) : bool :=
  match s with EmptyString => false | _ => true end.

(** [s.isascii()]: every character is below 128. On such text the
    operations above are those of Python's [str]. *)
Fixpoint is_ascii (s : string) : bool :=
  match s with
  | EmptyString => true
  | String c t => (nat_of_ascii c <? 128)%nat && is_ascii t
  end.

End PyStr.

(** ** Rational helpers: Python's [max] on floats *)

Definition Qlt_bool (a b : Q) : bool := negb (Qle_bool b a).

(** [max(a, b)]: the first argument unless the second is strictly larger. *)
Definition py_max (a b : Q) : Q := if Qlt_bool a b then b else a.

(** [max(xs, default=d)] *)
Definition py_max_list (xs : list Q) (d : Q) : Q :=
  match xs with
  | [] => d
  | x :: r => fold_left py_max r x
  end.

(** ** JSON values as Python sees them *)

(** The numbers of Python: [bool] is a subclass of [int]. *)
Inductive PyNumber :=
| NBool (b : bool)
| NInt (z : Z)
| NFloat (q : Q).

(** A JSON scalar after [json.loads]: [None], a number, a string. Arrays
    and objects as values of the keys read below are left out. *)
Inductive PyVal :=
| PyNone
| PyNum (n : PyNumber)
| PyStr (s : string).

Module PyVal.

(** The value of a number in comparisons and arithmetic. *)
Definition num_val (n : PyNumber) : Q :=
  match n with
  | NBool b => if b then 1%Q else 0%Q
  | NInt z => inject_Z z
  | NFloat q => q
  end.

Definition as_number (v : PyVal) : option PyNumber :=
  match v with
  | PyNum n => Some n
  | _ => None
  end.

(** [type(v).__name__] *)
Definition type_name (v : PyVal) : string :=
  match v with
  | PyNone => "NoneType"
  | PyNum (NBool _) => "bool"
  | PyNum (NInt _) => "int"
  | PyNum (NFloat _) => "float"
  | PyStr _ => "str"
  end.

(** [bool(v)] *)
Definition truthy (v : PyVal) : bool :=
  match v with
  | PyNone => false
  | PyNum n => negb (Qeq_bool (num_val n) 0)
  | PyStr s => PyStr.truthy s
  end.

End PyVal.

(** ** [models/skill.py] *)

(** The [Finding] dataclass. The annotation of [severity] is [float], and
    every analyzer but level 2 fills it with a number; level 2 fills it with
    whatever the classifier sent. [FindingOf S] is a finding whose severity
    is an [S]: [Finding] holds a number, and the findings of level 2 are
    [FindingOf PyVal] until the scanner reads them. *)
Record FindingOf (S : Type) := mkFinding {
  level : string;                 (* L1, L2, L3, L4 *)
  name : string;
  description : string;
  severity : S;                   (* documented range: 0.0 - 1.0 *)
  line_number : option nat;
  code_snippet : option string;
  mitigation : option string
}.
Arguments mkFinding {S}.
Arguments level {S}.
Arguments name {S}.
Arguments description {S}.
Arguments severity {S}.
Arguments line_number {S}.
Arguments code_snippet {S}.
Arguments mitigation {S}.

Abbreviation Finding := (FindingOf Q).

Record CodeBlock := mkCodeBlock {
  language : string;
  code : string
}.

(** [Skill]. [path] is [str(self.path)] and [path_name] is
    [self.path.name]; [sig_exists] records whether [path / "SKILL.md.sig"]
    exists. [_parse_frontmatter] stores only strings, so the values of
    [metadata] are strings. The [body] attribute is read by no analyzer and
    is left out. *)
Record Skill := mkSkill {
  path : string;
  path_name : string;
  sig_exists : bool;
  skill_name : string;
  content : string;
  metadata : gmap string string;
  is_valid : bool;
  code_blocks : list CodeBlock
}.

Record SkillResult := mkSkillResult {
  res_name : string;
  res_path : string;
  res_is_valid : bool;
  risk_score : Q;
  classification : string;        (* low, medium, high, critical *)
  findings : list Finding;
  top_finding : option string;
  error : option string;
  res_metadata : gmap string string
}.

(** The dataclass defaults of [SkillResult]. *)
Definition SkillResult_default (n p : string) (valid : bool)
    (err : option string) : SkillResult :=
  {| res_name := n; res_path := p; res_is_valid := valid;
     risk_score := 0.0%Q; classification := "low"; findings := [];
     top_finding := None; error := err; res_metadata := ∅ |}.

(** ** Configuration: [config/patterns.yaml] and [config/thresholds.yaml] *)

(** One rule of the pattern table as the YAML file gives it;
    [description] and [mitigation] are optional ([p.get(..., "")]). *)
Record ConfigRule := mkConfigRule {
  cr_name : string;
  cr_pattern : string;
  cr_severity : Q;
  cr_description : option string;
  cr_mitigation : option string
}.

(** An allowlist entry: [entry.get("patterns", [])], [entry.get("context")],
    [entry.get("requires_disclaimer", False)]. *)
Record AllowEntry := mkAllowEntry {
  al_patterns : list string;
  al_context : option string;
  al_requires_disclaimer : bool
}.

(** [cfg_patterns] is [config.get("patterns", {}).items()], in file order. *)
Record PatternsConfig := mkPatternsConfig {
  cfg_patterns : list (string * list ConfigRule);
  cfg_allowlist : list AllowEntry
}.

(** A compiled rule; [r_regex content] is the list of the spans
    [(match.start(), match.end())] of [regex.finditer(content)]. *)
Record CompiledRule := mkCompiledRule {
  r_name : string;
  r_regex : string -> list (nat * nat);
  r_severity : Q;
  r_description : string;
  r_mitigation : string
}.

Record Weights := mkWeights {
  w_pattern_severity : Q;
  w_permission_scope : Q;
  w_source_trust : Q;
  w_community_reports : Q
}.

Record Thresholds := mkThresholds {
  critical_min : Q;
  high_min : Q;
  medium_min : Q
}.

(** The four sections of the file: [th_permissions] maps a permission to
    its [score] entry and [th_source_trust] a trust level to its [score]
    entry. *)
Record ThresholdsConfig := mkThresholdsConfig {
  th_weights : Weights;
  th_permissions : gmap string Q;
  th_source_trust : gmap string Q;
  th_thresholds : Thresholds
}.

Record GeminiConfig := mkGeminiConfig {
  api_url : string;
  api_key : string;
  model : string;
  gemini_timeout : nat
}.

Record SandboxConfig := mkSandboxConfig {
  enabled : bool;
  image : string;
  memory_limit : string;
  cpu_limit : string;
  sandbox_timeout : nat;
  network_disabled : bool
}.

Record TrustConfig := mkTrustConfig {
  require_signature : bool;
  trusted_authors_file : option string;
  audit_log_file : string
}.

(** A value of the trusted-authors registry, as [json.loads] returns it: an
    object, of which [_verify_author] reads the keys [reputation] and
    [verified] ([None] when the key is absent), or any other JSON value
    (named by its Python type), which has no [get]. *)
Inductive RegistryEntry :=
| EntryDict (reputation : option PyVal) (verified : option PyVal)
| EntryOther (type_name : string).

(** ** Exceptions, external collaborators, the world *)

Record PyExn := mkExn { exn_type : string; exn_msg : string }.

(** [str(e)] *)
Definition exn_str (e : PyExn) : string := exn_msg e.

(** [TypeError], with the interpreter's message. *)
Definition TypeError (msg : string) : PyExn :=
  {| exn_type := "TypeError"; exn_msg := msg |}.

(** One element of the classifier's [findings] array; every key is read
    with [item.get], and a field is [None] when the key is absent. [type],
    [description] and [recommendation] are stored as they are, in attributes
    annotated [str]: they are strings. [severity] is stored as it is, and
    [evidence] is sliced: they are any scalar. *)
Record OracleItem := mkOracleItem {
  it_type : option string;
  it_description : option string;
  it_severity : option PyVal;
  it_evidence : option PyVal;
  it_recommendation : option string
}.

(** The dict returned by [_parse_openai_response]: [error] and [summary]
    are stored in [description], [risk_score] is compared with 0.6. *)
Record Analysis := mkAnalysis {
  an_error : option string;
  an_findings : list OracleItem;
  an_risk_score : option PyVal;
  an_summary : option string
}.

(** What one attempt of [_analyze_async] has in hand when it reaches
    [_convert_to_findings]: the parsed analysis; or the exception raised on
    the way there (the request, the status check, the decoding of the body,
    an answer that is not an object of the shape above). *)
Inductive OracleOutcome :=
| OracleReturns (a : Analysis)
| OracleRaises (e : PyExn).

(** What the [with tempfile.NamedTemporaryFile(..., delete=False)] block
    of [_run_in_sandbox] ends in: the file is there with the code in it; or
    an exception, raised by the creation of the file ([created] false) or
    by the write, after which the file stays ([created] true). *)
Inductive TempOutcome :=
| TempWritten
| TempFails (created : bool) (e : PyExn).

(** What [subprocess.run(docker_cmd, timeout=...)] ends in. *)
Inductive SandboxOutcome :=
| Completed (stdout stderr : string) (returncode : Z)
| TimeoutExpired
| RunRaises (e : PyExn).

(** The Python standard [re] module on the five expressions of the source
    (written out in the source files; they are only named here). *)
Record ReLib := mkReLib {
  (* _parse_frontmatter: group(1) of re.search of the frontmatter
     expression with re.DOTALL, None when there is no match *)
  re_frontmatter : string -> option string;
  (* _extract_code_blocks: (group(1), group(2)) of every match of
     re.finditer of the fenced-block expression with re.DOTALL *)
  re_code_fences : string -> list (string * string);
  (* _compile_patterns: re.compile(pattern, re.IGNORECASE | re.MULTILINE),
     None on re.error; a compiled expression gives the spans of finditer *)
  re_compile : string -> option (string -> list (nat * nat));
  (* _analyze_code_blocks: whether re.search finds the destructive delete *)
  re_rm_rf : string -> bool;
  (* _analyze_code_blocks: whether re.search finds the dynamic import *)
  re_dunder_import : string -> bool
}.

Record Env := mkEnv {
  relib : ReLib;
  (* what SemanticAnalyzer._load_config reads from the environment *)
  gemini_env : GeminiConfig;
  (* the remote classifier, on the skill sent to it, by attempt (from 0) *)
  oracle : Skill -> nat -> OracleOutcome;
  (* str(e) of the RetryError that tenacity raises after the last attempt,
     from the exception of that attempt *)
  retry_error_str : PyExn -> string;
  (* the temporary file of one fragment, by fragment and index *)
  tempfile : CodeBlock -> nat -> TempOutcome;
  (* the container run of one fragment, by fragment and index *)
  sandbox_run : CodeBlock -> nat -> SandboxOutcome;
  (* whether open(audit_log_file, 'a') and the write succeed *)
  audit_writable : bool;
  (* datetime.now(timezone.utc).isoformat() *)
  utc_now : string;
  (* hashlib.sha256(content.encode('utf-8')).hexdigest() *)
  sha256_hexdigest : string -> string;
  (* how an f-string prints a float *)
  float_str : Q -> string
}.

Record AuditEntry := mkAuditEntry {
  au_timestamp : string;
  au_skill_name : string;
  au_skill_path : string;
  au_content_hash : string;
  au_source : string;
  au_risk_level : string;
  au_findings_count : nat;
  au_max_severity : Q
}.

(** The analyzer objects held by the scanner. *)
Record StaticAnalyzer := mkStaticAnalyzer {
  sa_config : PatternsConfig;
  sa_patterns : gmap string (list CompiledRule)
}.

(** [config] is [None] until the first call of [analyze]. *)
Record SemanticAnalyzer := mkSemanticAnalyzer {
  sem_config : option GeminiConfig
}.

Record DynamicAnalyzer := mkDynamicAnalyzer {
  dyn_config : SandboxConfig;
  docker_available : bool
}.

Record TrustVerifier := mkTrustVerifier {
  tv_config : TrustConfig;
  trusted_authors : gmap string RegistryEntry
}.

Record SkillScanner := mkSkillScanner {
  verbose : bool;
  patterns_config : PatternsConfig;
  thresholds_config : ThresholdsConfig;
  l1_analyzer : StaticAnalyzer;
  l2_analyzer : SemanticAnalyzer;
  l3_analyzer : DynamicAnalyzer;
  l4_verifier : TrustVerifier
}.

(** Observable actions, recorded in order (ghost state): a level's analyzer
    is called, a request is sent to the classifier, the temporary file of a
    fragment is created, the fragment is run in the container, its
    temporary file is removed. *)
Inductive Event :=
| EvLevel (lvl : string)
| EvOracleCall (skill : string)
| EvTempCreate (block_index : nat)
| EvSandboxRun (block_index : nat)
| EvUnlink (block_index : nat).

#[global] Instance Event_eq_dec : EqDecision Event.
Proof. solve_decision. Defined.

Record World := mkWorld {
  scanner : SkillScanner;
  audit_log : list AuditEntry;
  trace : list Event
}.

(** ** The state-and-exception monad of the scanner's methods *)

Inductive Outcome (A : Type) :=
| Ret (a : A)
| Raise (e : PyExn).
Arguments Ret {A} a.
Arguments Raise {A} e.

Definition M (A : Type) : Type := World -> Outcome A * World.

#[global] Instance M_ret : MRet M := fun A a w => (Ret a, w).

#[global] Instance M_bind : MBind M := fun A B f m w =>
  match m w with
  | (Ret a, w') => f a w'
  | (Raise e, w') => (Raise e, w')
  end.

Definition raise {A} (e : PyExn) : M A := fun w => (Raise e, w).

(** A computation that touches no object: it returns or raises. *)
Definition lift {A} (o : Outcome A) : M A := fun w => (o, w).

#[global] Instance Outcome_ret : MRet Outcome := fun A a => Ret a.

#[global] Instance Outcome_bind : MBind Outcome := fun A B f o =>
  match o with
  | Ret a => f a
  | Raise e => Raise e
  end.

Definition get_world : M World := fun w => (Ret w, w).

Definition modify (f : World -> World) : M unit := fun w => (Ret tt, f w).

(** [try: body except Exception as e: handler e] *)
Definition try_except {A} (body : M A) (handler : PyExn -> M A) : M A :=
  fun w =>
    match body w with
    | (Raise e, w') => handler e w'
    | r => r
    end.

Definition emit (ev : Event) : M unit :=
  modify (fun w => {| scanner := scanner w; audit_log := audit_log w;
                      trace := trace w ++ [ev] |}).

(** [for i, x in enumerate(xs): acc.extend(body i x)], from index [i]. *)
Fixpoint for_extend {A B} (body : nat -> A -> M (list B)) (i : nat)
    (xs : list A) (acc : list B) : M (list B) :=
  match xs with
  | [] => mret acc
  | x :: r => ys ← body i x; for_extend body (S i) r (acc ++ ys)
  end.

(** [for x in xs: acc.append(body x)] for a body that touches no object:
    the first exception ends the loop. *)
Fixpoint for_each {A B} (body : A -> Outcome B) (xs : list A)
    : Outcome (list B) :=
  match xs with
  | [] => Ret []
  | x :: r => y ← body x; ys ← for_each body r; Ret (y :: ys)
  end.

(** ** Operations on JSON scalars *)

(** [v >= bound] for a float [bound]: defined on numbers. *)
Definition py_ge (v : PyVal) (bound : Q) : Outcome bool :=
  match PyVal.as_number v with
  | Some n => Ret (Qle_bool bound (PyVal.num_val n))
  | None =>
      Raise (TypeError ("'>=' not supported between instances of '"
                        +:+ PyVal.type_name v +:+ "' and 'float'"))
  end.

(** [v[:200]]: defined on strings. *)
Definition py_slice_200 (v : PyVal) : Outcome string :=
  match v with
  | PyStr s => Ret (PyStr.take 200 s)
  | _ =>
      Raise (TypeError ("'" +:+ PyVal.type_name v
                        +:+ "' object is not subscriptable"))
  end.

(** [x in xs] for a list of strings *)
Definition str_in_list (x : string) (xs : list string) : bool :=
  existsb (String.eqb x) xs.

(** ** The skill loader: [Skill] in [models/skill.py] *)

(** The manifest [skill_path / "SKILL.md"] as the loader finds it. *)
Inductive ManifestFile :=
| NoManifest
| ReadFails (e : PyExn)
| ManifestText (text : string).

(** A skill directory: [str(skill_path)], [skill_path.name], the manifest,
    and whether the signature file lies next to it. *)
Record SkillDir := mkSkillDir {
  sd_path : string;
  sd_name : string;
  sd_manifest : ManifestFile;
  sd_sig_exists : bool
}.

Module Skill.

Definition _extract_code_blocks (re : ReLib) (content : string)
    : list CodeBlock :=
  map (fun g : string * string =>
         {| language := if PyStr.truthy (fst g) then fst g else "unknown";
            code := snd g |})
      (re_code_fences re content).

(** [Skill.__init__] *)
Definition init (re : ReLib) (d : SkillDir) (name content : string)
    (metadata : gmap string string) (is_valid : bool) : Skill :=
  {| path := sd_path d; path_name := sd_name d;
     sig_exists := sd_sig_exists d;
     skill_name := name; content := content; metadata := metadata;
     is_valid := is_valid;
     code_blocks := _extract_code_blocks re content |}.

Definition _parse_frontmatter (re : ReLib) (content : string)
    : option (gmap string string) :=
  match re_frontmatter re content with
  | None => None
  | Some fm_text =>
      Some (fold_left
              (fun (metadata : gmap string string) (line : string) =>
                 match PyStr.split_once ":"%char line with
                 | Some (key, val) =>
                     let val :=
                       PyStr.strip_char "039"%char
                         (PyStr.strip_char "034"%char (PyStr.strip val)) in
                     <[PyStr.strip key := val]> metadata
                 | None => metadata
                 end)
              (PyStr.split PyStr.newline fm_text) ∅)
  end.

Definition from_path (re : ReLib) (skill_path : SkillDir) : Skill :=
  match sd_manifest skill_path with
  | NoManifest =>
      init re skill_path (sd_name skill_path) "" ∅ false
  | ReadFails e =>
      init re skill_path (sd_name skill_path) ""
           {["error" := exn_str e]} false
  | ManifestText content =>
      match _parse_frontmatter re content with
      | None =>
          init re skill_path (sd_name skill_path) content ∅ false
      | Some metadata =>
          init re skill_path
               (default (sd_name skill_path) (metadata !! "name"))
               content metadata true
      end
  end.

Definition risk_level (s : Skill) : string :=
  default "unknown" (metadata s !! "risk").

Definition is_offensive (s : Skill) : bool :=
  String.eqb (risk_level s) "offensive".

Definition has_disclaimer (s : Skill) : bool :=
  PyStr.contains "AUTHORIZED USE ONLY" (PyStr.upper (content s)).

Definition source (s : Skill) : string :=
  default "unknown" (metadata s !! "source").

(** The [permissions] property; a metadata value is a string, so the
    [isinstance(perms, str)] branch is the one taken. *)
Definition permissions (s : Skill) : list string :=
  let perms := default "" (metadata s !! "permissions") in
  map PyStr.strip
      (filter (fun p => PyStr.truthy (PyStr.strip p) = true)
              (PyStr.split ","%char perms)).

End Skill.

(** ** Level 1: [StaticAnalyzer] in [levels/l1_static.py] *)

Module StaticAnalyzer.

Definition _compile_patterns (re : ReLib) (config : PatternsConfig)
    : gmap string (list CompiledRule) :=
  fold_left
    (fun (acc : gmap string (list CompiledRule))
         (item : string * list ConfigRule) =>
       let '(severity, patterns) := item in
       match acc !! severity with
       | None => acc
       | Some _ =>
           fold_left
             (fun (acc : gmap string (list CompiledRule)) (p : ConfigRule) =>
                match re_compile re (cr_pattern p) with
                | Some compiled =>
                    <[severity :=
                        default [] (acc !! severity)
                        ++ [{| r_name := cr_name p;
                               r_regex := compiled;
                               r_severity := cr_severity p;
                               r_description :=
                                 default "" (cr_description p);
                               r_mitigation :=
                                 default "" (cr_mitigation p) |}]]> acc
                | None => acc        (* warning printed, rule skipped *)
                end)
             patterns acc
       end)
    (cfg_patterns config)
    (<["critical" := []]> (<["high" := []]> (<["medium" := []]>
       (<["low" := []]> ∅)))).

(** [StaticAnalyzer.__init__] *)
Definition init (re : ReLib) (patterns_config : PatternsConfig)
    : StaticAnalyzer :=
  {| sa_config := patterns_config;
     sa_patterns := _compile_patterns re patterns_config |}.

Definition _check_metadata (skill : Skill) : list Finding :=
  flat_map
    (fun field : string =>
       match metadata skill !! field with
       | None =>
           [ {| level := "L1"; name := "missing_" +:+ field;
                description := "Missing required metadata field: " +:+ field;
                severity := 0.30%Q; line_number := None;
                code_snippet := None;
                mitigation := Some ("Add '" +:+ field +:+ "' to frontmatter") |} ]
       | Some _ => []
       end)
    ["name"; "description"]
  ++ (if bool_decide (metadata skill !! "name" = Some (path_name skill))
      then []
      else
        [ {| level := "L1"; name := "name_mismatch";
             description :=
               "Name '" +:+ default "None" (metadata skill !! "name")
               +:+ "' doesn't match folder '" +:+ path_name skill +:+ "'";
             severity := 0.20%Q; line_number := None; code_snippet := None;
             mitigation :=
               Some "Ensure 'name' in frontmatter matches folder name" |} ])
  ++ match metadata skill !! "risk" with
     | None =>
         [ {| level := "L1"; name := "missing_risk";
              description := "Missing 'risk' classification label";
              severity := 0.35%Q; line_number := None; code_snippet := None;
              mitigation :=
                Some "Add 'risk' field with value: none, safe, critical, or offensive" |} ]
     | Some risk =>
         if str_in_list risk ["none"; "safe"; "critical"; "offensive"]
         then []
         else
           [ {| level := "L1"; name := "invalid_risk";
                description := "Invalid risk level: " +:+ risk;
                severity := 0.40%Q; line_number := None;
                code_snippet := None;
                mitigation :=
                  Some "Use valid risk level: none, safe, critical, or offensive" |} ]
     end
  ++ match metadata skill !! "source" with
     | None =>
         [ {| level := "L1"; name := "missing_source";
              description := "Missing source attribution";
              severity := 0.15%Q; line_number := None; code_snippet := None;
              mitigation :=
                Some "Add 'source' field with URL or 'self' if original" |} ]
     | Some _ => []
     end.

Definition _is_allowed (self : StaticAnalyzer) (pattern_name : string)
    (skill : Skill) : bool :=
  existsb
    (fun entry : AllowEntry =>
       str_in_list pattern_name (al_patterns entry)
       && (if bool_decide (al_context entry = Some "offensive")
              && Skill.is_offensive skill
           then Skill.has_disclaimer skill
                || negb (al_requires_disclaimer entry)
           else bool_decide (al_context entry = Some "defensive")
                && str_in_list (Skill.risk_level skill)
                               ["safe"; "critical"]))
    (cfg_allowlist (sa_config self)).

Definition _detect_patterns (self : StaticAnalyzer) (skill : Skill)
    : list Finding :=
  let content := content skill in
  flat_map
    (fun severity_level : string =>
       flat_map
         (fun pattern : CompiledRule =>
            flat_map
              (fun m : nat * nat =>
                 let line_number :=
                   PyStr.count PyStr.newline (PyStr.take (fst m) content) + 1 in
                 let start := fst m - 50 in
                 let end_ := Nat.min (String.length content) (snd m + 50) in
                 let snippet := PyStr.strip (PyStr.slice start end_ content) in
                 if _is_allowed self (r_name pattern) skill then []
                 else
                   [ {| level := "L1"; name := r_name pattern;
                        description := r_description pattern;
                        severity := r_severity pattern;
                        line_number := Some line_number;
                        code_snippet := Some (PyStr.take 200 snippet);
                        mitigation := Some (r_mitigation pattern) |} ])
              (r_regex pattern content))
         (default [] (sa_patterns self !! severity_level)))
    ["critical"; "high"; "medium"; "low"].

Definition _analyze_code_blocks (re : ReLib) (skill : Skill)
    : list Finding :=
  flat_map
    (fun block : CodeBlock =>
       let code := code block in
       let lang := language block in
       (if str_in_list lang ["bash"; "sh"; "shell"; "zsh"]
           && re_rm_rf re code
        then
          [ {| level := "L1"; name := "destructive_shell";
               description :=
                 "Potentially destructive shell command (rm -rf /)";
               severity := 0.95%Q; line_number := None;
               code_snippet := Some (PyStr.take 100 code);
               mitigation := Some "Remove or add safety guards" |} ]
        else [])
       ++ (if str_in_list lang ["python"; "py"]
              && re_dunder_import re code
           then
             [ {| level := "L1"; name := "dynamic_import";
                  description := "Dynamic import pattern detected";
                  severity := 0.50%Q; line_number := None;
                  code_snippet := Some (PyStr.take 100 code);
                  mitigation := Some "Use explicit imports when possible" |} ]
           else []))
    (code_blocks skill).

(** [findings.sort(key=lambda f: f.severity, reverse=True)]: a stable
    sort, equal severities keep their order. *)
Fixpoint insert_desc (f : Finding) (l : list Finding) : list Finding :=
  match l with
  | [] => [f]
  | g :: r =>
      if Qlt_bool (severity f) (severity g) then g :: insert_desc f r
      else f :: l
  end.

Definition sort_desc (l : list Finding) : list Finding :=
  foldr insert_desc [] l.

Definition missing_disclaimer : Finding :=
  {| level := "L1"; name := "missing_disclaimer";
     description :=
       "Offensive skill missing 'AUTHORIZED USE ONLY' disclaimer";
     severity := 0.90%Q; line_number := None; code_snippet := None;
     mitigation :=
       Some "Add required security disclaimer at the top of SKILL.md" |}.

(** The body of [analyze], on the analyzer object [self]. *)
Definition analyze_body (re : ReLib) (self : StaticAnalyzer)
    (skill : Skill) : list Finding :=
  let findings :=
    _check_metadata skill
    ++ _detect_patterns self skill
    ++ _analyze_code_blocks re skill
    ++ (if Skill.is_offensive skill && negb (Skill.has_disclaimer skill)
        then [missing_disclaimer] else []) in
  sort_desc findings.

Definition analyze (re : ReLib) (skill : Skill) : M (list Finding) :=
  w ← get_world;
  mret (analyze_body re (l1_analyzer (scanner w)) skill).

End StaticAnalyzer.

(** ** Level 1 on Python's list objects

    The methods of [StaticAnalyzer] build their result in list objects:
    [findings = []] makes a new list, and [append], [extend] and [sort]
    change a list in place. Here the lists live in a store, by address,
    next to the world, and the methods are written statement by statement;
    what they leave in the store is compared with the functions above. *)

Record Store := mkStore {
  st_world : World;
  st_lists : list (list Finding)
}.

Definition Run (A : Type) : Type := Store -> A * Store.

#[global] Instance Run_ret : MRet Run := fun A a s => (a, s).

#[global] Instance Run_bind : MBind Run := fun A B f m s =>
  f (fst (m s)) (snd (m s)).

Module ListStore.

Definition update (f : list Finding -> list Finding) (l : nat) : Run unit :=
  fun s => (tt, {| st_world := st_world s;
                   st_lists := alter f l (st_lists s) |}).

(** [[]]: a new list, at a new address. *)
Definition new : Run nat :=
  fun s => (length (st_lists s),
            {| st_world := st_world s; st_lists := st_lists s ++ [[]] |}).

(** [l.append(f)] *)
Definition append (l : nat) (f : Finding) : Run unit :=
  update (fun xs => xs ++ [f]) l.

(** [l.extend(other)] *)
Definition extend (l other : nat) : Run unit :=
  fun s => update (fun xs => xs ++ default [] (st_lists s !! other)) l s.

(** [l.sort(key=lambda f: f.severity, reverse=True)] *)
Definition sort (l : nat) : Run unit := update StaticAnalyzer.sort_desc l.

(** [self], the analyzer object of the scanner *)
Definition self : Run StaticAnalyzer :=
  fun s => (l1_analyzer (scanner (st_world s)), s).

(** [for x in xs: body x] *)
Fixpoint for_ {A} (xs : list A) (body : A -> Run unit) : Run unit :=
  match xs with
  | [] => mret tt
  | x :: r => body x;; for_ r body
  end.

End ListStore.

Module StaticAnalyzerRun.

Definition _check_metadata (skill : Skill) : Run nat :=
  findings ← ListStore.new;
  ListStore.for_ ["name"; "description"]
    (fun field : string =>
       match metadata skill !! field with
       | None =>
           ListStore.append findings
             {| level := "L1"; name := "missing_" +:+ field;
                description := "Missing required metadata field: " +:+ field;
                severity := 0.30%Q; line_number := None;
                code_snippet := None;
                mitigation := Some ("Add '" +:+ field +:+ "' to frontmatter") |}
       | Some _ => mret tt
       end);;
  (if bool_decide (metadata skill !! "name" = Some (path_name skill))
   then mret tt
   else
     ListStore.append findings
       {| level := "L1"; name := "name_mismatch";
          description :=
            "Name '" +:+ default "None" (metadata skill !! "name")
            +:+ "' doesn't match folder '" +:+ path_name skill +:+ "'";
          severity := 0.20%Q; line_number := None; code_snippet := None;
          mitigation :=
            Some "Ensure 'name' in frontmatter matches folder name" |});;
  match metadata skill !! "risk" with
  | None =>
      ListStore.append findings
        {| level := "L1"; name := "missing_risk";
           description := "Missing 'risk' classification label";
           severity := 0.35%Q; line_number := None; code_snippet := None;
           mitigation :=
             Some "Add 'risk' field with value: none, safe, critical, or offensive" |}
  | Some risk =>
      if str_in_list risk ["none"; "safe"; "critical"; "offensive"]
      then mret tt
      else
        ListStore.append findings
          {| level := "L1"; name := "invalid_risk";
             description := "Invalid risk level: " +:+ risk;
             severity := 0.40%Q; line_number := None;
             code_snippet := None;
             mitigation :=
               Some "Use valid risk level: none, safe, critical, or offensive" |}
  end;;
  match metadata skill !! "source" with
  | None =>
      ListStore.append findings
        {| level := "L1"; name := "missing_source";
           description := "Missing source attribution";
           severity := 0.15%Q; line_number := None; code_snippet := None;
           mitigation :=
             Some "Add 'source' field with URL or 'self' if original" |}
  | Some _ => mret tt
  end;;
  mret findings.

Definition _detect_patterns (skill : Skill) : Run nat :=
  findings ← ListStore.new;
  let content := content skill in
  ListStore.for_ ["critical"; "high"; "medium"; "low"]
    (fun severity_level : string =>
       self ← ListStore.self;
       ListStore.for_ (default [] (sa_patterns self !! severity_level))
         (fun pattern : CompiledRule =>
            ListStore.for_ (r_regex pattern content)
              (fun m : nat * nat =>
                 let line_number :=
                   PyStr.count PyStr.newline (PyStr.take (fst m) content)
                   + 1 in
                 let start := fst m - 50 in
                 let end_ :=
                   Nat.min (String.length content) (snd m + 50) in
                 let snippet :=
                   PyStr.strip (PyStr.slice start end_ content) in
                 self ← ListStore.self;
                 if StaticAnalyzer._is_allowed self (r_name pattern) skill
                 then mret tt
                 else
                   ListStore.append findings
                     {| level := "L1"; name := r_name pattern;
                        description := r_description pattern;
                        severity := r_severity pattern;
                        line_number := Some line_number;
                        code_snippet := Some (PyStr.take 200 snippet);
                        mitigation := Some (r_mitigation pattern) |})));;
  mret findings.

Definition _analyze_code_blocks (re : ReLib) (skill : Skill) : Run nat :=
  findings ← ListStore.new;
  ListStore.for_ (code_blocks skill)
    (fun block : CodeBlock =>
       let code := code block in
       let lang := language block in
       (if str_in_list lang ["bash"; "sh"; "shell"; "zsh"]
           && re_rm_rf re code
        then
          ListStore.append findings
            {| level := "L1"; name := "destructive_shell";
               description :=
                 "Potentially destructive shell command (rm -rf /)";
               severity := 0.95%Q; line_number := None;
               code_snippet := Some (PyStr.take 100 code);
               mitigation := Some "Remove or add safety guards" |}
        else mret tt);;
       (if str_in_list lang ["python"; "py"]
           && re_dunder_import re code
        then
          ListStore.append findings
            {| level := "L1"; name := "dynamic_import";
               description := "Dynamic import pattern detected";
               severity := 0.50%Q; line_number := None;
               code_snippet := Some (PyStr.take 100 code);
               mitigation := Some "Use explicit imports when possible" |}
        else mret tt));;
  mret findings.

Definition analyze (re : ReLib) (skill : Skill) : Run nat :=
  findings ← ListStore.new;
  l ← _check_metadata skill;
  ListStore.extend findings l;;
  l ← _detect_patterns skill;
  ListStore.extend findings l;;
  l ← _analyze_code_blocks re skill;
  ListStore.extend findings l;;
  (if Skill.is_offensive skill && negb (Skill.has_disclaimer skill)
   then ListStore.append findings StaticAnalyzer.missing_disclaimer
   else mret tt);;
  ListStore.sort findings;;
  mret findings.

End StaticAnalyzerRun.

(** ** Level 2: [SemanticAnalyzer] in [levels/l2_semantic.py] *)

Module SemanticAnalyzer.

(** [SemanticAnalyzer.__init__] *)
Definition init : SemanticAnalyzer := {| sem_config := None |}.

Definition set_l2 (a : SemanticAnalyzer) (w : World) : World :=
  {| scanner :=
       {| verbose := verbose (scanner w);
          patterns_config := patterns_config (scanner w);
          thresholds_config := thresholds_config (scanner w);
          l1_analyzer := l1_analyzer (scanner w);
          l2_analyzer := a;
          l3_analyzer := l3_analyzer (scanner w);
          l4_verifier := l4_verifier (scanner w) |};
     audit_log := audit_log w;
     trace := trace w |}.

(** Loads the configuration on the first call and keeps it. *)
Definition _ensure_config (env : Env) : M GeminiConfig :=
  w ← get_world;
  match sem_config (l2_analyzer (scanner w)) with
  | Some cfg => mret cfg
  | None =>
      modify (set_l2 {| sem_config := Some (gemini_env env) |});;
      mret (gemini_env env)
  end.

Definition parse_error (err : string) : FindingOf PyVal :=
  {| level := "L2"; name := "parse_error"; description := err;
     severity := PyNum (NFloat 0.10%Q); line_number := None;
     code_snippet := None; mitigation := None |}.

(** One turn of the loop over [analysis.get("findings", [])]. The slice of
    the evidence raises when the evidence is not a string. *)
Definition convert_item (item : OracleItem) : Outcome (FindingOf PyVal) :=
  snippet ← py_slice_200 (default (PyStr "") (it_evidence item));
  Ret  {| level := "L2";
          name := default "unknown" (it_type item);
          description := default "" (it_description item);
          severity := default (PyNum (NFloat 0.5%Q)) (it_severity item);
          line_number := None;
          code_snippet := Some snippet;
          mitigation := Some (default "" (it_recommendation item)) |}.

Definition high_risk_assessment (analysis : Analysis) (risk_score : PyVal)
    : FindingOf PyVal :=
  {| level := "L2"; name := "high_risk_assessment";
     description := default "High risk skill detected" (an_summary analysis);
     severity := risk_score; line_number := None;
     code_snippet := None; mitigation := None |}.

Definition _convert_to_findings (analysis : Analysis)
    : Outcome (list (FindingOf PyVal)) :=
  match an_error analysis with
  | Some err => Ret [parse_error err]
  | None =>
      findings ← for_each convert_item (an_findings analysis);
      let risk_score := default (PyNum (NInt 0)) (an_risk_score analysis) in
      py_ge risk_score 0.6%Q ≫= fun high : bool =>
      if high
      then Ret (findings ++ [high_risk_assessment analysis risk_score])
      else Ret findings
  end.

(** One attempt, the body of [_analyze_async]: the request is sent, and the
    parsed answer is converted. *)
Definition _analyze_async_attempt (env : Env) (skill : Skill)
    (attempt : nat) : M (list (FindingOf PyVal)) :=
  emit (EvOracleCall (skill_name skill));;
  match oracle env skill attempt with
  | OracleReturns analysis => lift (_convert_to_findings analysis)
  | OracleRaises e => raise e
  end.

Definition RetryError (env : Env) (last : PyExn) : PyExn :=
  {| exn_type := "RetryError"; exn_msg := retry_error_str env last |}.

(** The decorator [@retry(stop=stop_after_attempt(...))] of tenacity: a
    body that raises is run again, [more] times at most; when the last
    attempt raises too, [RetryError] is raised in its place. *)
Fixpoint retry {A} (env : Env) (more attempt : nat) (body : nat -> M A)
    : M A :=
  try_except (body attempt)
    (fun e =>
       match more with
       | 0 => raise (RetryError env e)
       | S more' => retry env more' (S attempt) body
       end).

(** [@retry(stop=stop_after_attempt(3), wait=...)]: three attempts. *)
Definition _analyze_async (env : Env) (skill : Skill)
    : M (list (FindingOf PyVal)) :=
  retry env 2 0 (_analyze_async_attempt env skill).

Definition gemini_not_configured : FindingOf PyVal :=
  {| level := "L2"; name := "gemini_not_configured";
     description :=
       "Gemini API not configured - skipping semantic analysis";
     severity := PyNum (NFloat 0.0%Q); line_number := None;
     code_snippet := None;
     mitigation := Some "Set GEMINI_API_URL and GEMINI_API_KEY in .env" |}.

Definition analysis_error (e : PyExn) : FindingOf PyVal :=
  {| level := "L2"; name := "analysis_error";
     description := "Semantic analysis failed: " +:+ exn_str e;
     severity := PyNum (NFloat 0.10%Q); line_number := None;
     code_snippet := None;
     mitigation := Some "Check Gemini API configuration" |}.

Definition analyze (env : Env) (skill : Skill)
    : M (list (FindingOf PyVal)) :=
  config ← _ensure_config env;
  if negb (PyStr.truthy (api_url config))
     || negb (PyStr.truthy (api_key config))
  then mret [gemini_not_configured]
  else
    try_except (_analyze_async env skill)
      (fun e => mret [analysis_error e]).

End SemanticAnalyzer.

(** ** Level 3: [DynamicAnalyzer] in [levels/l3_dynamic.py] *)

Module DynamicAnalyzer.

Definition _extract_testable_code (skill : Skill) : list CodeBlock :=
  let testable :=
    flat_map
      (fun block : CodeBlock =>
         let lang := PyStr.lower (language block) in
         let code := code block in
         if str_in_list lang ["python"; "py"; "bash"; "sh"; "shell"]
         then
           let lines :=
             filter (fun l : string =>
                       PyStr.truthy (PyStr.strip l)
                       && negb (PyStr.startswith (PyStr.strip l) "#") = true)
                    (PyStr.split PyStr.newline (PyStr.strip code)) in
           if (0 <? length lines)%nat
              && (10 <? String.length (PyStr.strip code))%nat
           then [ {| language := lang; code := code |} ]
           else []
         else [])
      (code_blocks skill) in
  take 5 testable.

Definition suspicious_patterns : list (string * string * Q) :=
  [ ("permission denied", "permission_denied", 0.40%Q);
    ("network unreachable", "network_attempt", 0.70%Q);
    ("connection refused", "network_attempt", 0.60%Q);
    ("curl:", "external_request", 0.65%Q);
    ("wget:", "external_request", 0.65%Q);
    ("socket.error", "socket_usage", 0.55%Q);
    ("subprocess", "subprocess_call", 0.50%Q) ].

Definition _analyze_execution_result (result_stderr : string)
    (returncode : Z) (block_index : nat) : list Finding :=
  let stderr := PyStr.lower result_stderr in
  flat_map
    (fun p : string * string * Q =>
       let '(pattern, name, severity) := p in
       if PyStr.contains pattern stderr
       then
         [ {| level := "L3"; name := name;
              description :=
                "Suspicious activity detected in block "
                +:+ pretty block_index +:+ ": " +:+ pattern;
              severity := severity; line_number := None;
              code_snippet := Some (PyStr.take 200 stderr);
              mitigation := None |} ]
       else [])
    suspicious_patterns
  ++ (if negb (returncode =? 0)%Z && negb (returncode =? 1)%Z
      then
        [ {| level := "L3"; name := "abnormal_exit";
             description :=
               "Code block " +:+ pretty block_index
               +:+ " exited with code " +:+ pretty returncode;
             severity := 0.30%Q; line_number := None;
             code_snippet := None; mitigation := None |} ]
      else []).

Definition execution_timeout (self : DynamicAnalyzer) (block_index : nat)
    : Finding :=
  {| level := "L3"; name := "execution_timeout";
     description :=
       "Code block " +:+ pretty block_index +:+ " exceeded timeout ("
       +:+ pretty (sandbox_timeout (dyn_config self)) +:+ "s)";
     severity := 0.60%Q; line_number := None; code_snippet := None;
     mitigation :=
       Some "Review code for infinite loops or excessive computation" |}.

Definition sandbox_error (e : PyExn) : Finding :=
  {| level := "L3"; name := "sandbox_error";
     description := "Sandbox execution error: " +:+ exn_str e;
     severity := 0.10%Q; line_number := None; code_snippet := None;
     mitigation := None |}.

(** The findings of one run, by the way it ends: the [try] body, the
    [except subprocess.TimeoutExpired] clause, the [except Exception]
    clause. *)
Definition findings_of_run (self : DynamicAnalyzer) (out : SandboxOutcome)
    (block_index : nat) : list Finding :=
  match out with
  | Completed _ stderr returncode =>
      _analyze_execution_result stderr returncode block_index
  | TimeoutExpired => [execution_timeout self block_index]
  | RunRaises e => [sandbox_error e]
  end.

(** The temporary file is created and written before the [try]: an
    exception there leaves [_run_in_sandbox] at once. Then the container is
    run, and the [finally] clause removes the file on each of the three
    exits of the [try]. *)
Definition _run_in_sandbox (env : Env) (self : DynamicAnalyzer)
    (code_block : CodeBlock) (skill_name : string) (block_index : nat)
    : M (list Finding) :=
  match tempfile env code_block block_index with
  | TempFails created e =>
      (if created then emit (EvTempCreate block_index) else mret tt);;
      raise e
  | TempWritten =>
      emit (EvTempCreate block_index);;
      emit (EvSandboxRun block_index);;
      let findings :=
        findings_of_run self (sandbox_run env code_block block_index)
          block_index in
      emit (EvUnlink block_index);;
      mret findings
  end.

Definition sandbox_disabled : Finding :=
  {| level := "L3"; name := "sandbox_disabled";
     description := "Sandbox execution disabled";
     severity := 0.0%Q; line_number := None; code_snippet := None;
     mitigation := None |}.

Definition docker_unavailable : Finding :=
  {| level := "L3"; name := "docker_unavailable";
     description := "Docker not available - skipping dynamic analysis";
     severity := 0.05%Q; line_number := None; code_snippet := None;
     mitigation := Some "Install Docker to enable sandbox execution" |}.

Definition no_testable_code : Finding :=
  {| level := "L3"; name := "no_testable_code";
     description := "No testable code blocks found";
     severity := 0.0%Q; line_number := None; code_snippet := None;
     mitigation := None |}.

Definition analyze (env : Env) (skill : Skill) : M (list Finding) :=
  w ← get_world;
  let self := l3_analyzer (scanner w) in
  if negb (enabled (dyn_config self)) then mret [sandbox_disabled]
  else if negb (docker_available self) then mret [docker_unavailable]
  else
    let code_blocks := _extract_testable_code skill in
    match code_blocks with
    | [] => mret [no_testable_code]
    | _ =>
        for_extend
          (fun i block => _run_in_sandbox env self block (skill_name skill) i)
          0 code_blocks []
    end.

End DynamicAnalyzer.

(** ** Level 4: [TrustVerifier] in [levels/l4_trust.py] *)

Module TrustVerifier.

Definition trusted_domains : list string :=
  [ "github.com/anthropics"; "github.com/google";
    "github.com/microsoft"; "github.com/openai" ].

Definition _verify_source (skill : Skill) : list Finding :=
  let source := Skill.source skill in
  if String.eqb source "unknown" || negb (PyStr.truthy source)
  then
    [ {| level := "L4"; name := "unknown_source";
         description := "Skill has no source attribution";
         severity := 0.40%Q; line_number := None; code_snippet := None;
         mitigation :=
           Some "Add 'source' field with URL or 'self' if original work" |} ]
  else if String.eqb source "self"
  then
    [ {| level := "L4"; name := "self_attributed";
         description := "Skill is self-attributed (original work)";
         severity := 0.10%Q; line_number := None; code_snippet := None;
         mitigation := None |} ]
  else if PyStr.startswith source "http"
  then
    let is_trusted :=
      existsb (fun domain => PyStr.contains domain source) trusted_domains in
    if is_trusted
    then
      [ {| level := "L4"; name := "trusted_source";
           description :=
             "Source from trusted repository: " +:+ PyStr.take 50 source;
           severity := 0.0%Q; line_number := None; code_snippet := None;
           mitigation := None |} ]
    else
      [ {| level := "L4"; name := "external_source";
           description :=
             "Source from external repository: " +:+ PyStr.take 50 source;
           severity := 0.20%Q; line_number := None; code_snippet := None;
           mitigation := None |} ]
  else [].

(** The [try] of the source wraps an append that cannot fail, so its
    [except] branch ([signature_invalid]) is never taken. *)
Definition _verify_signature (skill : Skill) : list Finding :=
  if negb (sig_exists skill)
  then
    [ {| level := "L4"; name := "missing_signature";
         description := "No signature file found (SKILL.md.sig)";
         severity := 0.30%Q; line_number := None; code_snippet := None;
         mitigation :=
           Some "Sign skill with: gpg --sign --armor SKILL.md" |} ]
  else
    [ {| level := "L4"; name := "signature_found";
         description :=
           "Signature file exists (verification not implemented)";
         severity := 0.05%Q; line_number := None; code_snippet := None;
         mitigation := None |} ].

Definition l4_finding (name description : string) (severity : Q)
    : Finding :=
  {| level := "L4"; name := name; description := description;
     severity := severity; line_number := None; code_snippet := None;
     mitigation := None |}.

(** How an f-string prints a scalar. *)
Definition py_format (env : Env) (v : PyVal) : string :=
  match v with
  | PyNone => "None"
  | PyNum (NBool b) => if b then "True" else "False"
  | PyNum (NInt z) => pretty z
  | PyNum (NFloat q) => float_str env q
  | PyStr s => s
  end.

(** [author_info.get] raises [AttributeError] when the registry value is
    not an object; the comparisons of [reputation] raise [TypeError] when
    it is not a number. [verified and reputation >= 0.8] compares only when
    [verified] is truthy. *)
Definition _verify_author (env : Env) (self : TrustVerifier)
    (skill : Skill) : M (list Finding) :=
  let author := default "unknown" (metadata skill !! "author") in
  let trust_level := default "community" (metadata skill !! "trust_level") in
  match trusted_authors self !! author with
  | Some (EntryOther ty) =>
      raise {| exn_type := "AttributeError";
               exn_msg := "'" +:+ ty +:+ "' object has no attribute 'get'" |}
  | Some (EntryDict rep ver) =>
      let reputation := default (PyNum (NFloat 0.5%Q)) rep in
      let verified := default (PyNum (NBool false)) ver in
      (if PyVal.truthy verified then lift (py_ge reputation 0.8%Q)
       else mret false) ≫= fun trusted : bool =>
      if trusted
      then
        mret [ l4_finding "trusted_author"
                 ("Author '" +:+ author +:+ "' is verified (reputation: "
                  +:+ py_format env reputation +:+ ")") 0.0%Q ]
      else
        lift (py_ge reputation 0.5%Q) ≫= fun known : bool =>
        if known
        then
          mret [ l4_finding "known_author"
                   ("Author '" +:+ author +:+ "' is known (reputation: "
                    +:+ py_format env reputation +:+ ")") 0.10%Q ]
        else
          mret [ l4_finding "low_reputation"
                   ("Author '" +:+ author +:+ "' has low reputation ("
                    +:+ py_format env reputation +:+ ")") 0.40%Q ]
  | None =>
      if String.eqb trust_level "official"
      then mret [ l4_finding "official_skill" "Skill marked as official" 0.0%Q ]
      else if String.eqb trust_level "verified"
      then mret [ l4_finding "verified_skill" "Skill marked as verified" 0.05%Q ]
      else
        mret [ l4_finding "community_skill"
                 "Community-contributed skill (not individually verified)"
                 0.15%Q ]
  end.

Definition _calculate_hash (env : Env) (skill : Skill) : string :=
  sha256_hexdigest env (content skill).

(** Appends one line to the audit log; a failure to write is swallowed. *)
Definition _log_audit (env : Env) (skill : Skill) (content_hash : string)
    (findings : list Finding) : M unit :=
  let audit_entry :=
    {| au_timestamp := utc_now env;
       au_skill_name := skill_name skill;
       au_skill_path := path skill;
       au_content_hash := content_hash;
       au_source := Skill.source skill;
       au_risk_level := Skill.risk_level skill;
       au_findings_count := length findings;
       au_max_severity := py_max_list (map severity findings) 0%Q |} in
  if audit_writable env
  then modify (fun w => {| scanner := scanner w;
                           audit_log := audit_log w ++ [audit_entry];
                           trace := trace w |})
  else mret tt.

Definition verify (env : Env) (skill : Skill) : M (list Finding) :=
  w ← get_world;
  let self := l4_verifier (scanner w) in
  let findings := _verify_source skill in
  let findings :=
    if require_signature (tv_config self)
    then findings ++ _verify_signature skill else findings in
  author_findings ← _verify_author env self skill;
  let findings := findings ++ author_findings in
  let content_hash := _calculate_hash env skill in
  _log_audit env skill content_hash findings;;
  mret findings.

End TrustVerifier.

(** ** [ScanReport] in [models/report.py] *)

(** The counts and the ranked list of the report; [scan_id], [timestamp] and
    the rendered [summary] are left out. *)
Record ScanReport := mkScanReport {
  total_skills : nat;
  passed_count : nat;
  flagged_count : nat;
  blocked_count : nat;
  results : list SkillResult;
  high_risk_skills : list SkillResult
}.

Module ScanReport.

Definition count_if (p : SkillResult -> bool) (rs : list SkillResult)
    : nat :=
  length (List.filter p rs).

(** [sorted(..., key=lambda x: x.risk_score, reverse=True)] *)
Fixpoint insert_by_score (r : SkillResult) (l : list SkillResult)
    : list SkillResult :=
  match l with
  | [] => [r]
  | g :: t =>
      if Qlt_bool (risk_score r) (risk_score g)
      then g :: insert_by_score r t
      else r :: l
  end.

Definition from_results (results : list SkillResult) : ScanReport :=
  let total := length results in
  let passed :=
    count_if (fun r => String.eqb (classification r) "low") results in
  let flagged :=
    count_if (fun r => str_in_list (classification r) ["medium"; "high"])
             results in
  let blocked :=
    count_if (fun r => String.eqb (classification r) "critical") results in
  let high_risk :=
    foldr insert_by_score []
          (List.filter (fun r => Qle_bool 0.6 (risk_score r)) results) in
  {| total_skills := total;
     passed_count := passed;
     flagged_count := flagged;
     blocked_count := blocked;
     results := results;
     high_risk_skills := high_risk |}.

End ScanReport.

(** ** The orchestrator: [SkillScanner] in [scanner.py] *)

Module SkillScanner.

(** [SkillScanner.__init__], from the two configuration files and what
    the constructors of the level 3 and level 4 objects load. *)
Definition init (re : ReLib) (verbose : bool)
    (patterns_config : PatternsConfig)
    (thresholds_config : ThresholdsConfig)
    (l3 : DynamicAnalyzer) (l4 : TrustVerifier) : SkillScanner :=
  {| verbose := verbose;
     patterns_config := patterns_config;
     thresholds_config := thresholds_config;
     l1_analyzer := StaticAnalyzer.init re patterns_config;
     l2_analyzer := SemanticAnalyzer.init;
     l3_analyzer := l3;
     l4_verifier := l4 |}.

Definition risk_scores : list (string * Q) :=
  [ ("none", 0.0%Q); ("safe", 0.2%Q); ("critical", 0.6%Q);
    ("offensive", 0.9%Q); ("unknown", 0.5%Q) ].

(** [risk_scores.get(risk, 0.5)] *)
Fixpoint risk_scores_get (table : list (string * Q)) (risk : string) : Q :=
  match table with
  | [] => 0.5%Q
  | (k, v) :: r => if String.eqb risk k then v else risk_scores_get r risk
  end.

(** [permissions] is the metadata string itself, so the loop visits its
    characters. *)
Definition _get_permission_score (self : SkillScanner) (skill : Skill)
    : Q :=
  match metadata skill !! "permissions" with
  | Some permissions =>
      if PyStr.truthy permissions
      then
        fold_left
          (fun (max_score : Q) (perm : string) =>
             match th_permissions (thresholds_config self) !! perm with
             | Some score => py_max max_score score
             | None => max_score
             end)
          (PyStr.chars permissions) 0.0%Q
      else
        risk_scores_get risk_scores
          (default "unknown" (metadata skill !! "risk"))
  | None =>
      risk_scores_get risk_scores
        (default "unknown" (metadata skill !! "risk"))
  end.

Definition _get_source_trust_score (self : SkillScanner) (skill : Skill)
    : Q :=
  let trust_level := default "community" (metadata skill !! "trust_level") in
  default 0.5%Q (th_source_trust (thresholds_config self) !! trust_level).

Definition _calculate_risk_score (self : SkillScanner) (skill : Skill)
    (findings : list Finding) : Q :=
  let weights := th_weights (thresholds_config self) in
  let pattern_score := py_max_list (map severity findings) 0.0%Q in
  let permission_score := _get_permission_score self skill in
  let source_score := _get_source_trust_score self skill in
  let community_score := 0.0%Q in
  let risk_score :=
    (w_pattern_severity weights * pattern_score
     + w_permission_scope weights * permission_score
     + w_source_trust weights * source_score
     + w_community_reports weights * community_score)%Q in
  (* min(1.0, risk_score) *)
  if Qlt_bool risk_score 1.0%Q then risk_score else 1.0%Q.

Definition _classify_risk (self : SkillScanner) (score : Q) : string :=
  let thresholds := th_thresholds (thresholds_config self) in
  if Qle_bool (critical_min thresholds) score then "critical"
  else if Qle_bool (high_min thresholds) score then "high"
  else if Qle_bool (medium_min thresholds) score then "medium"
  else "low".

(** The two escalation gates, on the findings gathered so far. *)
Definition should_run_l2 (skill : Skill) (findings : list Finding) : bool :=
  bool_decide (metadata skill !! "risk" = Some "offensive")
  || existsb (fun f => Qle_bool 0.3 (severity f)) findings.

Definition should_run_l3 (findings : list Finding) : bool :=
  let max_severity := py_max_list (map severity findings) 0%Q in
  Qle_bool 0.6 max_severity.

(** The scanner computes with the severity of every finding it holds. At
    level "all" the statement that follows the call of level 2 is the [max]
    of line 93, compared with 0.6 in line 94; at level "L2" it is the [max]
    of line 132, multiplied by a weight in line 145. A severity that is not
    a number makes that statement raise [TypeError], and nothing is done
    between the call and that statement: the findings of level 2 are read
    as numbers where they are added to the list. (The text of the message
    depends on the operation that meets the value first; the one of the
    comparison is given.) *)
Definition read_severity (f : FindingOf PyVal) : Outcome Finding :=
  match PyVal.as_number (severity f) with
  | Some n =>
      Ret {| level := level f; name := name f;
             description := description f;
             severity := PyVal.num_val n;
             line_number := line_number f;
             code_snippet := code_snippet f;
             mitigation := mitigation f |}
  | None =>
      Raise (TypeError ("'>=' not supported between instances of '"
                        +:+ PyVal.type_name (severity f) +:+ "' and 'float'"))
  end.

Definition read_severities (fs : list (FindingOf PyVal))
    : Outcome (list Finding) :=
  for_each read_severity fs.

(** The end of [scan_skill]: score, classification and the result. *)
Definition aggregate (self : SkillScanner) (skill : Skill)
    (skill_path : SkillDir) (findings : list Finding) : SkillResult :=
  let risk_score := _calculate_risk_score self skill findings in
  let classification := _classify_risk self risk_score in
  {| res_name := skill_name skill;
     res_path := sd_path skill_path;
     res_is_valid := true;
     risk_score := risk_score;
     classification := classification;
     findings := findings;
     top_finding :=
       match findings with
       | f :: _ => Some (description f)
       | [] => None
       end;
     error := None;
     res_metadata := metadata skill |}.

Definition scan_skill (env : Env) (skill_path : SkillDir) (level : string)
    : M SkillResult :=
  let skill := Skill.from_path (relib env) skill_path in
  if negb (is_valid skill)
  then
    mret (SkillResult_default (sd_name skill_path) (sd_path skill_path)
            false (Some "Invalid skill: Missing or malformed SKILL.md"))
  else
    let findings := [] in
    (* Level 1: static analysis *)
    findings ←
      (if str_in_list level ["all"; "L1"; "l1"]
       then
         emit (EvLevel "L1");;
         l1_findings ← StaticAnalyzer.analyze (relib env) skill;
         mret (findings ++ l1_findings)
       else mret findings);
    (* Level 2: semantic analysis *)
    findings ←
      (if str_in_list level ["all"; "L2"; "l2"]
       then
         if should_run_l2 skill findings
         then
           emit (EvLevel "L2");;
           l2_findings ← SemanticAnalyzer.analyze env skill;
           l2_findings ← lift (read_severities l2_findings);
           mret (findings ++ l2_findings)
         else mret findings
       else mret findings);
    (* Level 3: dynamic analysis *)
    findings ←
      (if str_in_list level ["all"; "L3"; "l3"]
       then
         if should_run_l3 findings
         then
           emit (EvLevel "L3");;
           l3_findings ← DynamicAnalyzer.analyze env skill;
           mret (findings ++ l3_findings)
         else mret findings
       else mret findings);
    (* Level 4: trust verification *)
    findings ←
      (if str_in_list level ["all"; "L4"; "l4"]
       then
         emit (EvLevel "L4");;
         l4_findings ← TrustVerifier.verify env skill;
         mret (findings ++ l4_findings)
       else mret findings);
    w ← get_world;
    mret (aggregate (scanner w) skill skill_path findings).

(** The loop of [full_scan] over the entries that [iterdir] lists:
    directories whose name does not start with a dot are scanned. *)
Fixpoint scan_dirs (env : Env) (dirs : list SkillDir)
    : M (list SkillResult) :=
  match dirs with
  | [] => mret []
  | d :: r =>
      if negb (PyStr.startswith (sd_name d) ".")
      then
        result ← scan_skill env d "all";
        results ← scan_dirs env r;
        mret (result :: results)
      else scan_dirs env r
  end.

Definition full_scan (env : Env) (skills_dir : list SkillDir)
    : M ScanReport :=
  results ← scan_dirs env skills_dir;
  mret (ScanReport.from_results results).

End SkillScanner.

(** ** Sample inputs

    Three manifests and the answers of Python's [re] on them, a scanner
    with an empty rule table and the weights of the docstring of
    [_calculate_risk_score], and collaborators that find nothing. *)

Module Sample.

Definition nl : string := String PyStr.newline EmptyString.

(** A benign, self-attributed skill in the folder [demo]. *)
Definition benign_frontmatter : string :=
  "name: demo" +:+ nl +:+ "description: A demo skill" +:+ nl
  +:+ "risk: safe" +:+ nl +:+ "source: self".

Definition benign_text : string :=
  "---" +:+ nl +:+ benign_frontmatter +:+ nl +:+ "---" +:+ nl +:+ nl
  +:+ "# Demo" +:+ nl.

(** The same skill by an author named in the registry. *)
Definition authored_frontmatter : string :=
  benign_frontmatter +:+ nl +:+ "author: mallory".

Definition authored_text : string :=
  "---" +:+ nl +:+ authored_frontmatter +:+ nl +:+ "---" +:+ nl +:+ nl
  +:+ "# Demo" +:+ nl.

(** A skill with two Python fragments. *)
Definition fragment_a : string :=
  "import os" +:+ nl +:+ "print(os.getcwd())" +:+ nl.
Definition fragment_b : string :=
  "import sys" +:+ nl +:+ "print(sys.version)" +:+ nl.

Definition fragments_text : string :=
  "---" +:+ nl +:+ benign_frontmatter +:+ nl +:+ "---" +:+ nl +:+ nl
  +:+ "```python" +:+ nl +:+ fragment_a +:+ "```" +:+ nl
  +:+ "```python" +:+ nl +:+ fragment_b +:+ "```" +:+ nl.

(** An offensive skill without the disclaimer, with the two fragments. *)
Definition offensive_fragments_text : string :=
  "---" +:+ nl
  +:+ "name: demo" +:+ nl +:+ "description: A demo skill" +:+ nl
  +:+ "risk: offensive" +:+ nl +:+ "source: self" +:+ nl
  +:+ "---" +:+ nl +:+ nl
  +:+ "```python" +:+ nl +:+ fragment_a +:+ "```" +:+ nl
  +:+ "```python" +:+ nl +:+ fragment_b +:+ "```" +:+ nl.

(** The benign skill declaring one permission. *)
Definition permission_frontmatter : string :=
  benign_frontmatter +:+ nl +:+ "permissions: network".

Definition permission_text : string :=
  "---" +:+ nl +:+ permission_frontmatter +:+ nl +:+ "---" +:+ nl +:+ nl
  +:+ "# Demo" +:+ nl.

(** A skill declared offensive, without the disclaimer. *)
Definition offensive_frontmatter : string :=
  "name: demo" +:+ nl +:+ "description: A demo skill" +:+ nl
  +:+ "risk: offensive" +:+ nl +:+ "source: self".

Definition offensive_text : string :=
  "---" +:+ nl +:+ offensive_frontmatter +:+ nl +:+ "---" +:+ nl +:+ nl
  +:+ "# Demo" +:+ nl.

(** No frontmatter at all. *)
Definition plain_text : string := "# Just a heading" +:+ nl.

Definition sample_re : ReLib :=
  {| re_frontmatter := fun c =>
       if String.eqb c benign_text || String.eqb c fragments_text
       then Some benign_frontmatter
       else if String.eqb c authored_text then Some authored_frontmatter
       else if String.eqb c permission_text then Some permission_frontmatter
       else if String.eqb c offensive_text
               || String.eqb c offensive_fragments_text
       then Some offensive_frontmatter
       else None;
     re_code_fences := fun c =>
       if String.eqb c fragments_text
          || String.eqb c offensive_fragments_text
       then [("python", fragment_a); ("python", fragment_b)]
       else [];
     re_compile := fun _ => Some (fun _ => []);
     re_rm_rf := fun _ => false;
     re_dunder_import := fun _ => false |}.

Definition dir_of (text : string) : SkillDir :=
  {| sd_path := "skills/demo"; sd_name := "demo";
     sd_manifest := ManifestText text; sd_sig_exists := false |}.

Definition benign_dir : SkillDir := dir_of benign_text.
Definition authored_dir : SkillDir := dir_of authored_text.
Definition fragments_dir : SkillDir := dir_of fragments_text.
Definition permission_dir : SkillDir := dir_of permission_text.
Definition offensive_dir : SkillDir := dir_of offensive_text.
Definition offensive_fragments_dir : SkillDir :=
  dir_of offensive_fragments_text.
Definition plain_dir : SkillDir := dir_of plain_text.
Definition missing_dir : SkillDir :=
  {| sd_path := "skills/demo"; sd_name := "demo";
     sd_manifest := NoManifest; sd_sig_exists := false |}.

Definition no_analysis : Analysis :=
  {| an_error := None; an_findings := []; an_risk_score := None;
     an_summary := None |}.

Definition sample_env : Env :=
  {| relib := sample_re;
     gemini_env :=
       {| api_url := "https://llm.example/v1"; api_key := "k";
          model := "gemini-2.0-flash"; gemini_timeout := 30 |};
     oracle := fun _ _ => OracleReturns no_analysis;
     retry_error_str := fun e => "RetryError[" +:+ exn_type e +:+ "]";
     tempfile := fun _ _ => TempWritten;
     sandbox_run := fun _ _ => Completed "" "" 0;
     audit_writable := true;
     utc_now := "2025-01-01T00:00:00+00:00";
     sha256_hexdigest := fun _ => "0";
     float_str := fun _ => "0.5" |}.

(** A classifier answer whose one finding carries a severity of 1.5, and
    one whose finding carries a severity of -1. *)
Definition item_of (sev : PyVal) : OracleItem :=
  {| it_type := Some "malicious_code";
     it_description := Some "Reads credentials";
     it_severity := Some sev;
     it_evidence := Some (PyStr "open('.env')");
     it_recommendation := Some "Remove the access" |}.

Definition analysis_of (sev : PyVal) : Analysis :=
  {| an_error := None; an_findings := [item_of sev];
     an_risk_score := Some (PyNum (NFloat 0.2%Q));
     an_summary := Some "Review" |}.

Definition overrated_analysis : Analysis :=
  analysis_of (PyNum (NFloat 1.5%Q)).

Definition underrated_analysis : Analysis :=
  analysis_of (PyNum (NFloat (-1)%Q)).

(** An answer that rates its finding with a word. *)
Definition worded_analysis : Analysis := analysis_of (PyStr "high").

Definition env_with_oracle (a : Analysis) : Env :=
  {| relib := relib sample_env;
     gemini_env := gemini_env sample_env;
     oracle := fun _ _ => OracleReturns a;
     retry_error_str := retry_error_str sample_env;
     tempfile := tempfile sample_env;
     sandbox_run := sandbox_run sample_env;
     audit_writable := audit_writable sample_env;
     utc_now := utc_now sample_env;
     sha256_hexdigest := sha256_hexdigest sample_env;
     float_str := float_str sample_env |}.

(** The container fails on fragment 0 and times out on fragment 1. *)
Definition env_with_faults : Env :=
  {| relib := relib sample_env;
     gemini_env := gemini_env sample_env;
     oracle := oracle sample_env;
     retry_error_str := retry_error_str sample_env;
     tempfile := tempfile sample_env;
     sandbox_run := fun _ i =>
       match i with
       | 0 => RunRaises {| exn_type := "OSError";
                           exn_msg := "docker: daemon not running" |}
       | _ => TimeoutExpired
       end;
     audit_writable := audit_writable sample_env;
     utc_now := utc_now sample_env;
     sha256_hexdigest := sha256_hexdigest sample_env;
     float_str := float_str sample_env |}.

(** The temporary file of fragment 1 cannot be written: the disk is
    full. *)
Definition disk_full : PyExn :=
  {| exn_type := "OSError"; exn_msg := "[Errno 28] No space left on device" |}.

Definition env_disk_full : Env :=
  {| relib := relib sample_env;
     gemini_env := gemini_env sample_env;
     oracle := oracle sample_env;
     retry_error_str := retry_error_str sample_env;
     tempfile := fun _ i =>
       match i with
       | 1 => TempFails true disk_full
       | _ => TempWritten
       end;
     sandbox_run := sandbox_run sample_env;
     audit_writable := audit_writable sample_env;
     utc_now := utc_now sample_env;
     sha256_hexdigest := sha256_hexdigest sample_env;
     float_str := float_str sample_env |}.

(** The audit log cannot be written; another clock, another digest. *)
Definition env_log_read_only : Env :=
  {| relib := relib sample_env;
     gemini_env := gemini_env sample_env;
     oracle := oracle sample_env;
     retry_error_str := retry_error_str sample_env;
     tempfile := tempfile sample_env;
     sandbox_run := sandbox_run sample_env;
     audit_writable := false;
     utc_now := "2026-06-30T12:00:00+00:00";
     sha256_hexdigest := fun _ => "1";
     float_str := float_str sample_env |}.

(** The classifier cannot be reached. *)
Definition connect_error : PyExn :=
  {| exn_type := "ConnectError"; exn_msg := "connection refused" |}.

Definition env_oracle_down : Env :=
  {| relib := relib sample_env;
     gemini_env := gemini_env sample_env;
     oracle := fun _ _ => OracleRaises connect_error;
     retry_error_str := retry_error_str sample_env;
     tempfile := tempfile sample_env;
     sandbox_run := sandbox_run sample_env;
     audit_writable := audit_writable sample_env;
     utc_now := utc_now sample_env;
     sha256_hexdigest := sha256_hexdigest sample_env;
     float_str := float_str sample_env |}.

(** A skill record whose source is a plain word. *)
Definition local_source_skill : Skill :=
  Skill.init sample_re benign_dir "demo" ""
    (<["source" := "local-notes"]> {[ "name" := "demo" ]}) true.

Definition sample_thresholds : ThresholdsConfig :=
  {| th_weights :=
       {| w_pattern_severity := 0.40%Q; w_permission_scope := 0.30%Q;
          w_source_trust := 0.20%Q; w_community_reports := 0.10%Q |};
     th_permissions := {[ "network" := 0.8%Q ]};
     th_source_trust :=
       <["official" := 0.0%Q]> (<["verified" := 0.2%Q]>
         {[ "community" := 0.5%Q ]});
     th_thresholds :=
       {| critical_min := 0.8%Q; high_min := 0.6%Q; medium_min := 0.3%Q |} |}.

Definition sample_sandbox : SandboxConfig :=
  {| enabled := true; image := "python:3.11-slim"; memory_limit := "256m";
     cpu_limit := "0.5"; sandbox_timeout := 30; network_disabled := true |}.

Definition sample_scanner (registry : gmap string RegistryEntry)
    : SkillScanner :=
  SkillScanner.init sample_re false
    {| cfg_patterns := []; cfg_allowlist := [] |}
    sample_thresholds
    {| dyn_config := sample_sandbox; docker_available := true |}
    {| tv_config :=
         {| require_signature := false; trusted_authors_file := None;
            audit_log_file := "audit.log" |};
       trusted_authors := registry |}.

Definition sample_world (registry : gmap string RegistryEntry) : World :=
  {| scanner := sample_scanner registry; audit_log := []; trace := [] |}.

End Sample.

(** ** Observations used by the statements *)

(** The events that a run from [w] to [w'] added to the trace. *)
Definition new_events (w w' : World) : list Event :=
  drop (length (trace w)) (trace w').

(** The levels whose analyzer was called, in order. *)
Definition levels_of (evs : list Event) : list string :=
  omap (fun ev => match ev with EvLevel l => Some l | _ => None end) evs.

(** The indices of the fragments run in the container, in order. *)
Definition sandbox_runs_of (evs : list Event) : list nat :=
  omap (fun ev => match ev with EvSandboxRun i => Some i | _ => None end) evs.

Definition add_events (evs : list Event) (w : World) : World :=
  {| scanner := scanner w; audit_log := audit_log w;
     trace := trace w ++ evs |}.

(** The configuration that level 2 works with in world [w]: the one it
    loaded earlier, or the one it loads now. *)
Definition l2_config_of (env : Env) (w : World) : GeminiConfig :=
  default (gemini_env env) (sem_config (l2_analyzer (scanner w))).

(** A step of the pipeline from [w] to [w']: it leaves alone the rule
    table, the level 3 and level 4 objects, the thresholds and the
    configuration level 2 works with, and the level events it adds to the
    trace are [lvls]. *)
Record level_step (env : Env) (lvls : list string) (w w' : World) : Prop :=
  mkLevelStep {
    ls_l1 : l1_analyzer (scanner w') = l1_analyzer (scanner w);
    ls_l3 : l3_analyzer (scanner w') = l3_analyzer (scanner w);
    ls_l4 : l4_verifier (scanner w') = l4_verifier (scanner w);
    ls_thresholds :
      thresholds_config (scanner w') = thresholds_config (scanner w);
    ls_l2 : l2_config_of env w' = l2_config_of env w;
    ls_trace : exists evs, trace w' = trace w ++ evs /\ levels_of evs = lvls
  }.

(** A computation all of whose runs are such steps. *)
Definition steps (env : Env) {A : Type} (m : M A) : Prop :=
  forall w, exists lvls, level_step env lvls w (snd (m w)).

(** What attempt [k] of the classifier call ends in. *)
Definition attempt_outcome (env : Env) (skill : Skill) (k : nat)
    : Outcome (list (FindingOf PyVal)) :=
  match oracle env skill k with
  | OracleReturns analysis => SemanticAnalyzer._convert_to_findings analysis
  | OracleRaises e => Raise e
  end.

(** One call of the classifier with [more] retries left, from attempt [k]:
    the number of requests sent and what the call ends in. *)
Fixpoint retried (env : Env) (skill : Skill) (more k : nat)
    : nat * Outcome (list (FindingOf PyVal)) :=
  match attempt_outcome env skill k with
  | Ret fs => (1, Ret fs)
  | Raise e =>
      match more with
      | 0 => (1, Raise (SemanticAnalyzer.RetryError env e))
      | S more' =>
          (S (fst (retried env skill more' (S k))),
           snd (retried env skill more' (S k)))
      end
  end.

(** Whether level 2 has a URL and a key in world [w]. *)
Definition l2_configured (env : Env) (w : World) : bool :=
  PyStr.truthy (api_url (l2_config_of env w))
  && PyStr.truthy (api_key (l2_config_of env w)).

(** The findings of level 2 in world [w]. *)
Definition l2_findings (env : Env) (skill : Skill) (w : World)
    : list (FindingOf PyVal) :=
  if l2_configured env w
  then match snd (retried env skill 2 0) with
       | Ret fs => fs
       | Raise e => [SemanticAnalyzer.analysis_error e]
       end
  else [SemanticAnalyzer.gemini_not_configured].

(** The first of the fragments [blocks], numbered from [i], whose
    temporary file cannot be written: its index, whether the file was
    created, and the exception. *)
Fixpoint first_temp_fault (env : Env) (i : nat) (blocks : list CodeBlock)
    : option (nat * bool * PyExn) :=
  match blocks with
  | [] => None
  | b :: r =>
      match tempfile env b i with
      | TempFails created e => Some (i, created, e)
      | TempWritten => first_temp_fault env (S i) r
      end
  end.

(** The events of the complete run of fragment [i]. *)
Definition run_events (i : nat) : list Event :=
  [EvTempCreate i; EvSandboxRun i; EvUnlink i].

(** The findings of level 3 in world [w] when it goes through its
    fragments: one list per selected fragment. *)
Definition l3_findings (env : Env) (skill : Skill) (w : World)
    : list Finding :=
  let self := l3_analyzer (scanner w) in
  if negb (enabled (dyn_config self))
  then [DynamicAnalyzer.sandbox_disabled]
  else if negb (docker_available self)
  then [DynamicAnalyzer.docker_unavailable]
  else match DynamicAnalyzer._extract_testable_code skill with
       | [] => [DynamicAnalyzer.no_testable_code]
       | blocks =>
           concat (imap (fun i b =>
                           DynamicAnalyzer.findings_of_run self
                             (sandbox_run env b i) i)
                        blocks)
       end.

(** Whether level 3 runs fragments in world [w]. *)
Definition l3_runs (skill : Skill) (w : World) : bool :=
  enabled (dyn_config (l3_analyzer (scanner w)))
  && docker_available (l3_analyzer (scanner w)).

(** What the loop over the selected fragments ends in, and the events it
    leaves. *)
Definition loop_result (env : Env) (self : DynamicAnalyzer) (i : nat)
    (xs : list CodeBlock) (acc : list Finding)
    : Outcome (list Finding) * list Event :=
  match first_temp_fault env i xs with
  | None =>
      (Ret (acc ++ concat (imap (fun j b =>
                                   DynamicAnalyzer.findings_of_run self
                                     (sandbox_run env b (i + j)) (i + j))
                                xs)),
       flat_map run_events (seq i (length xs)))
  | Some (k, created, e) =>
      (Raise e,
       flat_map run_events (seq i (k - i))
       ++ (if created then [EvTempCreate k] else []))
  end.

(** What one call of level 3 ends in, and the events it leaves. *)
Definition l3_result (env : Env) (skill : Skill) (w : World)
    : Outcome (list Finding) * list Event :=
  if l3_runs skill w
  then match DynamicAnalyzer._extract_testable_code skill with
       | [] => (Ret [DynamicAnalyzer.no_testable_code], [])
       | blocks => loop_result env (l3_analyzer (scanner w)) 0 blocks []
       end
  else (Ret (l3_findings env skill w), []).

(** The findings that the scan of a valid skill at level "all" has after
    level 2: those of level 1 and, when its gate is open, those of level 2
    read as numbers. *)
Definition after_l2 (env : Env) (skill : Skill) (w : World)
    (l1 : list Finding) : Outcome (list Finding) :=
  if SkillScanner.should_run_l2 skill l1
  then match SkillScanner.read_severities (l2_findings env skill w) with
       | Ret l2 => Ret (l1 ++ l2)
       | Raise e => Raise e
       end
  else Ret l1.

(** [builds l m W fs a]: in the world [W], the computation [m] appends [fs]
    to the list at address [l], changes no other list, and returns [a]. *)
Definition builds {A} (l : nat) (m : Run A) (W : World) (fs : list Finding)
    (a : A) : Prop :=
  forall pre xs post,
    length pre = l ->
    m {| st_world := W; st_lists := pre ++ xs :: post |}
    = (a, {| st_world := W; st_lists := pre ++ (xs ++ fs) :: post |}).

(** [m] is [max(xs, default=d)]: [d] for an empty list, otherwise an
    element of [xs] that no element exceeds. *)
Definition is_max (xs : list Q) (d m : Q) : Prop :=
  match xs with
  | [] => m = d
  | _ => In m xs /\ forall x, In x xs -> (x <= m)%Q
  end.

(** The registry entry that level 4 looks up for a skill. *)
Definition author_entry (w : World) (skill : Skill) : option RegistryEntry :=
  trusted_authors (l4_verifier (scanner w))
    !! default "unknown" (metadata skill !! "author").

(** A list of findings in descending order of severity. *)
Definition sorted_desc (l : list Finding) : Prop :=
  StronglySorted (fun a b => (severity b <= severity a)%Q) l.

(** The permission score as the specification words it: the largest
    configured score among the declared permissions ([Skill.permissions]),
    and the risk-level table when none is declared. *)
Definition spec_permission_score (self : SkillScanner) (skill : Skill) : Q :=
  match Skill.permissions skill with
  | [] =>
      SkillScanner.risk_scores_get SkillScanner.risk_scores
        (Skill.risk_level skill)
  | perms =>
      fold_left
        (fun (best : Q) (perm : string) =>
           match th_permissions (thresholds_config self) !! perm with
           | Some score => py_max best score
           | None => best
           end)
        perms 0.0%Q
  end.

(** ** Further observations *)

(** The fragments whose temporary file was removed, in order. *)
Definition unlinks_of (evs : list Event) : list nat :=
  omap (fun ev => match ev with EvUnlink i => Some i | _ => None end) evs.

(** The skills sent to the classifier, in order. *)
Definition oracle_calls_of (evs : list Event) : list string :=
  omap (fun ev => match ev with EvOracleCall s => Some s | _ => None end) evs.

(** A severity within the documented range. *)
Definition in_unit_range (q : Q) : Prop := (0 <= q)%Q /\ (q <= 1)%Q.

(** A compiled rule table whose severities are within the range. *)
Definition rules_in_range (table : gmap string (list CompiledRule)) : Prop :=
  forall lvl rules r,
    table !! lvl = Some rules -> In r rules -> in_unit_range (r_severity r).


(** A computation that only appends to the audit log, at most [k] records
    per run. *)
Definition audit_appends (k : nat) {A : Type} (m : M A) : Prop :=
  forall w, exists es,
    audit_log (snd (m w)) = audit_log w ++ es /\ length es <= k.

(** The four classes in their order. *)
Definition class_rank (c : string) : nat :=
  if String.eqb c "critical" then 3
  else if String.eqb c "high" then 2
  else if String.eqb c "medium" then 1
  else 0.

Definition is_class (c : string) : Prop :=
  c = "low" \/ c = "medium" \/ c = "high" \/ c = "critical".

(** The entries of a skills directory that [full_scan] scans. *)
Definition visible_dirs (dirs : list SkillDir) : list SkillDir :=
  List.filter (fun d => negb (PyStr.startswith (sd_name d) ".")) dirs.

(** ** The table of common issues: [ScanReport._get_common_issues]

    [issue_counts] is a dict filled in the order in which the names are
    met: an association list whose entries keep their place when their
    count is raised. *)

Module ReportSummary.

(** [issue_counts[name] = issue_counts.get(name, 0) + 1] *)
Fixpoint bump (name : string) (issue_counts : list (string * nat))
    : list (string * nat) :=
  match issue_counts with
  | [] => [(name, 1)]
  | (k, c) :: r =>
      if String.eqb k name then (k, S c) :: r else (k, c) :: bump name r
  end.

Definition issue_counts_of (results : list SkillResult)
    : list (string * nat) :=
  fold_left
    (fun acc result =>
       fold_left (fun acc finding => bump (name finding) acc)
                 (findings result) acc)
    results [].

(** [sorted(items, key=lambda x: x[1], reverse=True)], a stable sort. *)
Fixpoint insert_by_count (x : string * nat) (l : list (string * nat))
    : list (string * nat) :=
  match l with
  | [] => [x]
  | y :: r =>
      if (snd x <? snd y)%nat then y :: insert_by_count x r else x :: l
  end.

Definition _get_common_issues (results : list SkillResult)
    : list (string * nat) :=
  take 10 (foldr insert_by_count [] (issue_counts_of results)).

End ReportSummary.

(** The names of all findings of a list of results, in order, and how often
    a name occurs among them. *)
Definition finding_names (results : list SkillResult) : list string :=
  flat_map (fun r => map name (findings r)) results.

Definition occurrences (n : string) (names : list string) : nat :=
  length (List.filter (String.eqb n) names).

(** [d.get(k)] on the association list. *)
Fixpoint assoc (k : string) (l : list (string * nat)) : option nat :=
  match l with
  | [] => None
  | (k', c) :: r => if String.eqb k' k then Some c else assoc k r
  end.

(** ** Writing a frontmatter *)

(** [sep.join(xs)] *)
Fixpoint join (sep : string) (xs : list string) : string :=
  match xs with
  | [] => ""
  | [x] => x
  | x :: r => x +:+ sep +:+ join sep r
  end.

(** A frontmatter block with one [key: value] line per pair. *)
Definition render_frontmatter (pairs : list (string * string)) : string :=
  join (String PyStr.newline "")
       (map (fun kv => fst kv +:+ ": " +:+ snd kv) pairs).

(** A key: ASCII text without colon, line break or blank at either end; a
    value: ASCII text without line break, and without blank or quote at
    either end. *)
Definition clean_key (k : string) : Prop :=
  PyStr.is_ascii k = true
  /\ PyStr.count ":"%char k = 0
  /\ PyStr.count PyStr.newline k = 0
  /\ PyStr.strip k = k.

Definition clean_value (v : string) : Prop :=
  PyStr.is_ascii v = true
  /\ PyStr.count PyStr.newline v = 0
  /\ PyStr.strip v = v
  /\ PyStr.strip_char "034"%char v = v
  /\ PyStr.strip_char "039"%char v = v.

(** A permission token: ASCII text, not empty, without comma, without
    blank at either end. *)
Definition clean_token (p : string) : Prop :=
  PyStr.is_ascii p = true
  /\ p <> "" /\ PyStr.count ","%char p = 0 /\ PyStr.strip p = p.

(** ** The [scan] command: [scan_skills] in [main.py]

    The command builds its own scanner, from the same configuration files
    and environment as the one of the world, scans its targets at the given
    level and ends with an exit status: 1 where the source raises
    [typer.Exit(1)], 0 otherwise. What it prints and the report file it may
    write are left out. *)

Module Main.

(** [for target in targets: results.append(scanner.scan_skill(target, level))] *)
Fixpoint scan_targets (env : Env) (targets : list SkillDir) (level : string)
    : M (list SkillResult) :=
  match targets with
  | [] => mret []
  | target :: r =>
      result ← SkillScanner.scan_skill env target level;
      results ← scan_targets env r level;
      mret (result :: results)
  end.

(** [scanner = SkillScanner(verbose=verbose)] *)
Definition new_scanner (env : Env) (verbose : bool) : M unit :=
  modify (fun w =>
    {| scanner :=
         SkillScanner.init (relib env) verbose
           (patterns_config (scanner w)) (thresholds_config (scanner w))
           (l3_analyzer (scanner w)) (l4_verifier (scanner w));
       audit_log := audit_log w;
       trace := trace w |}).

(** The end of [scan_skills]: the two tests that raise [typer.Exit(1)]. *)
Definition exit_status (strict : bool) (report : ScanReport) : nat :=
  if strict && (0 <? blocked_count report)%nat then 1
  else if (0 <? blocked_count report)%nat then 1
  else 0.

Definition scan_skills (env : Env) (skills_dir : option (list SkillDir))
    (skill : option SkillDir) (level : string) (strict verbose : bool)
    : M (nat * option ScanReport) :=
  match skills_dir, skill with
  | None, None => mret (1, None)
  | _, _ =>
      new_scanner env verbose;;
      let targets :=
        match skill with
        | Some s => [s]
        | None =>
            List.filter (fun d => negb (PyStr.startswith (sd_name d) "."))
                        (default [] skills_dir)
        end in
      results ← scan_targets env targets level;
      let report := ScanReport.from_results results in
      mret (exit_status strict report, Some report)
  end.

End Main.

(** * Properties *)

(** ** The monad *)

Lemma bind_ret {A B} (m : M A) (f : A -> M B) (w w' : World) (a : A) :
  m w = (Ret a, w') -> (m ≫= f) w = f a w'.
Proof. intros H. unfold mbind, M_bind. now rewrite H. Qed.

Lemma bind_raise {A B} (m : M A) (f : A -> M B) (w w' : World) (e : PyExn) :
  m w = (Raise e, w') -> (m ≫= f) w = (Raise e, w').
Proof. intros H. unfold mbind, M_bind. now rewrite H. Qed.

Lemma new_events_app (w w' : World) (evs : list Event) :
  trace w' = trace w ++ evs -> new_events w w' = evs.
Proof.
  intros H. unfold new_events. rewrite H. apply drop_app_length.
Qed.

(** ** Invalid skills (C9) *)

Lemma from_path_invalid (re : ReLib) (d : SkillDir) :
  (sd_manifest d = NoManifest
   \/ exists text, sd_manifest d = ManifestText text
                   /\ Skill._parse_frontmatter re text = None) ->
  is_valid (Skill.from_path re d) = false.
Proof.
  intros [H | (text & H & Hp)]; unfold Skill.from_path; rewrite H.
  - reflexivity.
  - now rewrite Hp.
Qed.

Lemma passed_count_app (rs1 rs2 : list SkillResult) :
  passed_count (ScanReport.from_results (rs1 ++ rs2))
  = passed_count (ScanReport.from_results rs1)
    + passed_count (ScanReport.from_results rs2).
Proof.
  unfold ScanReport.from_results, ScanReport.count_if; simpl.
  now rewrite List.filter_app, length_app.
Qed.

Lemma passed_count_cons (r : SkillResult) (rs : list SkillResult) :
  passed_count (ScanReport.from_results (r :: rs))
  = (if String.eqb (classification r) "low" then 1 else 0)
    + passed_count (ScanReport.from_results rs).
Proof.
  unfold ScanReport.from_results, ScanReport.count_if; simpl.
  now destruct (String.eqb (classification r) "low").
Qed.

(** C9. When the manifest is missing or its frontmatter cannot be parsed,
    [scan_skill] (at any level) returns a result with [is_valid] false, no
    findings, risk score 0.0 and classification "low", leaving the world
    untouched; in a report such a result adds one to [passed_count], exactly
    as any result classified "low" does at the same place. *)
Theorem C9_invalid_skill_counts_as_passed
    (env : Env) (d : SkillDir) (lvl : string) (w : World) :
  (sd_manifest d = NoManifest
   \/ exists text, sd_manifest d = ManifestText text
                   /\ Skill._parse_frontmatter (relib env) text = None) ->
  exists r : SkillResult,
    SkillScanner.scan_skill env d lvl w = (Ret r, w)
    /\ res_is_valid r = false
    /\ findings r = []
    /\ risk_score r = 0.0%Q
    /\ classification r = "low"
    /\ (forall rs1 rs2,
          passed_count (ScanReport.from_results (rs1 ++ r :: rs2))
          = S (passed_count (ScanReport.from_results (rs1 ++ rs2))))
    /\ (forall low rs1 rs2,
          classification low = "low" ->
          passed_count (ScanReport.from_results (rs1 ++ r :: rs2))
          = passed_count (ScanReport.from_results (rs1 ++ low :: rs2))).
Proof.
  intros Hbad. apply from_path_invalid in Hbad.
  exists (SkillResult_default (sd_name d) (sd_path d) false
            (Some "Invalid skill: Missing or malformed SKILL.md")).
  unfold SkillScanner.scan_skill. rewrite Hbad.
  split; [reflexivity |].
  do 4 (split; [reflexivity |]). split.
  - intros rs1 rs2. rewrite !passed_count_app, passed_count_cons.
    cbn [classification SkillResult_default String.eqb]. simpl. lia.
  - intros low rs1 rs2 Hlow.
    rewrite !passed_count_app, !passed_count_cons, Hlow. reflexivity.
Qed.

Lemma C9_invalid_skill_counts_as_passed_witness :
  sd_manifest Sample.missing_dir = NoManifest
  /\ exists r : SkillResult,
       SkillScanner.scan_skill Sample.sample_env Sample.missing_dir "all"
         (Sample.sample_world ∅) = (Ret r, Sample.sample_world ∅)
       /\ res_is_valid r = false
       /\ findings r = []
       /\ risk_score r = 0.0%Q
       /\ classification r = "low"
       /\ (forall rs1 rs2,
             passed_count (ScanReport.from_results (rs1 ++ r :: rs2))
             = S (passed_count (ScanReport.from_results (rs1 ++ rs2))))
       /\ (forall low rs1 rs2,
             classification low = "low" ->
             passed_count (ScanReport.from_results (rs1 ++ r :: rs2))
             = passed_count (ScanReport.from_results (rs1 ++ low :: rs2))).
Proof.
  split; [reflexivity |].
  apply (C9_invalid_skill_counts_as_passed Sample.sample_env
           Sample.missing_dir "all" (Sample.sample_world ∅)).
  left; reflexivity.
Defined.

(** ** The source check of the trust ledger (C10) *)

(** C10. A declared source that is a non-empty string other than "unknown"
    and "self" and that does not start with "http" makes [_verify_source]
    return no finding. *)
Theorem C10_source_check_not_exhaustive (skill : Skill) (src : string) :
  metadata skill !! "source" = Some src ->
  src <> "" -> src <> "unknown" -> src <> "self" ->
  PyStr.startswith src "http" = false ->
  TrustVerifier._verify_source skill = [].
Proof.
  intros Hsrc Hne Hunk Hself Hhttp.
  unfold TrustVerifier._verify_source, Skill.source. rewrite Hsrc. simpl.
  apply String.eqb_neq in Hunk, Hself. rewrite Hunk, Hself, Hhttp.
  destruct src; [contradiction | reflexivity].
Qed.

Lemma C10_source_check_not_exhaustive_witness :
  metadata Sample.local_source_skill !! "source" = Some "local-notes"
  /\ TrustVerifier._verify_source Sample.local_source_skill = [].
Proof.
  split; [reflexivity |].
  apply (C10_source_check_not_exhaustive Sample.local_source_skill
           "local-notes");
    [reflexivity | discriminate | discriminate | discriminate | reflexivity].
Defined.

(** ** The permission score (C6) *)

(** C6, on the manifest that declares [permissions: network] with the
    permission [network] configured at 0.8: [_get_permission_score] walks
    the characters of the metadata string, finds none of them in the table
    and returns 0.0, while the declared permission list is [network] and the
    largest configured score among the declared permissions is 0.8. *)
Theorem C6_permission_score_walks_characters :
  let skill := Skill.from_path Sample.sample_re Sample.permission_dir in
  let self := Sample.sample_scanner ∅ in
  is_valid skill = true
  /\ metadata skill !! "permissions" = Some "network"
  /\ Skill.permissions skill = ["network"]
  /\ th_permissions (thresholds_config self) !! "network" = Some 0.8%Q
  /\ SkillScanner._get_permission_score self skill = 0.0%Q
  /\ spec_permission_score self skill = 0.8%Q.
Proof. vm_compute. repeat split; reflexivity. Qed.

(** Without declared permissions the score is the risk-level table
    (none 0.0, safe 0.2, critical 0.6, offensive 0.9, unknown 0.5, and 0.5
    for any other label), as the specification says. *)
Lemma permission_score_without_permissions
    (self : SkillScanner) (skill : Skill) :
  metadata skill !! "permissions" = None ->
  SkillScanner._get_permission_score self skill
  = SkillScanner.risk_scores_get SkillScanner.risk_scores
      (Skill.risk_level skill).
Proof.
  intros H. unfold SkillScanner._get_permission_score. now rewrite H.
Qed.

(** ** Order of the findings of a result (C2) *)

(** C2, on the benign self-attributed skill: level 1 finds nothing, level 4
    contributes [self_attributed] (0.10) and then [community_skill] (0.15);
    the result keeps that order, which is not descending, and [top_finding]
    is the description of the first finding, not of the most severe one. *)
Theorem C2_result_findings_not_sorted :
  exists (r : SkillResult) (w' : World),
    SkillScanner.scan_skill Sample.sample_env Sample.benign_dir "all"
      (Sample.sample_world ∅) = (Ret r, w')
    /\ map (fun f => (level f, name f, severity f)) (findings r)
       = [ ("L4", "self_attributed", 0.10%Q);
           ("L4", "community_skill", 0.15%Q) ]
    /\ ~ sorted_desc (findings r)
    /\ top_finding r = Some "Skill is self-attributed (original work)"
    /\ exists f, In f (findings r)
                 /\ (forall g, In g (findings r) -> (severity g <= severity f)%Q)
                 /\ Some (description f) <> top_finding r.
Proof.
  eexists. eexists. split; [vm_compute; reflexivity |].
  split; [reflexivity |]. split.
  - intros Hs. inversion Hs as [| a l _ Hall]; subst.
    inversion Hall as [| b l' Hle _]; subst.
    revert Hle. cbn [severity]. unfold Qle; simpl. lia.
  - split; [reflexivity |].
    eexists. split; [right; left; reflexivity |]. split.
    + intros g [<- | [<- | []]]; cbn [severity]; unfold Qle; simpl; lia.
    + discriminate.
Qed.

(** ** Range of the severities (C3) *)

(** C3, on a classifier answer whose finding carries severity 1.5: the
    level 2 analyzer returns a finding with that severity, which the
    scanner reads as the number 1.5, above 1.0. *)
Theorem C3_classifier_severity_passed_through :
  exists (f : FindingOf PyVal) (g : Finding) (w' : World),
    SemanticAnalyzer.analyze
      (Sample.env_with_oracle Sample.overrated_analysis)
      (Skill.from_path Sample.sample_re Sample.benign_dir)
      (Sample.sample_world ∅) = (Ret [f], w')
    /\ level f = "L2"
    /\ severity f = PyNum (NFloat 1.5%Q)
    /\ SkillScanner.read_severity f = Ret g
    /\ severity g = 1.5%Q
    /\ ~ (severity g <= 1.0)%Q.
Proof.
  eexists. eexists. eexists. split; [vm_compute; reflexivity |].
  split; [reflexivity |]. split; [reflexivity |].
  split; [reflexivity |]. split; [reflexivity |].
  cbn [severity]. unfold Qle; simpl. lia.
Qed.

(** ** What each level does to the world *)

Lemma levels_of_app (a b : list Event) :
  levels_of (a ++ b) = levels_of a ++ levels_of b.
Proof. unfold levels_of. apply omap_app. Qed.

Lemma sandbox_runs_of_app (a b : list Event) :
  sandbox_runs_of (a ++ b) = sandbox_runs_of a ++ sandbox_runs_of b.
Proof. unfold sandbox_runs_of. apply omap_app. Qed.

Lemma level_step_refl (env : Env) (w : World) : level_step env [] w w.
Proof.
  split; try reflexivity. exists []. now rewrite app_nil_r.
Qed.

Lemma level_step_trans (env : Env) (l12 l23 : list string)
    (w1 w2 w3 : World) :
  level_step env l12 w1 w2 -> level_step env l23 w2 w3 ->
  level_step env (l12 ++ l23) w1 w3.
Proof.
  intros [a1 a3 a4 at_ a2 (e1 & t1 & n1)] [b1 b3 b4 bt b2 (e2 & t2 & n2)].
  split; try congruence.
  exists (e1 ++ e2). split.
  - now rewrite t2, t1, app_assoc.
  - now rewrite levels_of_app, n1, n2.
Qed.

Lemma level_step_add_events (env : Env) (evs : list Event) (w : World) :
  level_step env (levels_of evs) w (add_events evs w).
Proof. split; try reflexivity. now exists evs. Qed.

Lemma add_events_add_events (e1 e2 : list Event) (w : World) :
  add_events e2 (add_events e1 w) = add_events (e1 ++ e2) w.
Proof. unfold add_events; simpl. now rewrite app_assoc. Qed.

Lemma emit_eq (ev : Event) (w : World) :
  emit ev w = (Ret tt, add_events [ev] w).
Proof. reflexivity. Qed.

(** Level 1 returns its list and touches nothing. *)
Lemma l1_analyze_eq (re : ReLib) (skill : Skill) (w : World) :
  StaticAnalyzer.analyze re skill w
  = (Ret (StaticAnalyzer.analyze_body re (l1_analyzer (scanner w)) skill), w).
Proof. reflexivity. Qed.

Lemma add_events_nil (w : World) : add_events [] w = w.
Proof. unfold add_events. rewrite app_nil_r. now destruct w. Qed.

Lemma level_step_no_level (env : Env) (evs : list Event) (w : World) :
  levels_of evs = [] -> level_step env [] w (add_events evs w).
Proof.
  intros H. rewrite <- H. apply level_step_add_events.
Qed.

Lemma oracle_calls_of_app (a b : list Event) :
  oracle_calls_of (a ++ b) = oracle_calls_of a ++ oracle_calls_of b.
Proof. unfold oracle_calls_of. apply omap_app. Qed.

Lemma levels_of_oracle_calls (nm : string) (n : nat) :
  levels_of (repeat (EvOracleCall nm) n) = [].
Proof. induction n; simpl; auto. Qed.

Lemma oracle_calls_of_repeat (nm : string) (n : nat) :
  oracle_calls_of (repeat (EvOracleCall nm) n) = repeat nm n.
Proof.
  induction n as [| n IH]; [reflexivity |].
  cbn [repeat]. change (EvOracleCall nm :: repeat (EvOracleCall nm) n)
    with ([EvOracleCall nm] ++ repeat (EvOracleCall nm) n).
  rewrite oracle_calls_of_app, IH. reflexivity.
Qed.

(** One attempt sends one request and ends as [attempt_outcome] says. *)
Lemma attempt_eq (env : Env) (skill : Skill) (k : nat) (w : World) :
  SemanticAnalyzer._analyze_async_attempt env skill k w
  = (attempt_outcome env skill k,
     add_events [EvOracleCall (skill_name skill)] w).
Proof.
  unfold SemanticAnalyzer._analyze_async_attempt, attempt_outcome.
  unfold mbind, M_bind, emit, modify, lift, raise.
  now destruct (oracle env skill k).
Qed.

(** The retried call sends [fst (retried ...)] requests and ends as
    [snd (retried ...)] says. *)
Lemma retry_eq (env : Env) (skill : Skill) (more : nat) :
  forall (k : nat) (w : World),
    SemanticAnalyzer.retry env more k
      (SemanticAnalyzer._analyze_async_attempt env skill) w
    = (snd (retried env skill more k),
       add_events (repeat (EvOracleCall (skill_name skill))
                          (fst (retried env skill more k))) w).
Proof.
  induction more as [| more IH]; intros k w;
    cbn [SemanticAnalyzer.retry retried]; unfold try_except;
    rewrite attempt_eq;
    destruct (attempt_outcome env skill k) as [fs | e]; try reflexivity.
  rewrite IH, add_events_add_events. reflexivity.
Qed.

Lemma retried_count (env : Env) (skill : Skill) (more : nat) :
  forall k, 1 <= fst (retried env skill more k) <= S more.
Proof.
  induction more as [| more IH]; intros k; cbn [retried];
    destruct (attempt_outcome env skill k); simpl; try lia.
  specialize (IH (S k)). lia.
Qed.

(** Level 2 always returns: a fault of the classifier call becomes the
    [analysis_error] finding. It sends its requests and touches nothing
    but its own configuration. *)
Lemma l2_analyze_eq (env : Env) (skill : Skill) (w : World) :
  exists w',
    SemanticAnalyzer.analyze env skill w = (Ret (l2_findings env skill w), w')
    /\ level_step env [] w w'
    /\ audit_log w' = audit_log w
    /\ new_events w w'
       = (if l2_configured env w
          then repeat (EvOracleCall (skill_name skill))
                      (fst (retried env skill 2 0))
          else []).
Proof.
  pose proof (retry_eq env skill 2 0) as Hretry.
  fold (SemanticAnalyzer._analyze_async env skill) in Hretry.
  unfold l2_findings.
  generalize dependent (retried env skill 2 0). intros [n o] Hretry.
  cbn [fst snd] in *.
  set (calls := repeat (EvOracleCall (skill_name skill)) n) in *.
  assert (Hlv : levels_of calls = []) by apply levels_of_oracle_calls.
  clearbody calls.
  unfold SemanticAnalyzer.analyze, SemanticAnalyzer._ensure_config,
    l2_configured, l2_config_of.
  unfold mbind, M_bind, get_world, modify, mret, M_ret.
  destruct (sem_config (l2_analyzer (scanner w))) as [cfg |] eqn:Hcfg;
    cbn [default from_option fst snd].
  - unfold id.
    destruct (PyStr.truthy (api_url cfg)); cbn [negb orb andb];
      [destruct (PyStr.truthy (api_key cfg)); cbn [negb orb andb] |].
    + unfold try_except. rewrite Hretry.
      exists (add_events calls w).
      destruct o; (split; [reflexivity |]);
        (split; [now apply level_step_no_level |]);
        (split; [reflexivity | now apply new_events_app]).
    + exists w. split; [reflexivity |].
      split; [apply level_step_refl |]. split; [reflexivity |].
      apply new_events_app. now rewrite app_nil_r.
    + exists w. split; [reflexivity |].
      split; [apply level_step_refl |]. split; [reflexivity |].
      apply new_events_app. now rewrite app_nil_r.
  - set (w0 := SemanticAnalyzer.set_l2
                 {| sem_config := Some (gemini_env env) |} w).
    assert (S0 : forall evs, levels_of evs = [] ->
                             level_step env [] w (add_events evs w0)).
    { intros evs He. split; try reflexivity.
      - unfold l2_config_of; simpl. now rewrite Hcfg.
      - exists evs. split; [reflexivity | exact He]. }
    destruct (PyStr.truthy (api_url (gemini_env env))); cbn [negb orb andb];
      [destruct (PyStr.truthy (api_key (gemini_env env)));
       cbn [negb orb andb] |].
    + unfold try_except. rewrite Hretry.
      exists (add_events calls w0).
      destruct o; (split; [reflexivity |]);
        (split; [now apply S0 |]);
        (split; [reflexivity | now apply new_events_app]).
    + exists w0. split; [reflexivity |].
      split; [rewrite <- (add_events_nil w0); now apply S0 |].
      split; [reflexivity |].
      apply new_events_app. simpl. now rewrite app_nil_r.
    + exists w0. split; [reflexivity |].
      split; [rewrite <- (add_events_nil w0); now apply S0 |].
      split; [reflexivity |].
      apply new_events_app. simpl. now rewrite app_nil_r.
Qed.

(** The findings of level 2 depend on the world only through the
    configuration it works with. *)
Lemma l2_findings_config (env : Env) (skill : Skill) (w1 w2 : World) :
  l2_config_of env w1 = l2_config_of env w2 ->
  l2_findings env skill w1 = l2_findings env skill w2.
Proof. intros H. unfold l2_findings, l2_configured. now rewrite H. Qed.

(** ** The fragments of level 3 *)

Lemma levels_of_run_events (i n : nat) :
  levels_of (flat_map run_events (seq i n)) = [].
Proof.
  revert i. induction n as [| n IH]; intros i; [reflexivity |].
  cbn [seq flat_map]. rewrite levels_of_app, IH. reflexivity.
Qed.

Lemma sandbox_runs_of_run_events (i n : nat) :
  sandbox_runs_of (flat_map run_events (seq i n)) = seq i n.
Proof.
  revert i. induction n as [| n IH]; intros i; [reflexivity |].
  cbn [seq flat_map]. rewrite sandbox_runs_of_app, IH. reflexivity.
Qed.

(** The run of a fragment whose temporary file is written. *)
Lemma run_in_sandbox_eq (env : Env) (self : DynamicAnalyzer) (b : CodeBlock)
    (nm : string) (i : nat) (w : World) :
  tempfile env b i = TempWritten ->
  DynamicAnalyzer._run_in_sandbox env self b nm i w
  = (Ret (DynamicAnalyzer.findings_of_run self (sandbox_run env b i) i),
     add_events (run_events i) w).
Proof.
  intros Ht. unfold DynamicAnalyzer._run_in_sandbox. rewrite Ht.
  unfold mbind, M_bind, emit, modify, mret, M_ret, add_events, run_events;
    simpl.
  now rewrite <- !app_assoc.
Qed.

(** The run of a fragment whose temporary file cannot be written: the
    exception leaves the method, before the container is started. *)
Lemma run_in_sandbox_fault (env : Env) (self : DynamicAnalyzer)
    (b : CodeBlock) (nm : string) (i : nat) (w : World) (created : bool)
    (e : PyExn) :
  tempfile env b i = TempFails created e ->
  DynamicAnalyzer._run_in_sandbox env self b nm i w
  = (Raise e, add_events (if created then [EvTempCreate i] else []) w).
Proof.
  intros Ht. unfold DynamicAnalyzer._run_in_sandbox. rewrite Ht.
  destruct created.
  - reflexivity.
  - unfold mbind, M_bind, mret, M_ret, raise. now rewrite add_events_nil.
Qed.

Lemma first_temp_fault_ge (env : Env) (xs : list CodeBlock) :
  forall i k c e,
    first_temp_fault env i xs = Some (k, c, e) ->
    i <= k < i + length xs
    /\ exists b, xs !! (k - i) = Some b /\ tempfile env b k = TempFails c e.
Proof.
  induction xs as [| b xs IH]; intros i k c e; cbn [first_temp_fault];
    [discriminate |].
  destruct (tempfile env b i) as [| c' e'] eqn:Ht.
  - intros H. destruct (IH _ _ _ _ H) as (Hk & b' & Hb & Hf).
    split; [simpl; lia |]. exists b'. split; [| exact Hf].
    replace (k - i) with (S (k - S i)) by lia. exact Hb.
  - intros [= <- <- <-]. split; [simpl; lia |].
    exists b. rewrite Nat.sub_diag. split; [reflexivity | exact Ht].
Qed.

Lemma first_temp_fault_none (env : Env) (xs : list CodeBlock) :
  forall i,
    first_temp_fault env i xs = None
    <-> forall j b, xs !! j = Some b -> tempfile env b (i + j) = TempWritten.
Proof.
  induction xs as [| b xs IH]; intros i; cbn [first_temp_fault].
  - split; [intros _ j b' H; discriminate H | reflexivity].
  - destruct (tempfile env b i) as [| c e] eqn:Ht.
    + rewrite IH. split.
      * intros H [| j] b' Hb.
        -- injection Hb as <-. now rewrite Nat.add_0_r.
        -- rewrite Nat.add_succ_r. now apply (H j).
      * intros H j b' Hb. specialize (H (S j) b' Hb).
        now rewrite Nat.add_succ_r in H.
    + split; [discriminate |]. intros H.
      specialize (H 0 b eq_refl). rewrite Nat.add_0_r in H. congruence.
Qed.

Lemma for_extend_sandbox (env : Env) (self : DynamicAnalyzer) (nm : string)
    (xs : list CodeBlock) :
  forall (i : nat) (acc : list Finding) (w : World),
    for_extend (fun i b => DynamicAnalyzer._run_in_sandbox env self b nm i)
      i xs acc w
    = (fst (loop_result env self i xs acc),
       add_events (snd (loop_result env self i xs acc)) w).
Proof.
  induction xs as [| b xs IH]; intros i acc w; unfold loop_result;
    cbn [for_extend first_temp_fault].
  - simpl. now rewrite app_nil_r, add_events_nil.
  - destruct (tempfile env b i) as [| created e] eqn:Ht.
    + rewrite (bind_ret _ _ _ _ _ (run_in_sandbox_eq env self b nm i w Ht)).
      rewrite IH. unfold loop_result.
      destruct (first_temp_fault env (S i) xs) as [[[k c] e] |] eqn:Hf;
        cbn [fst snd]; rewrite add_events_add_events.
      * destruct (first_temp_fault_ge env xs _ _ _ _ Hf) as [Hk _].
        f_equal. f_equal. rewrite app_assoc. f_equal.
        replace (k - i) with (S (k - S i)) by lia. reflexivity.
      * f_equal.
        rewrite <- app_assoc. f_equal. f_equal.
        rewrite imap_cons. cbn [concat]. rewrite Nat.add_0_r. f_equal.
        f_equal. apply imap_ext. intros j x _. simpl.
        now rewrite Nat.add_succ_r.
    + rewrite (bind_raise _ _ _ _ _
                 (run_in_sandbox_fault env self b nm i w created e Ht)).
      cbn [fst snd]. now rewrite Nat.sub_diag.
Qed.

Lemma l3_analyze_eq (env : Env) (skill : Skill) (w : World) :
  DynamicAnalyzer.analyze env skill w
  = (fst (l3_result env skill w), add_events (snd (l3_result env skill w)) w).
Proof.
  unfold DynamicAnalyzer.analyze, l3_result, l3_findings, l3_runs.
  unfold mbind at 1. unfold M_bind, get_world.
  destruct (enabled (dyn_config (l3_analyzer (scanner w)))); simpl;
    [| now rewrite add_events_nil].
  destruct (docker_available (l3_analyzer (scanner w))); simpl;
    [| now rewrite add_events_nil].
  destruct (DynamicAnalyzer._extract_testable_code skill) as [| b bs] eqn:Hb.
  - simpl. now rewrite add_events_nil.
  - apply for_extend_sandbox.
Qed.

Lemma l3_result_levels (env : Env) (skill : Skill) (w : World) :
  levels_of (snd (l3_result env skill w)) = [].
Proof.
  unfold l3_result. destruct (l3_runs skill w); [| reflexivity].
  destruct (DynamicAnalyzer._extract_testable_code skill) as [| b bs];
    [reflexivity |].
  unfold loop_result.
  destruct (first_temp_fault env 0 (b :: bs)) as [[[k c] e] |]; cbn [snd].
  - rewrite levels_of_app, levels_of_run_events. now destruct c.
  - apply levels_of_run_events.
Qed.

(** When level 3 returns it returns [l3_findings]. *)
Lemma l3_result_ret (env : Env) (skill : Skill) (w : World)
    (fs : list Finding) :
  fst (l3_result env skill w) = Ret fs -> fs = l3_findings env skill w.
Proof.
  unfold l3_result, l3_findings, l3_runs.
  destruct (enabled (dyn_config (l3_analyzer (scanner w)))); simpl;
    [| congruence].
  destruct (docker_available (l3_analyzer (scanner w))); simpl;
    [| congruence].
  destruct (DynamicAnalyzer._extract_testable_code skill) as [| b bs];
    [simpl; congruence |].
  unfold loop_result.
  destruct (first_temp_fault env 0 (b :: bs)) as [[[k c] e] |]; cbn [fst];
    [discriminate |].
  intros [= <-]. reflexivity.
Qed.

(** ** Level 4 *)

(** The author check touches nothing. *)
Lemma verify_author_pure (env : Env) (self : TrustVerifier) (skill : Skill)
    (w : World) :
  TrustVerifier._verify_author env self skill w
  = (fst (TrustVerifier._verify_author env self skill w), w).
Proof.
  unfold TrustVerifier._verify_author.
  destruct (trusted_authors self !! default "unknown" (metadata skill !! "author"))
    as [[rep ver | ty] |]; [| reflexivity |].
  - unfold mbind, M_bind, lift, mret, M_ret.
    destruct (PyVal.truthy (default (PyNum (NBool false)) ver)).
    + destruct (py_ge (default (PyNum (NFloat 0.5)) rep) 0.8) as [[|] | e];
        try reflexivity.
      destruct (py_ge (default (PyNum (NFloat 0.5)) rep) 0.5) as [[|] | e];
        reflexivity.
    + destruct (py_ge (default (PyNum (NFloat 0.5)) rep) 0.5) as [[|] | e];
        reflexivity.
  - repeat match goal with
           | |- context [if ?x then _ else _] => destruct x
           end; reflexivity.
Qed.

(** Level 4 touches only the audit log. *)
Lemma l4_verify_frame (env : Env) (skill : Skill) (w : World) :
  exists o w',
    TrustVerifier.verify env skill w = (o, w')
    /\ scanner w' = scanner w
    /\ trace w' = trace w.
Proof.
  unfold TrustVerifier.verify.
  unfold mbind at 1. unfold M_bind, get_world.
  unfold mbind at 1. unfold M_bind.
  rewrite verify_author_pure.
  destruct (fst (TrustVerifier._verify_author env (l4_verifier (scanner w))
                   skill w)) as [fs | e].
  - unfold mbind, M_bind, TrustVerifier._log_audit.
    destruct (audit_writable env); eexists; eexists;
      (split; [reflexivity |]); split; reflexivity.
  - eexists; eexists. split; [reflexivity |]. split; reflexivity.
Qed.

(** ** The four stages of [scan_skill] *)

Lemma stage_l1 (env : Env) (skill : Skill) (fs : list Finding) (w : World) :
  (emit (EvLevel "L1");;
   l1_findings ← StaticAnalyzer.analyze (relib env) skill;
   mret (fs ++ l1_findings)) w
  = (Ret (fs ++ StaticAnalyzer.analyze_body (relib env)
                  (l1_analyzer (scanner w)) skill),
     add_events [EvLevel "L1"] w).
Proof. reflexivity. Qed.

(** Level 2 returns, and the scanner reads the severities of its findings:
    a severity that is not a number ends the scan with [TypeError]. *)
Lemma stage_l2 (env : Env) (skill : Skill) (fs : list Finding) (w : World) :
  exists w',
    (emit (EvLevel "L2");;
     l2_findings ← SemanticAnalyzer.analyze env skill;
     l2_findings ← lift (SkillScanner.read_severities l2_findings);
     mret (fs ++ l2_findings)) w
    = (match SkillScanner.read_severities (l2_findings env skill w) with
       | Ret l2 => Ret (fs ++ l2)
       | Raise e => Raise e
       end, w')
    /\ level_step env ["L2"] w w'
    /\ audit_log w' = audit_log w
    /\ new_events w w'
       = EvLevel "L2"
         :: (if l2_configured env w
             then repeat (EvOracleCall (skill_name skill))
                         (fst (retried env skill 2 0))
             else []).
Proof.
  destruct (l2_analyze_eq env skill (add_events [EvLevel "L2"] w))
    as (w' & Heq & Hstep & Haud & Hev).
  exists w'. split; [| split; [| split]].
  - rewrite (bind_ret _ _ _ _ _ (emit_eq (EvLevel "L2") w)).
    rewrite (bind_ret _ _ _ _ _ Heq).
    rewrite (l2_findings_config env skill (add_events [EvLevel "L2"] w) w)
      by reflexivity.
    unfold mbind, M_bind, lift, mret, M_ret.
    now destruct (SkillScanner.read_severities (l2_findings env skill w)).
  - apply (level_step_trans env ["L2"] [] w _ w'
             (level_step_add_events env [EvLevel "L2"] w) Hstep).
  - exact Haud.
  - destruct (ls_trace _ _ _ _ Hstep) as (evs & Ht & _).
    rewrite (new_events_app _ _ _ Ht) in Hev.
    apply new_events_app. rewrite Ht. simpl. rewrite <- app_assoc.
    simpl. now rewrite Hev.
Qed.

Lemma stage_l3 (env : Env) (skill : Skill) (fs : list Finding) (w : World) :
  (emit (EvLevel "L3");;
   l3_findings ← DynamicAnalyzer.analyze env skill;
   mret (fs ++ l3_findings)) w
  = (match fst (l3_result env skill w) with
     | Ret l3 => Ret (fs ++ l3)
     | Raise e => Raise e
     end,
     add_events (EvLevel "L3" :: snd (l3_result env skill w)) w).
Proof.
  rewrite (bind_ret _ _ _ _ _ (emit_eq (EvLevel "L3") w)).
  unfold mbind, M_bind. rewrite l3_analyze_eq.
  assert (Hr : l3_result env skill (add_events [EvLevel "L3"] w)
               = l3_result env skill w) by reflexivity.
  rewrite Hr, add_events_add_events.
  now destruct (fst (l3_result env skill w)).
Qed.

(** The scan of a valid skill at level "all", stage by stage: which
    findings are gathered, which levels are called, and where it ends. *)
Lemma scan_skill_all (env : Env) (d : SkillDir) (w : World) :
  let skill := Skill.from_path (relib env) d in
  let l1 :=
    StaticAnalyzer.analyze_body (relib env) (l1_analyzer (scanner w)) skill in
  is_valid skill = true ->
  exists w2 : World,
    level_step env
      (["L1"] ++ (if SkillScanner.should_run_l2 skill l1 then ["L2"] else []))
      w w2
    /\ audit_log w2 = audit_log w
    /\ SkillScanner.scan_skill env d "all" w
       = match after_l2 env skill w l1 with
         | Raise e => (Raise e, w2)
         | Ret l12 =>
             let w3 :=
               if SkillScanner.should_run_l3 l12
               then add_events (EvLevel "L3" :: snd (l3_result env skill w))
                               w2
               else w2 in
             match (if SkillScanner.should_run_l3 l12
                    then fst (l3_result env skill w) else Ret []) with
             | Raise e => (Raise e, w3)
             | Ret l3 =>
                 match TrustVerifier.verify env skill
                         (add_events [EvLevel "L4"] w3) with
                 | (Ret l4, w4) =>
                     (Ret (SkillScanner.aggregate (scanner w4) skill d
                             (l12 ++ l3 ++ l4)), w4)
                 | (Raise e, w4) => (Raise e, w4)
                 end
             end
         end.
Proof.
  intros skill l1 Hvalid.
  (* stage 2 *)
  assert (exists w2,
            (if SkillScanner.should_run_l2 skill l1
             then emit (EvLevel "L2");;
                  l2_findings ← SemanticAnalyzer.analyze env skill;
                  l2_findings ←
                    lift (SkillScanner.read_severities l2_findings);
                  mret (l1 ++ l2_findings)
             else mret l1) (add_events [EvLevel "L1"] w)
            = (after_l2 env skill w l1, w2)
            /\ level_step env
                 (["L1"] ++ (if SkillScanner.should_run_l2 skill l1
                             then ["L2"] else [])) w w2
            /\ audit_log w2 = audit_log w) as (w2 & E2 & S2 & A2).
  { unfold after_l2. destruct (SkillScanner.should_run_l2 skill l1).
    - destruct (stage_l2 env skill l1 (add_events [EvLevel "L1"] w))
        as (w2 & E & S & A & _).
      exists w2. split; [| split; [| exact A]].
      + rewrite E.
        now rewrite (l2_findings_config env skill
                       (add_events [EvLevel "L1"] w) w) by reflexivity.
      + apply (level_step_trans env ["L1"] ["L2"] w _ w2
                 (level_step_add_events env [EvLevel "L1"] w) S).
    - exists (add_events [EvLevel "L1"] w).
      split; [reflexivity |]. split; [| reflexivity].
      apply (level_step_add_events env [EvLevel "L1"] w). }
  exists w2. split; [exact S2 |]. split; [exact A2 |].
  unfold SkillScanner.scan_skill. fold skill. rewrite Hvalid.
  cbn [negb]. change (str_in_list "all" ["all"; "L1"; "l1"]) with true.
  change (str_in_list "all" ["all"; "L2"; "l2"]) with true.
  change (str_in_list "all" ["all"; "L3"; "l3"]) with true.
  change (str_in_list "all" ["all"; "L4"; "l4"]) with true.
  cbn iota.
  rewrite (bind_ret _ _ _ _ _ (stage_l1 env skill [] w)).
  change ([] ++ StaticAnalyzer.analyze_body (relib env)
                  (l1_analyzer (scanner w)) skill) with l1.
  destruct (after_l2 env skill w l1) as [l12 | e] eqn:E12.
  2: { now rewrite (bind_raise _ _ _ _ _ E2). }
  rewrite (bind_ret _ _ _ _ _ E2).
  assert (Hr : l3_result env skill w2 = l3_result env skill w).
  { unfold l3_result, l3_runs, l3_findings. now rewrite (ls_l3 _ _ _ _ S2). }
  destruct (SkillScanner.should_run_l3 l12).
  - pose proof (stage_l3 env skill l12 w2) as E3. rewrite Hr in E3.
    destruct (fst (l3_result env skill w)) as [l3 | e].
    2: { now rewrite (bind_raise _ _ _ _ _ E3). }
    rewrite (bind_ret _ _ _ _ _ E3).
    unfold mbind at 1. unfold M_bind at 1.
    rewrite (bind_ret _ _ _ _ _ (emit_eq (EvLevel "L4") _)).
    unfold mbind at 1. unfold M_bind at 1.
    destruct (TrustVerifier.verify env skill _) as [[l4 | e] w4];
      [| reflexivity].
    unfold mret at 1. unfold M_ret at 1.
    unfold mbind, M_bind, get_world, mret, M_ret.
    now rewrite <- !app_assoc.
  - rewrite (bind_ret _ _ w2 w2 l12 eq_refl).
    unfold mbind at 1. unfold M_bind at 1.
    rewrite (bind_ret _ _ _ _ _ (emit_eq (EvLevel "L4") _)).
    unfold mbind at 1. unfold M_bind at 1.
    destruct (TrustVerifier.verify env skill _) as [[l4 | e] w4];
      [| reflexivity].
    unfold mret at 1. unfold M_ret at 1.
    unfold mbind, M_bind, get_world, mret, M_ret.
    now rewrite app_nil_l.
Qed.

(** ** Python's [max] *)

Lemma Qlt_bool_true (a b : Q) : Qlt_bool a b = true <-> (a < b)%Q.
Proof.
  unfold Qlt_bool. rewrite negb_true_iff.
  split; intros H.
  - apply Qnot_le_lt. intros Hle. apply Qle_bool_iff in Hle. congruence.
  - destruct (Qle_bool b a) eqn:E; [| reflexivity].
    apply Qle_bool_iff in E. exfalso. exact (Qlt_not_le _ _ H E).
Qed.

Lemma Qlt_bool_false (a b : Q) : Qlt_bool a b = false <-> (b <= a)%Q.
Proof.
  unfold Qlt_bool. rewrite negb_false_iff. apply Qle_bool_iff.
Qed.

Lemma py_max_l (a b : Q) : (a <= py_max a b)%Q.
Proof.
  unfold py_max. destruct (Qlt_bool a b) eqn:E.
  - apply Qlt_bool_true in E. now apply Qlt_le_weak.
  - apply Qle_refl.
Qed.

Lemma py_max_r (a b : Q) : (b <= py_max a b)%Q.
Proof.
  unfold py_max. destruct (Qlt_bool a b) eqn:E.
  - apply Qle_refl.
  - now apply Qlt_bool_false in E.
Qed.

Lemma py_max_cases (a b : Q) : py_max a b = a \/ py_max a b = b.
Proof. unfold py_max. destruct (Qlt_bool a b); auto. Qed.

Lemma fold_py_max_ge (xs : list Q) :
  forall a, (a <= fold_left py_max xs a)%Q
            /\ (forall x, In x xs -> (x <= fold_left py_max xs a)%Q).
Proof.
  induction xs as [| y xs IH]; intros a; simpl.
  - split; [apply Qle_refl | intros x []].
  - destruct (IH (py_max a y)) as [H1 H2]. split.
    + eapply Qle_trans; [apply py_max_l | exact H1].
    + intros x [<- | Hx]; [| now apply H2].
      eapply Qle_trans; [apply py_max_r | exact H1].
Qed.

Lemma fold_py_max_in (xs : list Q) :
  forall a, fold_left py_max xs a = a \/ In (fold_left py_max xs a) xs.
Proof.
  induction xs as [| y xs IH]; intros a; simpl; [now left |].
  destruct (IH (py_max a y)) as [H | H]; [| now right; right].
  rewrite H. destruct (py_max_cases a y) as [-> | ->]; auto.
Qed.

(** [max(xs, default=d)] is an upper bound of [xs], and one of its
    elements unless [xs] is empty, where it is [d]. *)
Lemma py_max_list_ge (xs : list Q) (d x : Q) :
  In x xs -> (x <= py_max_list xs d)%Q.
Proof.
  destruct xs as [| y xs]; [intros [] |]. simpl.
  destruct (fold_py_max_ge xs y) as [H1 H2].
  intros [<- | Hx]; auto.
Qed.

Lemma py_max_list_in (xs : list Q) (d : Q) :
  xs <> [] -> In (py_max_list xs d) xs.
Proof.
  destruct xs as [| y xs]; [congruence |]. intros _. simpl.
  destruct (fold_py_max_in xs y) as [-> | H]; auto.
Qed.

Lemma py_max_list_nil (d : Q) : py_max_list [] d = d.
Proof. reflexivity. Qed.

(** ** The escalation gates (C1) *)

Lemma should_run_l2_iff (skill : Skill) (fs : list Finding) :
  SkillScanner.should_run_l2 skill fs = true
  <-> (metadata skill !! "risk" = Some "offensive"
       \/ exists f, In f fs /\ (0.3 <= severity f)%Q).
Proof.
  unfold SkillScanner.should_run_l2.
  rewrite orb_true_iff, bool_decide_eq_true, existsb_exists.
  split; (intros [H | (f & Hin & Hf)]; [now left | right; exists f]);
    (split; [exact Hin | now apply Qle_bool_iff]).
Qed.

Lemma should_run_l3_iff (fs : list Finding) :
  SkillScanner.should_run_l3 fs = true
  <-> (0.6 <= py_max_list (map severity fs) 0)%Q.
Proof. unfold SkillScanner.should_run_l3. apply Qle_bool_iff. Qed.

(** The level 3 gate, said with the findings: some finding gathered so far
    has severity at least 0.6. *)
Lemma should_run_l3_exists (fs : list Finding) :
  SkillScanner.should_run_l3 fs = true
  <-> exists f, In f fs /\ (0.6 <= severity f)%Q.
Proof.
  rewrite should_run_l3_iff. split.
  - intros H. destruct fs as [| g fs].
    + exfalso. revert H. simpl. unfold Qle; simpl. lia.
    + assert (Hin : In (py_max_list (map severity (g :: fs)) 0)
                       (map severity (g :: fs)))
        by (apply py_max_list_in; discriminate).
      apply in_map_iff in Hin as (f & Hf & Hin).
      exists f. split; [exact Hin | now rewrite Hf].
  - intros (f & Hin & Hf).
    eapply Qle_trans; [exact Hf |].
    apply py_max_list_ge. now apply in_map.
Qed.

(** [max(xs, default=d)] is the maximum of [xs]. *)
Lemma py_max_list_is_max (xs : list Q) (d : Q) :
  is_max xs d (py_max_list xs d).
Proof.
  destruct xs as [| x xs]; [reflexivity |]. split.
  - apply py_max_list_in. discriminate.
  - intros y Hy. now apply py_max_list_ge.
Qed.

(** The level 3 gate, said with the maximum. *)
Lemma should_run_l3_is_max (fs : list Finding) :
  SkillScanner.should_run_l3 fs = true
  <-> exists m, is_max (map severity fs) 0 m /\ (0.6 <= m)%Q.
Proof.
  rewrite should_run_l3_iff. split.
  - intros H. exists (py_max_list (map severity fs) 0).
    split; [apply py_max_list_is_max | exact H].
  - intros (m & Hm & Hle).
    pose proof (py_max_list_is_max (map severity fs) 0) as Hp.
    destruct (map severity fs) as [| x xs].
    + simpl in Hm. subst m. exact Hle.
    + destruct Hm as [Hin _]. destruct Hp as [_ Hub].
      eapply Qle_trans; [exact Hle | now apply Hub].
Qed.

(** The levels called by the scan of a valid skill at level "all",
    however it ends: L1, L2 when its gate is open, and then, as far as
    the scan gets, L3 and L4. *)
Lemma scan_all_levels (env : Env) (d : SkillDir) (w : World) :
  let skill := Skill.from_path (relib env) d in
  let l1 :=
    StaticAnalyzer.analyze_body (relib env) (l1_analyzer (scanner w)) skill in
  let out := SkillScanner.scan_skill env d "all" w in
  is_valid skill = true ->
  exists rest,
    levels_of (new_events w (snd out))
    = ["L1"] ++ (if SkillScanner.should_run_l2 skill l1 then ["L2"] else [])
      ++ rest
    /\ match fst out with
       | Ret r =>
           exists l12,
             after_l2 env skill w l1 = Ret l12
             /\ rest = (if SkillScanner.should_run_l3 l12 then ["L3"] else [])
                       ++ ["L4"]
       | Raise e =>
           rest = [] \/ rest = ["L3"] \/ rest = ["L4"] \/ rest = ["L3"; "L4"]
       end.
Proof.
  intros skill l1 out Hvalid. subst out.
  destruct (scan_skill_all env d w Hvalid) as (w2 & S2 & _ & Heq).
  fold skill l1 in S2, Heq. rewrite Heq. clear Heq.
  destruct (ls_trace _ _ _ _ S2) as (evs2 & Ht2 & Hl2).
  destruct (after_l2 env skill w l1) as [l12 | e] eqn:E12.
  2: { exists []. cbn [fst snd]. rewrite (new_events_app _ _ _ Ht2), Hl2.
       rewrite app_nil_r. split; [reflexivity | now left]. }
  cbv zeta.
  set (w3 := if SkillScanner.should_run_l3 l12
             then add_events (EvLevel "L3" :: snd (l3_result env skill w)) w2
             else w2).
  assert (Ht3 : exists evs3,
             trace w3 = trace w2 ++ evs3
             /\ levels_of evs3
                = if SkillScanner.should_run_l3 l12 then ["L3"] else []).
  { subst w3. destruct (SkillScanner.should_run_l3 l12).
    - eexists. split; [reflexivity |].
      change (EvLevel "L3" :: snd (l3_result env skill w))
        with ([EvLevel "L3"] ++ snd (l3_result env skill w)).
      now rewrite levels_of_app, l3_result_levels.
    - exists []. now rewrite app_nil_r. }
  destruct Ht3 as (evs3 & Ht3 & Hl3).
  destruct (if SkillScanner.should_run_l3 l12
            then fst (l3_result env skill w) else Ret []) as [l3 | e].
  2: { exists (if SkillScanner.should_run_l3 l12 then ["L3"] else []).
       cbn [fst snd].
       assert (Ht : trace w3 = trace w ++ (evs2 ++ evs3))
         by (rewrite Ht3, Ht2; now rewrite app_assoc).
       rewrite (new_events_app _ _ _ Ht), levels_of_app, Hl2, Hl3.
       rewrite <- app_assoc. split; [reflexivity |].
       destruct (SkillScanner.should_run_l3 l12); auto. }
  destruct (l4_verify_frame env skill (add_events [EvLevel "L4"] w3))
    as (o & w4 & Hv & _ & Ht4).
  rewrite Hv.
  assert (Ht : trace w4 = trace w ++ (evs2 ++ evs3 ++ [EvLevel "L4"])).
  { rewrite Ht4. simpl. rewrite Ht3, Ht2. now rewrite <- !app_assoc. }
  exists ((if SkillScanner.should_run_l3 l12 then ["L3"] else []) ++ ["L4"]).
  assert (Hlv : levels_of (evs2 ++ evs3 ++ [EvLevel "L4"])
                = ["L1"]
                  ++ (if SkillScanner.should_run_l2 skill l1
                      then ["L2"] else [])
                  ++ (if SkillScanner.should_run_l3 l12 then ["L3"] else [])
                  ++ ["L4"]).
  { rewrite !levels_of_app, Hl2, Hl3. now rewrite <- !app_assoc. }
  destruct o as [l4 | e]; cbn [fst snd];
    rewrite (new_events_app _ _ _ Ht), Hlv; (split; [reflexivity |]).
  - now exists l12.
  - destruct (SkillScanner.should_run_l3 l12); auto.
Qed.




(** ** Every run of the scanner is a chain of level steps *)

Lemma steps_ret (env : Env) {A} (a : A) : steps env (mret a : M A).
Proof. intros w. exists []. apply level_step_refl. Qed.

Lemma steps_bind (env : Env) {A B} (m : M A) (f : A -> M B) :
  steps env m -> (forall a, steps env (f a)) -> steps env (m ≫= f).
Proof.
  intros Hm Hf w. destruct (Hm w) as (l1 & S1).
  unfold mbind, M_bind. destruct (m w) as [[a | e] w1]; simpl in *.
  - destruct (Hf a w1) as (l2 & S2).
    exists (l1 ++ l2). eapply level_step_trans; eauto.
  - now exists l1.
Qed.

Lemma steps_emit (env : Env) (ev : Event) : steps env (emit ev).
Proof. intros w. eexists. apply (level_step_add_events env [ev] w). Qed.

Lemma steps_l1 (env : Env) (re : ReLib) (skill : Skill) :
  steps env (StaticAnalyzer.analyze re skill).
Proof. intros w. exists []. apply level_step_refl. Qed.

Lemma steps_l2 (env : Env) (skill : Skill) :
  steps env (SemanticAnalyzer.analyze env skill).
Proof.
  intros w. destruct (l2_analyze_eq env skill w) as (w' & E & S & _ & _).
  exists []. now rewrite E.
Qed.

Lemma steps_l3 (env : Env) (skill : Skill) :
  steps env (DynamicAnalyzer.analyze env skill).
Proof.
  intros w. exists []. rewrite l3_analyze_eq. cbn [snd].
  apply level_step_no_level, l3_result_levels.
Qed.

Lemma steps_l4 (env : Env) (skill : Skill) :
  steps env (TrustVerifier.verify env skill).
Proof.
  intros w. destruct (l4_verify_frame env skill w) as (o & w' & E & Hs & Ht).
  exists []. rewrite E. simpl.
  split; try (now rewrite Hs).
  - unfold l2_config_of. now rewrite Hs.
  - exists []. now rewrite app_nil_r.
Qed.

Lemma steps_lift (env : Env) {A} (o : Outcome A) : steps env (lift o).
Proof. intros w. exists []. apply level_step_refl. Qed.

Lemma steps_if (env : Env) {A} (b : bool) (m1 m2 : M A) :
  steps env m1 -> steps env m2 -> steps env (if b then m1 else m2).
Proof. now destruct b. Qed.

Create HintDb steps_db.
#[local] Hint Resolve steps_ret steps_emit steps_l1 steps_l2 steps_l3
  steps_l4 steps_lift : steps_db.

Lemma steps_scan_skill (env : Env) (d : SkillDir) (lvl : string) :
  steps env (SkillScanner.scan_skill env d lvl).
Proof.
  unfold SkillScanner.scan_skill.
  apply steps_if; [apply steps_ret |].
  repeat first
    [ solve [auto with steps_db]
    | apply steps_bind; [| intros ?]
    | apply steps_if
    | intros w; exists []; apply level_step_refl ].
Qed.

(** ** The pattern engine on list objects (C8) *)

Lemma builds_ret {A} (l : nat) (W : World) (a : A) :
  builds l (mret a) W [] a.
Proof. intros pre xs post _. now rewrite app_nil_r. Qed.

Lemma builds_bind {A B} (l : nat) (W : World) (m : Run A) (k : A -> Run B)
    (fs1 fs2 : list Finding) (a : A) (b : B) :
  builds l m W fs1 a -> builds l (k a) W fs2 b ->
  builds l (m ≫= k) W (fs1 ++ fs2) b.
Proof.
  intros H1 H2 pre xs post Hl. unfold mbind, Run_bind.
  rewrite (H1 pre xs post Hl). cbn [fst snd].
  rewrite (H2 pre (xs ++ fs1) post Hl). now rewrite <- app_assoc.
Qed.

Lemma builds_eq {A} (l : nat) (W : World) (m : Run A)
    (fs fs' : list Finding) (a : A) :
  builds l m W fs a -> fs = fs' -> builds l m W fs' a.
Proof. now intros H <-. Qed.

Lemma builds_append (l : nat) (W : World) (f : Finding) :
  builds l (ListStore.append l f) W [f] tt.
Proof.
  intros pre xs post <-. unfold ListStore.append, ListStore.update.
  cbn [st_world st_lists]. rewrite alter_app_r_alt by lia.
  now rewrite Nat.sub_diag.
Qed.

Lemma builds_self {A} (l : nat) (W : World) (k : StaticAnalyzer -> Run A)
    (fs : list Finding) (a : A) :
  builds l (k (l1_analyzer (scanner W))) W fs a ->
  builds l (ListStore.self ≫= k) W fs a.
Proof. intros H pre xs post Hl. exact (H pre xs post Hl). Qed.

Lemma builds_for {X} (l : nat) (W : World) (xs : list X)
    (body : X -> Run unit) (g : X -> list Finding) :
  (forall x, builds l (body x) W (g x) tt) ->
  builds l (ListStore.for_ xs body) W (flat_map g xs) tt.
Proof.
  intros H. induction xs as [| x xs IH]; cbn [ListStore.for_ flat_map].
  - apply builds_ret.
  - eapply builds_bind; [apply H | exact IH].
Qed.

Lemma builds_if {A} (l : nat) (W : World) (c : bool) (m1 m2 : Run A)
    (fs1 fs2 : list Finding) (a : A) :
  builds l m1 W fs1 a -> builds l m2 W fs2 a ->
  builds l (if c then m1 else m2) W (if c then fs1 else fs2) a.
Proof. now destruct c. Qed.

Lemma builds_option {X A} (l : nat) (W : World) (o : option X)
    (m1 : Run A) (m2 : X -> Run A) (fs1 : list Finding)
    (fs2 : X -> list Finding) (a : A) :
  builds l m1 W fs1 a -> (forall x, builds l (m2 x) W (fs2 x) a) ->
  builds l (match o with Some x => m2 x | None => m1 end) W
    (match o with Some x => fs2 x | None => fs1 end) a.
Proof. destruct o; auto. Qed.

(** A method that makes a new list and fills it leaves one more list in
    the store. *)
Lemma new_builds (body : nat -> Run nat) (fs : list Finding) (s : Store) :
  (forall l, builds l (body l) (st_world s) fs l) ->
  (ListStore.new ≫= body) s
  = (length (st_lists s),
     {| st_world := st_world s; st_lists := st_lists s ++ [fs] |}).
Proof.
  intros H. unfold mbind, Run_bind, ListStore.new. cbn [fst snd].
  exact (H (length (st_lists s)) (st_lists s) [] [] eq_refl).
Qed.

Lemma check_metadata_run (skill : Skill) (s : Store) :
  StaticAnalyzerRun._check_metadata skill s
  = (length (st_lists s),
     {| st_world := st_world s;
        st_lists := st_lists s ++ [StaticAnalyzer._check_metadata skill] |}).
Proof.
  apply new_builds. intros l.
  unfold StaticAnalyzer._check_metadata.
  eapply builds_eq.
  - eapply builds_bind.
    { eapply builds_for. intros field.
      eapply builds_option; [apply builds_append | intros ?; apply builds_ret]. }
    eapply builds_bind.
    { eapply builds_if; [apply builds_ret | apply builds_append]. }
    eapply builds_bind.
    { eapply builds_option; [apply builds_append | intros risk].
      eapply builds_if; [apply builds_ret | apply builds_append]. }
    eapply builds_bind.
    { eapply builds_option; [apply builds_append | intros ?; apply builds_ret]. }
    apply builds_ret.
  - now rewrite app_nil_r.
Qed.

Lemma detect_patterns_run (skill : Skill) (s : Store) :
  StaticAnalyzerRun._detect_patterns skill s
  = (length (st_lists s),
     {| st_world := st_world s;
        st_lists :=
          st_lists s
          ++ [StaticAnalyzer._detect_patterns
                (l1_analyzer (scanner (st_world s))) skill] |}).
Proof.
  apply new_builds. intros l.
  unfold StaticAnalyzer._detect_patterns.
  eapply builds_eq.
  - eapply builds_bind; [| apply builds_ret].
    eapply builds_for. intros severity_level.
    apply builds_self. eapply builds_for. intros pattern.
    eapply builds_for. intros m. cbv zeta.
    apply builds_self.
    eapply builds_if; [apply builds_ret | apply builds_append].
  - now rewrite app_nil_r.
Qed.

Lemma analyze_code_blocks_run (re : ReLib) (skill : Skill) (s : Store) :
  StaticAnalyzerRun._analyze_code_blocks re skill s
  = (length (st_lists s),
     {| st_world := st_world s;
        st_lists :=
          st_lists s ++ [StaticAnalyzer._analyze_code_blocks re skill] |}).
Proof.
  apply new_builds. intros l.
  unfold StaticAnalyzer._analyze_code_blocks.
  eapply builds_eq.
  - eapply builds_bind; [| apply builds_ret].
    eapply builds_for. intros block. cbv zeta.
    eapply builds_bind.
    + eapply builds_if; [apply builds_append | apply builds_ret].
    + eapply builds_if; [apply builds_append | apply builds_ret].
  - now rewrite app_nil_r.
Qed.

Lemma run_bind {A B} (m : Run A) (k : A -> Run B) (s s' : Store) (a : A) :
  m s = (a, s') -> (m ≫= k) s = k a s'.
Proof. intros H. unfold mbind, Run_bind. now rewrite H. Qed.

(** [findings.extend(other)] for a list [other] made after [findings]. *)
Lemma extend_later (W : World) (pre : list (list Finding))
    (xs : list Finding) (post : list (list Finding)) (j : nat)
    (ys : list Finding) :
  post !! j = Some ys ->
  ListStore.extend (length pre) (length pre + S j)
    {| st_world := W; st_lists := pre ++ xs :: post |}
  = (tt, {| st_world := W; st_lists := pre ++ (xs ++ ys) :: post |}).
Proof.
  intros Hj. unfold ListStore.extend, ListStore.update.
  cbn [st_world st_lists].
  rewrite alter_app_r_alt by lia. rewrite Nat.sub_diag.
  rewrite lookup_app_r by lia.
  replace (length pre + S j - length pre) with (S j) by lia.
  change ((xs :: post) !! S j) with (post !! j). rewrite Hj. reflexivity.
Qed.

(** One run of [analyze] on the store: the result is a new list, which
    holds [analyze_body]; the three lists of the helper methods are new
    too; nothing else is touched. *)
Lemma analyze_run (re : ReLib) (skill : Skill) (s : Store) :
  let self := l1_analyzer (scanner (st_world s)) in
  StaticAnalyzerRun.analyze re skill s
  = (length (st_lists s),
     {| st_world := st_world s;
        st_lists :=
          st_lists s
          ++ [ StaticAnalyzer.analyze_body re self skill;
               StaticAnalyzer._check_metadata skill;
               StaticAnalyzer._detect_patterns self skill;
               StaticAnalyzer._analyze_code_blocks re skill ] |}).
Proof.
  intros self. destruct s as [W L]. cbn [st_world st_lists] in *.
  set (meta := StaticAnalyzer._check_metadata skill).
  set (pats := StaticAnalyzer._detect_patterns self skill).
  set (blks := StaticAnalyzer._analyze_code_blocks re skill).
  set (last := if Skill.is_offensive skill && negb (Skill.has_disclaimer skill)
               then [StaticAnalyzer.missing_disclaimer] else []).
  assert (E1 : StaticAnalyzerRun._check_metadata skill
                 {| st_world := W; st_lists := L ++ [[]] |}
               = (length L + 1,
                  {| st_world := W; st_lists := L ++ [[]; meta] |})).
  { rewrite check_metadata_run. cbn [st_world st_lists].
    rewrite length_app. cbn [length]. rewrite <- (app_assoc L).
    reflexivity. }
  assert (E2 : StaticAnalyzerRun._detect_patterns skill
                 {| st_world := W; st_lists := L ++ [[] ++ meta; meta] |}
               = (length L + 2,
                  {| st_world := W;
                     st_lists := L ++ [[] ++ meta; meta; pats] |})).
  { rewrite detect_patterns_run. cbn [st_world st_lists].
    rewrite length_app. cbn [length]. rewrite <- (app_assoc L).
    reflexivity. }
  assert (E3 : StaticAnalyzerRun._analyze_code_blocks re skill
                 {| st_world := W;
                    st_lists := L ++ [([] ++ meta) ++ pats; meta; pats] |}
               = (length L + 3,
                  {| st_world := W;
                     st_lists :=
                       L ++ [([] ++ meta) ++ pats; meta; pats; blks] |})).
  { rewrite analyze_code_blocks_run. cbn [st_world st_lists].
    rewrite length_app. cbn [length]. rewrite <- (app_assoc L).
    reflexivity. }
  assert (E4 : (if Skill.is_offensive skill
                   && negb (Skill.has_disclaimer skill)
                then ListStore.append (length L)
                       StaticAnalyzer.missing_disclaimer
                else mret tt)
                 {| st_world := W;
                    st_lists :=
                      L ++ [(([] ++ meta) ++ pats) ++ blks;
                            meta; pats; blks] |}
               = (tt,
                  {| st_world := W;
                     st_lists :=
                       L ++ [((([] ++ meta) ++ pats) ++ blks) ++ last;
                             meta; pats; blks] |})).
  { apply (builds_if (length L) W _ _ _ _ _ tt
             (builds_append (length L) W StaticAnalyzer.missing_disclaimer)
             (builds_ret (length L) W tt)).
    reflexivity. }
  unfold StaticAnalyzerRun.analyze.
  rewrite (run_bind _ _ _ _ _ (eq_refl : ListStore.new
                                           {| st_world := W; st_lists := L |}
                                         = (length L, _))).
  rewrite (run_bind _ _ _ _ _ E1).
  rewrite (run_bind _ _ _ _ _ (extend_later W L [] [meta] 0 meta eq_refl)).
  rewrite (run_bind _ _ _ _ _ E2).
  rewrite (run_bind _ _ _ _ _ (extend_later W L ([] ++ meta) [meta; pats] 1 pats
                                 eq_refl)).
  rewrite (run_bind _ _ _ _ _ E3).
  rewrite (run_bind _ _ _ _ _ (extend_later W L (([] ++ meta) ++ pats)
                                 [meta; pats; blks] 2 blks eq_refl)).
  rewrite (run_bind _ _ _ _ _ E4).
  unfold mbind, Run_bind, ListStore.sort, ListStore.update, mret, Run_ret.
  cbn [fst snd st_world st_lists].
  rewrite alter_app_r_alt by lia. rewrite Nat.sub_diag.
  f_equal. f_equal. f_equal.
  change (StaticAnalyzer.sort_desc (((([] ++ meta) ++ pats) ++ blks) ++ last)
          :: [meta; pats; blks]
          = [StaticAnalyzer.analyze_body re self skill; meta; pats; blks]).
  f_equal. unfold StaticAnalyzer.analyze_body. fold meta pats blks last.
  rewrite app_nil_l. now rewrite <- !app_assoc.
Qed.

(** C8. [analyze], run on Python's list objects, returns a new list that
    holds the findings in the order [analyze_body] gives; a second run on
    the same skill with the same analyzer object returns another new list
    with the same findings in the same order. No list that was there
    before a run is changed by it (the first result is not changed by the
    second run), and neither is the world: the analyzer objects, the audit
    log, the trace. The findings depend on the store only through the
    analyzer object; they are the list that the scanner receives. *)
Theorem C8_pattern_engine_idempotent (re : ReLib) (skill : Skill) (s : Store) :
  let self := l1_analyzer (scanner (st_world s)) in
  let fs := StaticAnalyzer.analyze_body re self skill in
  let run1 := StaticAnalyzerRun.analyze re skill s in
  let run2 := StaticAnalyzerRun.analyze re skill (snd run1) in
  st_lists (snd run1) !! fst run1 = Some fs
  /\ st_lists (snd run2) !! fst run2 = Some fs
  /\ length (st_lists s) <= fst run1 < fst run2
  /\ (forall l, l < length (st_lists s) ->
                st_lists (snd run1) !! l = st_lists s !! l
                /\ st_lists (snd run2) !! l = st_lists s !! l)
  /\ st_lists (snd run2) !! fst run1 = Some fs
  /\ st_world (snd run1) = st_world s
  /\ st_world (snd run2) = st_world s
  /\ (forall s',
        l1_analyzer (scanner (st_world s')) = self ->
        st_lists (snd (StaticAnalyzerRun.analyze re skill s'))
          !! fst (StaticAnalyzerRun.analyze re skill s') = Some fs)
  /\ StaticAnalyzer.analyze re skill (st_world s) = (Ret fs, st_world s).
Proof.
  intros self fs run1 run2.
  assert (H1 : run1 = _) by apply analyze_run.
  assert (H2 : run2 = _) by apply analyze_run.
  rewrite H1 in H2. cbn [snd st_world st_lists] in H2.
  fold self fs in H1, H2.
  rewrite H2, H1. cbn [fst snd st_world st_lists].
  rewrite !length_app. cbn [length].
  split; [| split; [| split; [| split; [| split]]]].
  - rewrite lookup_app_r by lia. now rewrite Nat.sub_diag.
  - rewrite lookup_app_r by (rewrite length_app; cbn [length]; lia).
    rewrite length_app. cbn [length]. now rewrite Nat.sub_diag.
  - lia.
  - intros l Hl. split.
    + now rewrite lookup_app_l by lia.
    + rewrite lookup_app_l by (rewrite length_app; cbn [length]; lia).
      now rewrite lookup_app_l by lia.
  - rewrite lookup_app_l by (rewrite length_app; cbn [length]; lia).
    rewrite lookup_app_r by lia. now rewrite Nat.sub_diag.
  - split; [reflexivity |]. split; [reflexivity |]. split; [| reflexivity].
    intros s' Hs'. rewrite analyze_run. cbn [fst snd st_lists].
    rewrite Hs'. fold fs.
    rewrite lookup_app_r by lia. now rewrite Nat.sub_diag.
Qed.

(** A scan, at any level and however it ends, leaves the analyzer object
    of level 1 as it was. *)
Lemma scan_keeps_l1_analyzer (env : Env) (d : SkillDir) (lvl : string)
    (w : World) :
  l1_analyzer (scanner (snd (SkillScanner.scan_skill env d lvl w)))
  = l1_analyzer (scanner w).
Proof.
  destruct (steps_scan_skill env d lvl w) as (lvls & S).
  exact (ls_l1 _ _ _ _ S).
Qed.

(** ** The isolation executor goes through every fragment (C5) *)

Lemma in_concat_imap {A B} (f : nat -> A -> list B) (l : list A)
    (i : nat) (a : A) (x : B) :
  l !! i = Some a -> In x (f i a) -> In x (concat (imap f l)).
Proof.
  intros Hl Hx. apply in_concat. exists (f i a). split; [| exact Hx].
  apply list_elem_of_In. now apply elem_of_lookup_imap_2.
Qed.

(** Against C5 as worded: the run of fragment 0 raises [OSError], and
    fragment 1 is run all the same. *)
Lemma C5_fault_does_not_end_the_level :
  let skill := Skill.from_path Sample.sample_re Sample.fragments_dir in
  let out :=
    DynamicAnalyzer.analyze Sample.env_with_faults skill
      (Sample.sample_world ∅) in
  (exists b e, DynamicAnalyzer._extract_testable_code skill !! 0 = Some b
               /\ sandbox_run Sample.env_with_faults b 0 = RunRaises e)
  /\ sandbox_runs_of (new_events (Sample.sample_world ∅) (snd out)) = [0; 1]
  /\ exists fs, fst out = Ret fs
                /\ map name fs = ["sandbox_error"; "execution_timeout"].
Proof.
  intros skill out. split; [| split].
  - eexists. eexists. split; vm_compute; reflexivity.
  - vm_compute. reflexivity.
  - eexists. split; vm_compute; reflexivity.
Qed.

Lemma new_events_add (w : World) (evs : list Event) :
  new_events w (add_events evs w) = evs.
Proof. now apply new_events_app. Qed.

(** C5, amended. Whenever the executor returns, it has run every selected
    fragment, in order, whatever the runs ended in: a run that raises gives
    the [sandbox_error] finding (0.10), a run that times out gives the
    [execution_timeout] finding (0.60), and the loop goes on. It returns
    whenever the temporary file of every selected fragment can be written.
    It returns without a run exactly when the sandbox is disabled, Docker
    is missing or no fragment is selected, each time with one
    informational finding ([sandbox_disabled] 0.0, [docker_unavailable]
    0.05, [no_testable_code] 0.0). *)
Theorem C5_every_selected_fragment_runs
    (env : Env) (skill : Skill) (w : World) :
  let self := l3_analyzer (scanner w) in
  let blocks := DynamicAnalyzer._extract_testable_code skill in
  let out := DynamicAnalyzer.analyze env skill w in
  let runs := sandbox_runs_of (new_events w (snd out)) in
  ((forall i b, blocks !! i = Some b -> tempfile env b i = TempWritten) ->
   exists fs, fst out = Ret fs)
  /\ forall fs : list Finding,
       fst out = Ret fs ->
       runs = (if enabled (dyn_config self) && docker_available self
               then seq 0 (length blocks) else [])
       /\ (enabled (dyn_config self) && docker_available self = true ->
           forall i b,
             blocks !! i = Some b ->
             (forall e,
                sandbox_run env b i = RunRaises e ->
                In (DynamicAnalyzer.sandbox_error e) fs
                /\ severity (DynamicAnalyzer.sandbox_error e) = 0.10%Q)
             /\ (sandbox_run env b i = TimeoutExpired ->
                 In (DynamicAnalyzer.execution_timeout self i) fs
                 /\ severity (DynamicAnalyzer.execution_timeout self i)
                    = 0.60%Q))
       /\ (runs = []
           <-> enabled (dyn_config self) = false
               \/ docker_available self = false
               \/ blocks = [])
       /\ (enabled (dyn_config self) = false ->
           fs = [DynamicAnalyzer.sandbox_disabled]
           /\ severity DynamicAnalyzer.sandbox_disabled = 0.0%Q)
       /\ (enabled (dyn_config self) = true ->
           docker_available self = false ->
           fs = [DynamicAnalyzer.docker_unavailable]
           /\ severity DynamicAnalyzer.docker_unavailable = 0.05%Q)
       /\ (enabled (dyn_config self) = true ->
           docker_available self = true ->
           blocks = [] ->
           fs = [DynamicAnalyzer.no_testable_code]
           /\ severity DynamicAnalyzer.no_testable_code = 0.0%Q).
Proof.
  intros self blocks out runs. subst out runs.
  rewrite l3_analyze_eq. cbn [fst snd]. rewrite new_events_add.
  split.
  - intros Htemp. unfold l3_result, l3_runs. fold self blocks.
    destruct (enabled (dyn_config self) && docker_available self);
      [| eexists; reflexivity].
    destruct blocks as [| b bs] eqn:Eb; [eexists; reflexivity |].
    unfold loop_result.
    assert (Hnone : first_temp_fault env 0 (b :: bs) = None)
      by (apply first_temp_fault_none; exact Htemp).
    rewrite Hnone. eexists; reflexivity.
  - intros fs Hfs.
    pose proof (l3_result_ret env skill w fs Hfs) as ->.
    assert (Hruns : sandbox_runs_of (snd (l3_result env skill w))
                    = if enabled (dyn_config self) && docker_available self
                      then seq 0 (length blocks) else []).
    { revert Hfs. unfold l3_result, l3_runs. fold self blocks.
      destruct (enabled (dyn_config self) && docker_available self);
        [| reflexivity].
      destruct blocks as [| b bs] eqn:Eb; [reflexivity |].
      unfold loop_result.
      destruct (first_temp_fault env 0 (b :: bs)) as [[[k c] e] |];
        cbn [fst snd]; [discriminate |].
      intros _. apply sandbox_runs_of_run_events. }
    rewrite Hruns. unfold l3_findings. fold self blocks.
    split; [reflexivity |]. split; [| split; [| split; [| split]]].
    + intros Hon. apply andb_true_iff in Hon as [-> ->]. cbn [negb].
      intros i b Hb.
      destruct blocks as [| b0 bs] eqn:Eb; [discriminate |]. cbv zeta.
      split.
      * intros e He. split; [| reflexivity].
        apply (in_concat_imap _ _ i b _ Hb). rewrite He. now left.
      * intros Ht. split; [| reflexivity].
        apply (in_concat_imap _ _ i b _ Hb). rewrite Ht. now left.
    + destruct (enabled (dyn_config self)), (docker_available self);
        cbn [andb]; try (split; [auto | reflexivity]).
      destruct blocks as [| b bs]; [split; [auto | reflexivity] |].
      split; [discriminate |].
      intros [H | [H | H]]; discriminate.
    + intros ->. cbn [negb]. split; reflexivity.
    + intros -> ->. cbn [negb]. split; reflexivity.
    + intros -> -> ->. cbn [negb]. split; reflexivity.
Qed.

Lemma C5_every_selected_fragment_runs_witness :
  let skill := Skill.from_path Sample.sample_re Sample.fragments_dir in
  let w := Sample.sample_world ∅ in
  let out := DynamicAnalyzer.analyze Sample.env_with_faults skill w in
  exists fs,
    fst out = Ret fs
    /\ sandbox_runs_of (new_events w (snd out)) = [0; 1]
    /\ map name fs = ["sandbox_error"; "execution_timeout"].
Proof.
  intros skill w out.
  destruct (C5_every_selected_fragment_runs Sample.env_with_faults skill w)
    as [Hret Hall].
  destruct Hret as (fs & Hfs); [reflexivity |].
  exists fs. split; [exact Hfs |].
  destruct (Hall fs Hfs) as (Hruns & _).
  split; [exact Hruns |].
  fold out in Hfs. vm_compute in Hfs. injection Hfs as <-. reflexivity.
Defined.

(** ** Faults inside a level (C4) *)

(** C4, on three valid skills scanned at level "all": a fault inside a
    level ends the scan with an exception and without a result. Level 4:
    the registry gives the author a null reputation, and the comparison of
    the author check raises [TypeError]. Level 3: the temporary file of the
    second fragment cannot be written, and the [OSError] leaves the level.
    Level 2: the classifier rates its finding with a word, and the gate of
    level 3 raises [TypeError] on it. *)
Theorem C4_level_fault_ends_the_scan :
  is_valid (Skill.from_path Sample.sample_re Sample.authored_dir) = true
  /\ fst (SkillScanner.scan_skill Sample.sample_env Sample.authored_dir "all"
            (Sample.sample_world
               {[ "mallory" := EntryDict (Some PyNone) None ]}))
     = Raise (TypeError
                "'>=' not supported between instances of 'NoneType' and 'float'")
  /\ is_valid (Skill.from_path Sample.sample_re
                 Sample.offensive_fragments_dir) = true
  /\ fst (SkillScanner.scan_skill Sample.env_disk_full
            Sample.offensive_fragments_dir "all" (Sample.sample_world ∅))
     = Raise Sample.disk_full
  /\ is_valid (Skill.from_path Sample.sample_re Sample.offensive_dir) = true
  /\ exists e,
       fst (SkillScanner.scan_skill
              (Sample.env_with_oracle Sample.worded_analysis)
              Sample.offensive_dir "all" (Sample.sample_world ∅))
       = Raise e
       /\ exn_type e = "TypeError".
Proof.
  split; [reflexivity |]. split; [vm_compute; reflexivity |].
  split; [reflexivity |]. split; [vm_compute; reflexivity |].
  split; [reflexivity |].
  eexists. split; vm_compute; reflexivity.
Qed.

(** ** The aggregated score (C7) *)

Lemma risk_scores_get_nonneg (risk : string) :
  (0 <= SkillScanner.risk_scores_get SkillScanner.risk_scores risk)%Q.
Proof.
  unfold SkillScanner.risk_scores. simpl.
  repeat match goal with
         | |- context [if ?b then _ else _] => destruct b
         end; unfold Qle; simpl; lia.
Qed.

Lemma permission_score_nonneg (self : SkillScanner) (skill : Skill) :
  (0 <= SkillScanner._get_permission_score self skill)%Q.
Proof.
  unfold SkillScanner._get_permission_score.
  destruct (metadata skill !! "permissions") as [perms |];
    [| apply risk_scores_get_nonneg].
  destruct (PyStr.truthy perms); [| apply risk_scores_get_nonneg].
  assert (H : (0 <= 0.0)%Q) by (unfold Qle; simpl; lia).
  revert H. generalize 0.0%Q.
  induction (PyStr.chars perms) as [| c cs IH]; intros acc Hacc; simpl;
    [exact Hacc |].
  apply IH.
  destruct (th_permissions (thresholds_config self) !! c); [| exact Hacc].
  eapply Qle_trans; [exact Hacc | apply py_max_l].
Qed.

Lemma source_trust_score_nonneg (self : SkillScanner) (skill : Skill) :
  (forall k v, th_source_trust (thresholds_config self) !! k = Some v ->
               (0 <= v)%Q) ->
  (0 <= SkillScanner._get_source_trust_score self skill)%Q.
Proof.
  intros H. unfold SkillScanner._get_source_trust_score.
  destruct (th_source_trust (thresholds_config self)
              !! default "community" (metadata skill !! "trust_level"))
    as [v |] eqn:E; simpl.
  - exact (H _ _ E).
  - unfold Qle; simpl; lia.
Qed.

Lemma max_severity_nonneg (fs : list Finding) :
  Forall (fun f => (0 <= severity f)%Q) fs ->
  (0 <= py_max_list (map severity fs) 0.0)%Q.
Proof.
  intros H. destruct fs as [| f fs]; [unfold Qle; simpl; lia |].
  assert (Hin : In (py_max_list (map severity (f :: fs)) 0.0)
                   (map severity (f :: fs)))
    by (apply py_max_list_in; discriminate).
  apply in_map_iff in Hin as (g & <- & Hg).
  rewrite List.Forall_forall in H. now apply H.
Qed.

(** Against C7 as worded: with the weights 0.40, 0.30, 0.20, 0.10 and the
    one finding that level 2 makes of a classifier answer of severity -1,
    the score of the benign skill is below 0. *)
Lemma C7_score_below_zero :
  let skill := Skill.from_path Sample.sample_re Sample.benign_dir in
  exists fs : list Finding,
    SemanticAnalyzer._convert_to_findings Sample.underrated_analysis
      ≫= SkillScanner.read_severities = Ret fs
    /\ map severity fs = [(-1)%Q]
    /\ ~ (0 <= SkillScanner._calculate_risk_score (Sample.sample_scanner ∅)
                 skill fs)%Q.
Proof.
  intros skill. eexists. split; [vm_compute; reflexivity |].
  split; [reflexivity |].
  vm_compute. intros H. apply H. reflexivity.
Qed.

(** C7, amended. The score and the classification are a function of the
    severities of the findings, of the skill's metadata and of the
    configuration: equal inputs give equal outputs. The score is capped at
    1; it is at least 0 when the three weights in use, the configured
    source-trust scores and the severities are not negative (there is no
    lower clamp). *)
Theorem C7_score_deterministic_and_capped
    (self : SkillScanner) (s1 s2 : Skill) (fs1 fs2 : list Finding) :
  map severity fs1 = map severity fs2 ->
  metadata s1 = metadata s2 ->
  let score := SkillScanner._calculate_risk_score self s1 fs1 in
  let weights := th_weights (thresholds_config self) in
  SkillScanner._calculate_risk_score self s2 fs2 = score
  /\ SkillScanner._classify_risk self
       (SkillScanner._calculate_risk_score self s2 fs2)
     = SkillScanner._classify_risk self score
  /\ (score <= 1)%Q
  /\ ((0 <= w_pattern_severity weights)%Q ->
      (0 <= w_permission_scope weights)%Q ->
      (0 <= w_source_trust weights)%Q ->
      (forall k v, th_source_trust (thresholds_config self) !! k = Some v ->
                   (0 <= v)%Q) ->
      Forall (fun f => (0 <= severity f)%Q) fs1 ->
      (0 <= score)%Q).
Proof.
  intros Hsev Hmeta score weights.
  assert (Heq : SkillScanner._calculate_risk_score self s2 fs2 = score).
  { subst score. unfold SkillScanner._calculate_risk_score,
      SkillScanner._get_permission_score,
      SkillScanner._get_source_trust_score.
    now rewrite Hsev, Hmeta. }
  split; [exact Heq |]. split; [now rewrite Heq |].
  subst score. unfold SkillScanner._calculate_risk_score.
  fold weights.
  set (p := py_max_list (map severity fs1) 0.0).
  set (perm := SkillScanner._get_permission_score self s1).
  set (src := SkillScanner._get_source_trust_score self s1).
  set (raw := (w_pattern_severity weights * p
               + w_permission_scope weights * perm
               + w_source_trust weights * src
               + w_community_reports weights * 0.0)%Q).
  split.
  - destruct (Qlt_bool raw 1.0) eqn:E.
    + apply Qlt_bool_true in E. apply Qlt_le_weak.
      eapply Qlt_le_trans; [exact E |]. unfold Qle; simpl; lia.
    + unfold Qle; simpl; lia.
  - intros Hw1 Hw2 Hw3 Htrust Hfs.
    assert (Hp : (0 <= p)%Q) by now apply max_severity_nonneg.
    assert (Hperm : (0 <= perm)%Q) by apply permission_score_nonneg.
    assert (Hsrc : (0 <= src)%Q) by now apply source_trust_score_nonneg.
    destruct (Qlt_bool raw 1.0); [| unfold Qle; simpl; lia].
    subst raw.
    assert (H0 : (w_community_reports weights * 0.0 == 0)%Q)
      by (unfold Qeq; simpl; lia).
    rewrite H0.
    pose proof (Qmult_le_0_compat _ _ Hw1 Hp).
    pose proof (Qmult_le_0_compat _ _ Hw2 Hperm).
    pose proof (Qmult_le_0_compat _ _ Hw3 Hsrc).
    lra.
Qed.

Lemma C7_score_deterministic_and_capped_witness :
  let self := Sample.sample_scanner ∅ in
  let skill := Skill.from_path Sample.sample_re Sample.benign_dir in
  let fs := TrustVerifier._verify_source skill in
  Forall (fun f => (0 <= severity f)%Q) fs
  /\ (0 <= SkillScanner._calculate_risk_score self skill fs <= 1)%Q.
Proof.
  intros self skill fs.
  assert (Hfs : Forall (fun f => (0 <= severity f)%Q) fs).
  { repeat constructor. unfold Qle; simpl; lia. }
  split; [exact Hfs |].
  destruct (C7_score_deterministic_and_capped self skill skill fs fs
              eq_refl eq_refl) as (_ & _ & Hle & Hge).
  split; [| exact Hle].
  apply Hge; try (unfold Qle; simpl; lia); [| exact Hfs].
  intros k v Hk.
  change (th_source_trust (thresholds_config self))
    with (<["official" := 0.0%Q]> (<["verified" := 0.2%Q]>
            ({[ "community" := 0.5%Q ]} : gmap string Q))) in Hk.
  repeat (apply lookup_insert_Some in Hk as [[_ <-] | [_ Hk]];
          [unfold Qle; simpl; lia |]).
  apply lookup_singleton_Some in Hk as [_ <-]. unfold Qle; simpl; lia.
Defined.

(** * Further properties of the code *)

(** ** The sort of level 1 *)

Lemma insert_desc_perm (f : Finding) (l : list Finding) :
  Permutation (f :: l) (StaticAnalyzer.insert_desc f l).
Proof.
  induction l as [| g r IH]; simpl; [reflexivity |].
  destruct (Qlt_bool (severity f) (severity g)); [| reflexivity].
  rewrite perm_swap. now constructor.
Qed.

Lemma sort_desc_perm (l : list Finding) :
  Permutation l (StaticAnalyzer.sort_desc l).
Proof.
  induction l as [| f l IH]; simpl; [reflexivity |].
  etransitivity; [| apply insert_desc_perm]. now constructor.
Qed.

Lemma insert_desc_sorted (f : Finding) (l : list Finding) :
  sorted_desc l -> sorted_desc (StaticAnalyzer.insert_desc f l).
Proof.
  unfold sorted_desc. induction l as [| g r IH]; intros Hs; simpl.
  - repeat constructor.
  - inversion Hs as [| ? ? Hr Hg]; subst.
    destruct (Qlt_bool (severity f) (severity g)) eqn:E.
    + apply Qlt_bool_true in E. constructor; [now apply IH |].
      rewrite <- (insert_desc_perm f r). constructor; [| exact Hg].
      now apply Qlt_le_weak.
    + apply Qlt_bool_false in E. constructor; [exact Hs |].
      constructor; [exact E |].
      rewrite List.Forall_forall in Hg |- *. intros x Hx.
      eapply Qle_trans; [apply Hg; exact Hx | exact E].
Qed.

Lemma sort_desc_sorted (l : list Finding) :
  sorted_desc (StaticAnalyzer.sort_desc l).
Proof.
  induction l as [| f l IH]; simpl; [constructor |].
  now apply insert_desc_sorted.
Qed.

(** X1. The list that the pattern engine returns is in descending order of
    severity and holds exactly the findings of its four checks (metadata,
    rule matches, code blocks, disclaimer), each as often as found. *)
Theorem X1_l1_output_sorted_permutation
    (re : ReLib) (skill : Skill) (w : World) :
  exists fs,
    StaticAnalyzer.analyze re skill w = (Ret fs, w)
    /\ sorted_desc fs
    /\ Permutation fs
         (StaticAnalyzer._check_metadata skill
          ++ StaticAnalyzer._detect_patterns (l1_analyzer (scanner w)) skill
          ++ StaticAnalyzer._analyze_code_blocks re skill
          ++ (if Skill.is_offensive skill
                 && negb (Skill.has_disclaimer skill)
              then [StaticAnalyzer.missing_disclaimer] else [])).
Proof.
  eexists. split; [reflexivity |]. unfold StaticAnalyzer.analyze_body.
  split; [apply sort_desc_sorted |].
  symmetry. apply sort_desc_perm.
Qed.

Lemma insert_desc_filter (q : Q) (f : Finding) (l : list Finding) :
  List.filter (fun g => Qeq_bool (severity g) q)
              (StaticAnalyzer.insert_desc f l)
  = List.filter (fun g => Qeq_bool (severity g) q) (f :: l).
Proof.
  induction l as [| g r IH]; [reflexivity |].
  cbn [StaticAnalyzer.insert_desc].
  destruct (Qlt_bool (severity f) (severity g)) eqn:E; [| reflexivity].
  apply Qlt_bool_true in E.
  cbn [List.filter] in *. rewrite IH.
  destruct (Qeq_bool (severity f) q) eqn:Ef; [| reflexivity].
  destruct (Qeq_bool (severity g) q) eqn:Eg; [| reflexivity].
  exfalso. apply Qeq_bool_iff in Ef, Eg.
  rewrite Ef, <- Eg in E. exact (Qlt_irrefl _ E).
Qed.

(** X2. The sort of level 1 is stable: findings of equal severity keep the
    order in which the checks found them. *)
Theorem X2_l1_sort_stable (q : Q) (l : list Finding) :
  List.filter (fun g => Qeq_bool (severity g) q) (StaticAnalyzer.sort_desc l)
  = List.filter (fun g => Qeq_bool (severity g) q) l.
Proof.
  induction l as [| f l IH]; [reflexivity |].
  cbn [StaticAnalyzer.sort_desc foldr].
  rewrite insert_desc_filter. cbn [List.filter].
  change (foldr StaticAnalyzer.insert_desc [] l)
    with (StaticAnalyzer.sort_desc l).
  now rewrite IH.
Qed.

(** ** Metadata validation and rule matches of level 1 *)

(** X3. Metadata validation reports nothing exactly when the frontmatter
    names the skill as its folder, has a description, a risk label among
    none, safe, critical, offensive, and a source. *)
Theorem X3_check_metadata_clean_iff (skill : Skill) :
  StaticAnalyzer._check_metadata skill = []
  <-> (metadata skill !! "name" = Some (path_name skill)
       /\ is_Some (metadata skill !! "description")
       /\ (exists risk, metadata skill !! "risk" = Some risk
                        /\ str_in_list risk
                             ["none"; "safe"; "critical"; "offensive"] = true)
       /\ is_Some (metadata skill !! "source")).
Proof.
  unfold StaticAnalyzer._check_metadata. cbn [flat_map].
  split.
  - intros H.
    apply app_eq_nil in H as [H1 H]. apply app_eq_nil in H as [H2 H].
    apply app_eq_nil in H as [H3 H4].
    apply app_eq_nil in H1 as [Hn Hd]. apply app_eq_nil in Hd as [Hd _].
    split; [| split; [| split]].
    + destruct (bool_decide (metadata skill !! "name"
                             = Some (path_name skill))) eqn:E;
        [now apply bool_decide_eq_true in E | discriminate].
    + destruct (metadata skill !! "description"); [eauto | discriminate].
    + destruct (metadata skill !! "risk") as [risk |]; [| discriminate].
      exists risk. split; [reflexivity |].
      destruct (str_in_list risk _); [reflexivity | discriminate].
    + destruct (metadata skill !! "source"); [eauto | discriminate].
  - intros (Hn & [d Hd] & (risk & Hr & Hin) & [s Hs]).
    rewrite Hn, Hd, Hr, Hs, Hin. cbn [app].
    now rewrite bool_decide_eq_true_2.
Qed.

Lemma take_length_le (n : nat) (s : string) :
  String.length (PyStr.take n s) <= n.
Proof.
  unfold PyStr.take. revert s.
  induction n as [| n IH]; intros [| c s]; simpl; try lia.
  specialize (IH s). lia.
Qed.

(** X4. A rule match becomes a finding only when the allowlist does not
    cover the rule for this skill: no finding of the rule scan carries the
    name of an allowed rule. Each finding has a line number from 1 and a
    snippet of at most 200 characters. *)
Theorem X4_detect_patterns_findings
    (self : StaticAnalyzer) (skill : Skill) (f : Finding) :
  In f (StaticAnalyzer._detect_patterns self skill) ->
  StaticAnalyzer._is_allowed self (name f) skill = false
  /\ level f = "L1"
  /\ (exists n, line_number f = Some n /\ 1 <= n)
  /\ (exists s, code_snippet f = Some s /\ String.length s <= 200).
Proof.
  unfold StaticAnalyzer._detect_patterns. intros H.
  apply in_flat_map in H as (lvl & _ & H).
  apply in_flat_map in H as (rule & _ & H).
  apply in_flat_map in H as (m & _ & H).
  destruct (StaticAnalyzer._is_allowed self (r_name rule) skill) eqn:E;
    [destruct H |].
  destruct H as [<- | []]. cbn [name level line_number code_snippet].
  split; [exact E |]. split; [reflexivity |]. split.
  - eexists. split; [reflexivity | lia].
  - eexists. split; [reflexivity | apply take_length_le].
Qed.

Lemma X4_detect_patterns_findings_witness :
  let rule :=
    {| r_name := "eval_call"; r_regex := fun _ => [(0, 4)];
       r_severity := 0.9%Q; r_description := "eval"; r_mitigation := "" |} in
  let self :=
    {| sa_config := {| cfg_patterns := []; cfg_allowlist := [] |};
       sa_patterns := {[ "critical" := [rule] ]} |} in
  let skill := Skill.from_path Sample.sample_re Sample.benign_dir in
  exists f,
    In f (StaticAnalyzer._detect_patterns self skill)
    /\ StaticAnalyzer._is_allowed self (name f) skill = false.
Proof.
  intros rule self skill. eexists. split.
  - vm_compute. left. reflexivity.
  - match goal with
    | |- StaticAnalyzer._is_allowed _ (name ?f) _ = _ =>
        exact (proj1 (X4_detect_patterns_findings self skill f
                        ltac:(vm_compute; left; reflexivity)))
    end.
Defined.

(** ** Severities of the fixed checks *)

Ltac range_of_literal :=
  unfold in_unit_range, Qle; simpl; lia.

Lemma execution_result_range (stderr : string) (rc : Z) (i : nat)
    (f : Finding) :
  In f (DynamicAnalyzer._analyze_execution_result stderr rc i) ->
  level f = "L3" /\ in_unit_range (severity f).
Proof.
  unfold DynamicAnalyzer._analyze_execution_result. intros H.
  apply in_app_or in H as [H | H].
  - apply in_flat_map in H as (p & Hp & H).
    unfold DynamicAnalyzer.suspicious_patterns in Hp.
    repeat (destruct Hp as [<- | Hp];
            [ cbn beta iota zeta in H;
              match type of H with
              | In _ (if ?c then _ else _) => destruct c
              end;
              [destruct H as [<- | []]; split; [reflexivity | range_of_literal]
              | destruct H]
            |]).
    destruct Hp.
  - destruct (negb (rc =? 0)%Z && negb (rc =? 1)%Z); [| destruct H].
    destruct H as [<- | []]. split; [reflexivity | range_of_literal].
Qed.

Lemma findings_of_run_range (self : DynamicAnalyzer) (out : SandboxOutcome)
    (i : nat) (f : Finding) :
  In f (DynamicAnalyzer.findings_of_run self out i) ->
  level f = "L3" /\ in_unit_range (severity f).
Proof.
  destruct out as [so se rc | | e]; cbn [DynamicAnalyzer.findings_of_run].
  - apply execution_result_range.
  - intros [<- | []]. split; [reflexivity | range_of_literal].
  - intros [<- | []]. split; [reflexivity | range_of_literal].
Qed.

Lemma l3_findings_range (env : Env) (skill : Skill) (w : World) (f : Finding) :
  In f (l3_findings env skill w) ->
  level f = "L3" /\ in_unit_range (severity f).
Proof.
  unfold l3_findings.
  destruct (negb (enabled (dyn_config (l3_analyzer (scanner w))))).
  { intros [<- | []]. split; [reflexivity | range_of_literal]. }
  destruct (negb (docker_available (l3_analyzer (scanner w)))).
  { intros [<- | []]. split; [reflexivity | range_of_literal]. }
  destruct (DynamicAnalyzer._extract_testable_code skill) as [| b bs].
  { intros [<- | []]. split; [reflexivity | range_of_literal]. }
  intros H. apply in_concat in H as (l & Hl & Hf).
  apply list_elem_of_In, elem_of_lookup_imap_1 in Hl as (i & y & -> & _).
  now apply findings_of_run_range in Hf.
Qed.

Lemma verify_source_range (skill : Skill) (f : Finding) :
  In f (TrustVerifier._verify_source skill) ->
  level f = "L4" /\ in_unit_range (severity f).
Proof.
  unfold TrustVerifier._verify_source.
  repeat match goal with
         | |- context [if ?c then _ else _] => destruct c
         end;
    intros H; try (destruct H as [<- | []]); try (destruct H);
    (split; [reflexivity | range_of_literal]).
Qed.

Lemma verify_signature_range (skill : Skill) (f : Finding) :
  In f (TrustVerifier._verify_signature skill) ->
  level f = "L4" /\ in_unit_range (severity f).
Proof.
  unfold TrustVerifier._verify_signature.
  destruct (negb (sig_exists skill)); intros [<- | []];
    (split; [reflexivity | range_of_literal]).
Qed.

(** The author check, when it returns, returns one finding of level 4 and
    leaves the world alone. *)
Lemma verify_author_returns (env : Env) (self : TrustVerifier)
    (skill : Skill) (w w1 : World) (l : list Finding) :
  TrustVerifier._verify_author env self skill w = (Ret l, w1) ->
  w1 = w
  /\ exists a, l = [a] /\ level a = "L4" /\ in_unit_range (severity a).
Proof.
  unfold TrustVerifier._verify_author.
  destruct (trusted_authors self
              !! default "unknown" (metadata skill !! "author"))
    as [[rep ver | ty] |].
  - unfold mbind, M_bind, lift, mret, M_ret.
    destruct (PyVal.truthy (default (PyNum (NBool false)) ver));
      destruct (py_ge (default (PyNum (NFloat 0.5%Q)) rep) 0.8%Q)
        as [[|] | e1];
      destruct (py_ge (default (PyNum (NFloat 0.5%Q)) rep) 0.5%Q)
        as [[|] | e2];
      intros H; inversion H; subst;
      (split; [reflexivity |]); eexists; (split; [reflexivity |]);
      (split; [reflexivity | range_of_literal]).
  - discriminate.
  - repeat match goal with
           | |- context [if ?x then _ else _] => destruct x
           end;
      unfold mret, M_ret; intros H; inversion H; subst;
      (split; [reflexivity |]); eexists; (split; [reflexivity |]);
      (split; [reflexivity | range_of_literal]).
Qed.

(** What [verify] returns and what it writes. *)
Lemma l4_verify_spec (env : Env) (skill : Skill) (w w' : World)
    (fs : list Finding) :
  TrustVerifier.verify env skill w = (Ret fs, w') ->
  exists a,
    level a = "L4" /\ in_unit_range (severity a)
    /\ fs = TrustVerifier._verify_source skill
            ++ (if require_signature (tv_config (l4_verifier (scanner w)))
                then TrustVerifier._verify_signature skill else [])
            ++ [a]
    /\ scanner w' = scanner w
    /\ trace w' = trace w
    /\ audit_log w'
       = audit_log w
         ++ (if audit_writable env
             then [ {| au_timestamp := utc_now env;
                       au_skill_name := skill_name skill;
                       au_skill_path := path skill;
                       au_content_hash := sha256_hexdigest env (content skill);
                       au_source := Skill.source skill;
                       au_risk_level := Skill.risk_level skill;
                       au_findings_count := length fs;
                       au_max_severity :=
                         py_max_list (map severity fs) 0%Q |} ]
             else []).
Proof.
  unfold TrustVerifier.verify.
  unfold mbind at 1. unfold M_bind, get_world.
  unfold mbind at 1. unfold M_bind.
  destruct (TrustVerifier._verify_author env (l4_verifier (scanner w)) skill w)
    as [[l | e] w1] eqn:Ha; [| discriminate].
  apply verify_author_returns in Ha as (-> & a & -> & Hl & Hr).
  unfold mbind, M_bind, TrustVerifier._log_audit,
    TrustVerifier._calculate_hash.
  exists a. split; [exact Hl |]. split; [exact Hr |].
  destruct (require_signature (tv_config (l4_verifier (scanner w))));
    destruct (audit_writable env); unfold modify, mret, M_ret in H;
    inversion H; subst; cbn [scanner trace audit_log];
    rewrite <- ?app_assoc, ?app_nil_r; repeat split; reflexivity.
Qed.

(** X5. Every finding of the isolation executor and of the trust ledger has
    a severity within [0, 1], whatever the container and the registry
    return. *)
Theorem X5_l3_l4_severity_range
    (env : Env) (skill : Skill) (w w' : World) (fs : list Finding) :
  (DynamicAnalyzer.analyze env skill w = (Ret fs, w')
   \/ TrustVerifier.verify env skill w = (Ret fs, w')) ->
  Forall (fun f => in_unit_range (severity f)) fs.
Proof.
  intros [H | H]; apply List.Forall_forall; intros f Hf.
  - rewrite l3_analyze_eq in H. injection H as H _.
    apply l3_result_ret in H. subst fs.
    now apply l3_findings_range in Hf.
  - apply l4_verify_spec in H as (a & _ & Ha & -> & _).
    apply in_app_or in Hf as [Hf | Hf];
      [now apply verify_source_range in Hf |].
    apply in_app_or in Hf as [Hf | [<- | []]]; [| exact Ha].
    destruct (require_signature _); [| destruct Hf].
    now apply verify_signature_range in Hf.
Qed.

Lemma X5_l3_l4_severity_range_witness :
  exists fs w',
    TrustVerifier.verify Sample.sample_env
      (Skill.from_path Sample.sample_re Sample.benign_dir)
      (Sample.sample_world ∅) = (Ret fs, w')
    /\ Forall (fun f => in_unit_range (severity f)) fs.
Proof.
  destruct (TrustVerifier.verify Sample.sample_env
              (Skill.from_path Sample.sample_re Sample.benign_dir)
              (Sample.sample_world ∅)) as [[fs | e] w'] eqn:E.
  - exists fs, w'. split; [reflexivity |].
    apply (X5_l3_l4_severity_range Sample.sample_env
             (Skill.from_path Sample.sample_re Sample.benign_dir)
             (Sample.sample_world ∅) w' fs).
    right. exact E.
  - exfalso. vm_compute in E. discriminate E.
Defined.

(** ** Severities of level 1 follow the rule table *)

Lemma fold_left_invariant {A B} (P : A -> Prop) (f : A -> B -> A)
    (l : list B) (a : A) :
  P a -> (forall a b, P a -> In b l -> P (f a b)) -> P (fold_left f l a).
Proof.
  revert a. induction l as [| b l IH]; intros a Ha Hf; simpl; [exact Ha |].
  apply IH; [apply Hf; [exact Ha | now left] |].
  intros a' b' Ha' Hb'. apply Hf; [exact Ha' | now right].
Qed.

(** Compiling keeps the configured severities: a table compiled from rules
    within [0, 1] is within [0, 1]. *)
Lemma compile_patterns_range (re : ReLib) (config : PatternsConfig) :
  (forall bucket rules p,
     In (bucket, rules) (cfg_patterns config) -> In p rules ->
     in_unit_range (cr_severity p)) ->
  rules_in_range (StaticAnalyzer._compile_patterns re config).
Proof.
  intros Hcfg. unfold StaticAnalyzer._compile_patterns.
  apply fold_left_invariant.
  - intros lvl rules r Hl Hr.
    repeat (apply lookup_insert_Some in Hl as [[_ <-] | [_ Hl]];
            [destruct Hr |]).
    now rewrite lookup_empty in Hl.
  - intros acc [bucket rules] Hacc Hin.
    destruct (acc !! bucket) as [old |] eqn:Hb; [| exact Hacc].
    apply fold_left_invariant; [exact Hacc |].
    intros acc' p Hacc' Hp.
    destruct (re_compile re (cr_pattern p)) as [compiled |]; [| exact Hacc'].
    intros lvl rs r Hl Hr.
    apply lookup_insert_Some in Hl as [[_ <-] | [_ Hl]];
      [| exact (Hacc' _ _ _ Hl Hr)].
    apply in_app_or in Hr as [Hr | [<- | []]].
    + destruct (acc' !! bucket) as [old' |] eqn:Hb'; [| destruct Hr].
      exact (Hacc' _ _ _ Hb' Hr).
    + cbn [r_severity]. exact (Hcfg _ _ _ Hin Hp).
Qed.

Lemma check_metadata_range (skill : Skill) (f : Finding) :
  In f (StaticAnalyzer._check_metadata skill) ->
  level f = "L1" /\ in_unit_range (severity f).
Proof.
  unfold StaticAnalyzer._check_metadata. cbn [flat_map].
  repeat match goal with
         | |- context [match ?x with _ => _ end] => destruct x
         end;
    cbn [app]; intros H;
    repeat (destruct H as [<- | H];
            [split; [reflexivity | range_of_literal] |]);
    destruct H.
Qed.

Lemma analyze_code_blocks_range (re : ReLib) (skill : Skill) (f : Finding) :
  In f (StaticAnalyzer._analyze_code_blocks re skill) ->
  level f = "L1" /\ in_unit_range (severity f).
Proof.
  unfold StaticAnalyzer._analyze_code_blocks. intros H.
  apply in_flat_map in H as (b & _ & H).
  apply in_app_or in H as [H | H];
    match type of H with
    | In _ (if ?c then _ else _) => destruct c
    end;
    try (destruct H as [<- | []]; split; [reflexivity | range_of_literal]);
    destruct H.
Qed.

(** X6. When every configured rule has a severity within [0, 1], so has
    every finding of the pattern engine built from that configuration: the
    fixed checks use constants between 0.15 and 0.95, and a rule match
    carries the configured severity of its rule unchanged. *)
Theorem X6_l1_severity_range
    (re : ReLib) (config : PatternsConfig) (skill : Skill) (f : Finding) :
  (forall bucket rules p,
     In (bucket, rules) (cfg_patterns config) -> In p rules ->
     in_unit_range (cr_severity p)) ->
  In f (StaticAnalyzer.analyze_body re (StaticAnalyzer.init re config) skill) ->
  level f = "L1" /\ in_unit_range (severity f).
Proof.
  intros Hcfg Hf. unfold StaticAnalyzer.analyze_body in Hf.
  apply (Permutation_in _ (Permutation_sym (sort_desc_perm _))) in Hf.
  apply in_app_or in Hf as [Hf | Hf];
    [now apply check_metadata_range in Hf |].
  apply in_app_or in Hf as [Hf | Hf].
  - unfold StaticAnalyzer._detect_patterns in Hf.
    apply in_flat_map in Hf as (lvl & _ & Hf).
    apply in_flat_map in Hf as (rule & Hrule & Hf).
    apply in_flat_map in Hf as (m & _ & Hf).
    destruct (StaticAnalyzer._is_allowed _ _ _); [destruct Hf |].
    destruct Hf as [<- | []]. split; [reflexivity |]. cbn [severity].
    cbn [StaticAnalyzer.init sa_patterns] in Hrule.
    destruct (StaticAnalyzer._compile_patterns re config !! lvl)
      as [rules |] eqn:Hl; [| destruct Hrule].
    exact (compile_patterns_range re config Hcfg _ _ _ Hl Hrule).
  - apply in_app_or in Hf as [Hf | Hf];
      [now apply analyze_code_blocks_range in Hf |].
    destruct (Skill.is_offensive skill && negb (Skill.has_disclaimer skill));
      [| destruct Hf].
    destruct Hf as [<- | []]. split; [reflexivity | range_of_literal].
Qed.

Lemma X6_l1_severity_range_witness :
  let config :=
    {| cfg_patterns :=
         [("critical",
           [ {| cr_name := "eval_call"; cr_pattern := "eval";
                cr_severity := 0.9%Q; cr_description := None;
                cr_mitigation := None |} ])];
       cfg_allowlist := [] |} in
  let skill := Skill.from_path Sample.sample_re Sample.offensive_dir in
  in_unit_range (severity StaticAnalyzer.missing_disclaimer)
  /\ In StaticAnalyzer.missing_disclaimer
        (StaticAnalyzer.analyze_body Sample.sample_re
           (StaticAnalyzer.init Sample.sample_re config) skill).
Proof.
  intros config skill.
  assert (Hin : In StaticAnalyzer.missing_disclaimer
                   (StaticAnalyzer.analyze_body Sample.sample_re
                      (StaticAnalyzer.init Sample.sample_re config) skill))
    by (vm_compute; left; reflexivity).
  split; [| exact Hin].
  refine (proj2 (X6_l1_severity_range Sample.sample_re config skill _ _ Hin)).
  intros bucket rules p [Hb | []] Hp. inversion Hb; subst.
  destruct Hp as [<- | []]. unfold in_unit_range, Qle; simpl; lia.
Defined.

(** ** Level 2: configuration and calls of the classifier *)

(** X7. Level 2 loads its configuration on the first call and keeps it:
    after a call the stored configuration is the one that call worked with,
    and a later call works with it again, whatever the environment then
    offers. *)
Theorem X7_l2_config_loaded_once (env env' : Env) (skill : Skill) (w : World) :
  let w1 := snd (SemanticAnalyzer.analyze env skill w) in
  sem_config (l2_analyzer (scanner w1)) = Some (l2_config_of env w)
  /\ l2_config_of env' w1 = l2_config_of env w.
Proof.
  assert (H : sem_config (l2_analyzer
                            (scanner (snd (SemanticAnalyzer.analyze env skill w))))
              = Some (l2_config_of env w)).
  { unfold SemanticAnalyzer.analyze, SemanticAnalyzer._ensure_config,
      l2_config_of.
    unfold mbind, M_bind, get_world, modify, mret, M_ret.
    destruct (sem_config (l2_analyzer (scanner w))) as [cfg |] eqn:Hcfg;
      cbn [default from_option fst snd]; unfold id.
    - destruct (negb (PyStr.truthy (api_url cfg))
                || negb (PyStr.truthy (api_key cfg))); [exact Hcfg |].
      unfold try_except, SemanticAnalyzer._analyze_async.
      rewrite retry_eq.
      destruct (snd (retried env skill 2 0)); exact Hcfg.
    - destruct (negb (PyStr.truthy (api_url (gemini_env env)))
                || negb (PyStr.truthy (api_key (gemini_env env))));
        [reflexivity |].
      unfold try_except, SemanticAnalyzer._analyze_async.
      rewrite retry_eq.
      destruct (snd (retried env skill 2 0)); reflexivity. }
  intros w1. split; [exact H |].
  unfold l2_config_of at 1. subst w1. now rewrite H.
Qed.

(** The attempts of a retried call: all but the last one raise, and the
    call ends as the last one does, with [RetryError] in place of its
    exception. *)
Lemma retried_spec (env : Env) (skill : Skill) (more : nat) :
  forall k,
    let n := fst (retried env skill more k) in
    1 <= n <= S more
    /\ (forall j, j < n - 1 ->
                  exists e, attempt_outcome env skill (k + j) = Raise e)
    /\ match attempt_outcome env skill (k + (n - 1)) with
       | Ret fs => snd (retried env skill more k) = Ret fs
       | Raise e =>
           n = S more
           /\ snd (retried env skill more k)
              = Raise (SemanticAnalyzer.RetryError env e)
       end.
Proof.
  induction more as [| more IH]; intros k; cbn [retried];
    destruct (attempt_outcome env skill k) as [fs | e] eqn:Ek;
    cbn [fst snd].
  - split; [lia |]. split; [intros j Hj; lia |].
    rewrite Nat.add_0_r, Ek. reflexivity.
  - split; [lia |]. split; [intros j Hj; lia |].
    rewrite Nat.add_0_r, Ek. split; reflexivity.
  - split; [lia |]. split; [intros j Hj; lia |].
    rewrite Nat.add_0_r, Ek. reflexivity.
  - destruct (IH (S k)) as (Hn & Hfail & Hlast).
    set (n := fst (retried env skill more (S k))) in *.
    split; [lia |]. split.
    + intros [| j] Hj.
      * rewrite Nat.add_0_r. now exists e.
      * replace (k + S j) with (S k + j) by lia. apply Hfail. lia.
    + replace (k + (S n - 1)) with (S k + (n - 1)) by lia.
      destruct (attempt_outcome env skill (S k + (n - 1))); [exact Hlast |].
      destruct Hlast as [-> ->]. split; reflexivity.
Qed.

(** X8. A fault of the classifier call does not leave level 2. Without a
    URL or a key level 2 sends nothing and returns
    [gemini_not_configured]. Otherwise it sends one to three requests: an
    attempt that raises, in the exchange or in the conversion of the
    answer, is followed by another one, three at most; the findings of the
    first attempt that returns are returned; when the third attempt raises
    too, the result is the single [analysis_error] finding, made of the
    [RetryError]. *)
Theorem X8_l2_oracle_calls (env : Env) (skill : Skill) (w : World) :
  let out := SemanticAnalyzer.analyze env skill w in
  let calls := oracle_calls_of (new_events w (snd out)) in
  exists (fs : list (FindingOf PyVal)) (n : nat),
    fst out = Ret fs
    /\ calls = repeat (skill_name skill) n
    /\ if l2_configured env w
       then 1 <= n <= 3
            /\ (forall k, k < n - 1 ->
                          exists e, attempt_outcome env skill k = Raise e)
            /\ match attempt_outcome env skill (n - 1) with
               | Ret last => fs = last
               | Raise e =>
                   n = 3
                   /\ fs = [SemanticAnalyzer.analysis_error
                              (SemanticAnalyzer.RetryError env e)]
               end
       else n = 0 /\ fs = [SemanticAnalyzer.gemini_not_configured].
Proof.
  intros out calls. subst out calls.
  destruct (l2_analyze_eq env skill w) as (w' & Heq & _ & _ & Hev).
  rewrite Heq. cbn [fst snd]. rewrite Hev.
  exists (l2_findings env skill w),
    (if l2_configured env w then fst (retried env skill 2 0) else 0).
  split; [reflexivity |]. unfold l2_findings.
  destruct (l2_configured env w).
  - split; [apply oracle_calls_of_repeat |].
    destruct (retried_spec env skill 2 0) as (Hn & Hfail & Hlast).
    cbn [Nat.add] in Hfail, Hlast.
    split; [exact Hn |]. split; [exact Hfail |].
    destruct (attempt_outcome env skill (fst (retried env skill 2 0) - 1)).
    + now rewrite Hlast.
    + destruct Hlast as [Hn3 ->]. split; [exact Hn3 | reflexivity].
  - split; [reflexivity |]. split; reflexivity.
Qed.

(** ** The conversion of the classifier's answer *)

Lemma for_each_ret {A B} (body : A -> Outcome B) (xs : list A)
    (ys : list B) :
  for_each body xs = Ret ys -> Forall2 (fun x y => body x = Ret y) xs ys.
Proof.
  revert ys. induction xs as [| x xs IH]; intros ys; cbn [for_each].
  - intros [= <-]. constructor.
  - unfold mbind, Outcome_bind.
    destruct (body x) as [y | e] eqn:Ex; [| discriminate].
    destruct (for_each body xs) as [ys' | e]; [| discriminate].
    intros [= <-]. constructor; [exact Ex | now apply IH].
Qed.

Lemma for_each_raises {A B} (body : A -> Outcome B) (xs : list A) :
  (exists e, for_each body xs = Raise e)
  <-> exists x e, In x xs /\ body x = Raise e.
Proof.
  induction xs as [| x xs IH]; cbn [for_each].
  - split; [intros (e & H); discriminate | intros (x & e & [] & _)].
  - unfold mbind, Outcome_bind.
    destruct (body x) as [y | e] eqn:Ex.
    + destruct (for_each body xs) as [ys | e'].
      * split; [intros (e & H); discriminate |].
        intros (x' & e & [<- | Hin] & He); [congruence |].
        destruct IH as [_ IH]. destruct IH as (e0 & H0); [| discriminate].
        now exists x', e.
      * split; [| intros _; now exists e'].
        intros _. destruct IH as [IH _].
        destruct IH as (x' & e0 & Hin & He); [now exists e' |].
        exists x', e0. split; [now right | exact He].
    + split; [| intros _; now exists e].
      intros _. exists x, e. split; [now left | exact Ex].
Qed.

Lemma convert_item_ret (item : OracleItem) (f : FindingOf PyVal) :
  SemanticAnalyzer.convert_item item = Ret f ->
  level f = "L2"
  /\ name f = default "unknown" (it_type item)
  /\ description f = default "" (it_description item)
  /\ severity f = default (PyNum (NFloat 0.5%Q)) (it_severity item)
  /\ exists s, default (PyStr "") (it_evidence item) = PyStr s
               /\ code_snippet f = Some (PyStr.take 200 s).
Proof.
  unfold SemanticAnalyzer.convert_item, py_slice_200.
  destruct (default (PyStr "") (it_evidence item)) as [| n | s];
    cbn; try discriminate.
  intros [= <-]. repeat split. now exists s.
Qed.

Lemma convert_item_raises (item : OracleItem) :
  (exists e, SemanticAnalyzer.convert_item item = Raise e)
  <-> forall s, default (PyStr "") (it_evidence item) <> PyStr s.
Proof.
  unfold SemanticAnalyzer.convert_item, py_slice_200.
  destruct (default (PyStr "") (it_evidence item)) as [| n | s]; cbn.
  - split; [intros _ s; discriminate | intros _; eexists; reflexivity].
  - split; [intros _ s; discriminate | intros _; eexists; reflexivity].
  - split; [intros (e & H); discriminate | intros H; now destruct (H s)].
Qed.


(** ** Level 3: selection of the fragments and the runs *)

Lemma in_take {A} (n : nat) (l : list A) (x : A) : In x (take n l) -> In x l.
Proof.
  revert l. induction n as [| n IH]; intros [| y l]; simpl; try tauto.
  intros [<- | H]; [now left | right; now apply IH].
Qed.

(** X10. At most five fragments are selected; each comes from a code block
    of the skill, carries its language in lower case, which is one of
    python, py, bash, sh, shell, and has more than ten characters of code
    once stripped. *)
Theorem X10_extract_testable_code (skill : Skill) :
  length (DynamicAnalyzer._extract_testable_code skill) <= 5
  /\ Forall
       (fun b =>
          str_in_list (language b) ["python"; "py"; "bash"; "sh"; "shell"]
          = true
          /\ 10 < String.length (PyStr.strip (code b))
          /\ exists orig, In orig (code_blocks skill)
                          /\ language b = PyStr.lower (language orig)
                          /\ code b = code orig)
       (DynamicAnalyzer._extract_testable_code skill).
Proof.
  unfold DynamicAnalyzer._extract_testable_code. split.
  - rewrite length_take. lia.
  - apply List.Forall_forall. intros b Hb. apply in_take in Hb.
    apply in_flat_map in Hb as (orig & Horig & Hb).
    destruct (str_in_list (PyStr.lower (language orig)) _) eqn:Hlang;
      [| destruct Hb].
    match type of Hb with
    | In _ (if ?c then _ else _) => destruct c eqn:Hc
    end; [| destruct Hb].
    destruct Hb as [<- | []]. cbn [language code].
    apply andb_true_iff in Hc as [_ Hlen].
    apply Nat.ltb_lt in Hlen.
    split; [exact Hlang |]. split; [exact Hlen |].
    exists orig. auto.
Qed.

Lemma unlinks_of_app (a b : list Event) :
  unlinks_of (a ++ b) = unlinks_of a ++ unlinks_of b.
Proof. unfold unlinks_of. apply omap_app. Qed.

Lemma run_unlink_pairs (n i : nat) :
  unlinks_of (flat_map run_events (seq i n)) = seq i n.
Proof.
  revert i. induction n as [| n IH]; intros i; [reflexivity |].
  cbn [seq flat_map]. rewrite unlinks_of_app, IH. reflexivity.
Qed.


(** ** Level 4: findings and the audit record *)

Lemma verify_source_length (skill : Skill) :
  length (TrustVerifier._verify_source skill) <= 1.
Proof.
  unfold TrustVerifier._verify_source.
  repeat match goal with
         | |- context [if ?c then _ else _] => destruct c
         end; simpl; lia.
Qed.

Lemma verify_signature_length (skill : Skill) :
  length (TrustVerifier._verify_signature skill) = 1.
Proof.
  unfold TrustVerifier._verify_signature.
  now destruct (negb (sig_exists skill)).
Qed.

Lemma verify_length_and_audit
    (env : Env) (skill : Skill) (w w' : World) (fs : list Finding) :
  TrustVerifier.verify env skill w = (Ret fs, w') ->
  1 <= length fs <= 3
  /\ (if audit_writable env
      then exists e,
             audit_log w' = audit_log w ++ [e]
             /\ au_skill_name e = skill_name skill
             /\ au_findings_count e = length fs
             /\ au_max_severity e = py_max_list (map severity fs) 0%Q
      else audit_log w' = audit_log w).
Proof.
  intros H.
  apply l4_verify_spec in H as (a & Hl & _ & -> & _ & _ & Haud).
  pose proof (verify_source_length skill) as Hs.
  pose proof (verify_signature_length skill) as Hg.
  split.
  - rewrite !length_app. simpl.
    destruct (require_signature _); simpl; lia.
  - destruct (audit_writable env).
    + eexists. split; [exact Haud |]. repeat split.
    + now rewrite app_nil_r in Haud.
Qed.

(** X12. When the trust ledger returns, it returns one to three findings -
    at most one on the source, one on the signature only under the
    require-signature policy, exactly one on the author, in that order -
    and, if the audit log can be written, it has appended one record whose
    count and maximum severity are those of the returned findings; if the
    log cannot be written nothing is appended and the findings are returned
    all the same. *)
Theorem X12_verify_findings_and_audit
    (env : Env) (skill : Skill) (w w' : World) (fs : list Finding) :
  TrustVerifier.verify env skill w = (Ret fs, w') ->
  let self := l4_verifier (scanner w) in
  1 <= length fs <= 3
  /\ (require_signature (tv_config self) = false -> length fs <= 2)
  /\ Forall (fun f => level f = "L4") fs
  /\ (if audit_writable env
      then exists e,
             audit_log w' = audit_log w ++ [e]
             /\ au_skill_name e = skill_name skill
             /\ au_findings_count e = length fs
             /\ au_max_severity e = py_max_list (map severity fs) 0%Q
      else audit_log w' = audit_log w).
Proof.
  intros H self.
  apply l4_verify_spec in H as (a & Hl & _ & -> & _ & _ & Haud).
  fold self in Haud |- *.
  pose proof (verify_source_length skill) as Hs.
  pose proof (verify_signature_length skill) as Hg.
  split; [| split; [| split]].
  - rewrite !length_app. simpl.
    destruct (require_signature (tv_config self)); simpl; lia.
  - intros ->. rewrite !length_app. simpl. lia.
  - apply Forall_app. split.
    + apply List.Forall_forall. intros f Hf.
      now apply verify_source_range in Hf.
    + apply Forall_app. split; [| now repeat constructor].
      apply List.Forall_forall. intros f Hf.
      destruct (require_signature (tv_config self)); [| destruct Hf].
      now apply verify_signature_range in Hf.
  - destruct (audit_writable env).
    + eexists. split; [exact Haud |]. repeat split.
    + now rewrite app_nil_r in Haud.
Qed.

Lemma X12_verify_findings_and_audit_witness :
  exists fs w',
    TrustVerifier.verify Sample.sample_env
      (Skill.from_path Sample.sample_re Sample.benign_dir)
      (Sample.sample_world ∅) = (Ret fs, w')
    /\ 1 <= length fs <= 3.
Proof.
  destruct (TrustVerifier.verify Sample.sample_env
              (Skill.from_path Sample.sample_re Sample.benign_dir)
              (Sample.sample_world ∅)) as [[fs | e] w'] eqn:E.
  - exists fs, w'. split; [reflexivity |].
    exact (proj1 (X12_verify_findings_and_audit Sample.sample_env
                    (Skill.from_path Sample.sample_re Sample.benign_dir)
                    (Sample.sample_world ∅) w' fs E)).
  - exfalso. vm_compute in E. discriminate E.
Defined.

(** A call of [verify] that raises has written nothing. *)
Lemma l4_verify_raise_untouched (env : Env) (skill : Skill) (w w' : World)
    (e : PyExn) :
  TrustVerifier.verify env skill w = (Raise e, w') -> w' = w.
Proof.
  unfold TrustVerifier.verify.
  unfold mbind at 1. unfold M_bind, get_world.
  unfold mbind at 1. unfold M_bind.
  rewrite verify_author_pure.
  destruct (fst (TrustVerifier._verify_author env (l4_verifier (scanner w))
                   skill w)) as [l | e1].
  - unfold mbind, M_bind, TrustVerifier._log_audit.
    destruct (audit_writable env); unfold modify, mret, M_ret; discriminate.
  - intros H. now inversion H.
Qed.

Lemma verify_outcome (env : Env) (skill : Skill) (w : World) :
  fst (TrustVerifier.verify env skill w)
  = match fst (TrustVerifier._verify_author env (l4_verifier (scanner w))
                 skill w) with
    | Ret l =>
        Ret ((if require_signature (tv_config (l4_verifier (scanner w)))
              then TrustVerifier._verify_source skill
                   ++ TrustVerifier._verify_signature skill
              else TrustVerifier._verify_source skill) ++ l)
    | Raise e => Raise e
    end.
Proof.
  unfold TrustVerifier.verify.
  unfold mbind at 1. unfold M_bind, get_world.
  unfold mbind at 1. unfold M_bind.
  destruct (TrustVerifier._verify_author env (l4_verifier (scanner w)) skill w)
    as [[l | e] w1]; [| reflexivity].
  unfold mbind, M_bind, TrustVerifier._log_audit.
  now destruct (audit_writable env).
Qed.

(** X13. The audit trail never influences the verdict: the outcome of
    [verify] (its findings, or the exception of the author lookup) is the
    same whether or not the log can be written and whatever the clock and
    the digest are; and a call that raises has written no record. *)
Theorem X13_audit_does_not_change_verdict
    (env1 env2 : Env) (skill : Skill) (w : World) :
  float_str env1 = float_str env2 ->
  fst (TrustVerifier.verify env1 skill w)
  = fst (TrustVerifier.verify env2 skill w)
  /\ forall e w', TrustVerifier.verify env1 skill w = (Raise e, w') ->
                  audit_log w' = audit_log w.
Proof.
  intros Hf. split.
  - rewrite !verify_outcome.
    assert (Ha : TrustVerifier._verify_author env1 (l4_verifier (scanner w))
                   skill
                 = TrustVerifier._verify_author env2 (l4_verifier (scanner w))
                     skill).
    { unfold TrustVerifier._verify_author, TrustVerifier.py_format.
      now rewrite Hf. }
    now rewrite Ha.
  - intros e w' H. now rewrite (l4_verify_raise_untouched _ _ _ _ _ H).
Qed.

Lemma X13_audit_does_not_change_verdict_witness :
  audit_writable Sample.sample_env <> audit_writable Sample.env_log_read_only
  /\ fst (TrustVerifier.verify Sample.sample_env
            (Skill.from_path Sample.sample_re Sample.benign_dir)
            (Sample.sample_world ∅))
     = fst (TrustVerifier.verify Sample.env_log_read_only
              (Skill.from_path Sample.sample_re Sample.benign_dir)
              (Sample.sample_world ∅)).
Proof.
  split; [discriminate |].
  exact (proj1 (X13_audit_does_not_change_verdict Sample.sample_env
                  Sample.env_log_read_only
                  (Skill.from_path Sample.sample_re Sample.benign_dir)
                  (Sample.sample_world ∅) eq_refl)).
Defined.

(** ** The audit log over a whole scan *)

Lemma appends_ret {A} (a : A) : audit_appends 0 (mret a : M A).
Proof. intros w. exists []. simpl. now rewrite app_nil_r. Qed.

Lemma appends_bind (k1 k2 k : nat) {A B} (m : M A) (f : A -> M B) :
  audit_appends k1 m -> (forall a, audit_appends k2 (f a)) ->
  k1 + k2 <= k -> audit_appends k (m ≫= f).
Proof.
  intros Hm Hf Hk w. destruct (Hm w) as (e1 & H1 & L1).
  unfold mbind, M_bind. destruct (m w) as [[a | e] w1]; simpl in *.
  - destruct (Hf a w1) as (e2 & H2 & L2).
    exists (e1 ++ e2). rewrite H2, H1, app_assoc, length_app.
    split; [reflexivity | lia].
  - exists e1. split; [exact H1 | lia].
Qed.

Lemma appends_if (k : nat) {A} (b : bool) (m1 m2 : M A) :
  audit_appends k m1 -> audit_appends k m2 ->
  audit_appends k (if b then m1 else m2).
Proof. now destruct b. Qed.

Lemma appends_emit (ev : Event) : audit_appends 0 (emit ev).
Proof. intros w. exists []. simpl. now rewrite app_nil_r. Qed.

Lemma appends_l1 (re : ReLib) (skill : Skill) :
  audit_appends 0 (StaticAnalyzer.analyze re skill).
Proof. intros w. exists []. simpl. now rewrite app_nil_r. Qed.

Lemma appends_l2 (env : Env) (skill : Skill) :
  audit_appends 0 (SemanticAnalyzer.analyze env skill).
Proof.
  intros w. destruct (l2_analyze_eq env skill w) as (w' & E & _ & Ha & _).
  exists []. rewrite E. simpl. now rewrite Ha, app_nil_r.
Qed.

Lemma appends_lift {A} (o : Outcome A) : audit_appends 0 (lift o).
Proof. intros w. exists []. simpl. now rewrite app_nil_r. Qed.

Lemma appends_l3 (env : Env) (skill : Skill) :
  audit_appends 0 (DynamicAnalyzer.analyze env skill).
Proof.
  intros w. exists []. rewrite l3_analyze_eq. simpl.
  now rewrite app_nil_r.
Qed.

Lemma appends_l4 (env : Env) (skill : Skill) :
  audit_appends 1 (TrustVerifier.verify env skill).
Proof.
  intros w.
  destruct (TrustVerifier.verify env skill w) as [[fs | e] w'] eqn:E.
  - apply l4_verify_spec in E as (a & _ & _ & _ & _ & _ & Ha).
    eexists. split; [exact Ha |]. destruct (audit_writable env); simpl; lia.
  - apply l4_verify_raise_untouched in E as ->.
    exists []. simpl. split; [now rewrite app_nil_r | lia].
Qed.

Lemma appends_get_world : audit_appends 0 get_world.
Proof. intros w. exists []. simpl. now rewrite app_nil_r. Qed.

(** X14. The audit log is append-only: a scan, at any level and however it
    ends, keeps every record that was there, in order, and adds at most
    one. *)
Theorem X14_scan_audit_append_only
    (env : Env) (d : SkillDir) (lvl : string) (w : World) :
  exists es,
    audit_log (snd (SkillScanner.scan_skill env d lvl w)) = audit_log w ++ es
    /\ length es <= 1.
Proof.
  revert w. change (audit_appends 1 (SkillScanner.scan_skill env d lvl)).
  unfold SkillScanner.scan_skill.
  apply appends_if.
  { intros w. exists []. simpl. split; [now rewrite app_nil_r | lia]. }
  apply (appends_bind 0 1); [| | lia].
  { apply appends_if; [| apply appends_ret].
    apply (appends_bind 0 0); [apply appends_emit | | lia]. intros _.
    apply (appends_bind 0 0); [apply appends_l1 | | lia]. intros ?.
    apply appends_ret. }
  intros f1. apply (appends_bind 0 1); [| | lia].
  { apply appends_if; [| apply appends_ret].
    apply appends_if; [| apply appends_ret].
    apply (appends_bind 0 0); [apply appends_emit | | lia]. intros _.
    apply (appends_bind 0 0); [apply appends_l2 | | lia]. intros ?.
    apply (appends_bind 0 0); [apply appends_lift | | lia]. intros ?.
    apply appends_ret. }
  intros f2. apply (appends_bind 0 1); [| | lia].
  { apply appends_if; [| apply appends_ret].
    apply appends_if; [| apply appends_ret].
    apply (appends_bind 0 0); [apply appends_emit | | lia]. intros _.
    apply (appends_bind 0 0); [apply appends_l3 | | lia]. intros ?.
    apply appends_ret. }
  intros f3. apply (appends_bind 1 0); [| | lia].
  { apply appends_if;
      [| intros w; exists []; simpl; split; [now rewrite app_nil_r | lia]].
    apply (appends_bind 0 1); [apply appends_emit | | lia]. intros _.
    apply (appends_bind 1 0); [apply appends_l4 | | lia]. intros ?.
    apply appends_ret. }
  intros f4. apply (appends_bind 0 0); [apply appends_get_world | | lia].
  intros ?. apply appends_ret.
Qed.

(** X15. A scan of a valid skill at level "all" that returns a result, with
    a writable log, has added exactly one audit record; the record counts
    the findings of level 4 only (one to three), so its count can be below
    the number of findings of the result. *)
Theorem X15_scan_audit_record
    (env : Env) (d : SkillDir) (w w' : World) (r : SkillResult) :
  is_valid (Skill.from_path (relib env) d) = true ->
  audit_writable env = true ->
  SkillScanner.scan_skill env d "all" w = (Ret r, w') ->
  exists e,
    audit_log w' = audit_log w ++ [e]
    /\ au_skill_name e = res_name r
    /\ 1 <= au_findings_count e <= 3
    /\ au_findings_count e <= length (findings r).
Proof.
  intros Hvalid Hwr Hscan.
  destruct (scan_skill_all env d w Hvalid) as (w2 & _ & Ha2 & Heq).
  rewrite Heq in Hscan. clear Heq.
  destruct (after_l2 env _ w _) as [l12 | e]; [| discriminate].
  cbv zeta in Hscan.
  set (w3 := if SkillScanner.should_run_l3 l12
             then add_events
                    (EvLevel "L3"
                     :: snd (l3_result env (Skill.from_path (relib env) d) w))
                    w2
             else w2) in *.
  assert (Ha3 : audit_log w3 = audit_log w).
  { subst w3. now destruct (SkillScanner.should_run_l3 l12). }
  destruct (if SkillScanner.should_run_l3 l12
            then fst (l3_result env (Skill.from_path (relib env) d) w)
            else Ret []) as [l3 | e]; [| discriminate].
  destruct (TrustVerifier.verify env (Skill.from_path (relib env) d)
              (add_events [EvLevel "L4"] w3))
    as [[l4 | e] w4] eqn:Hv; [| discriminate].
  inversion Hscan; subst r w4. clear Hscan.
  destruct (verify_length_and_audit env _ _ w' l4 Hv)
    as (Hlen & Haud).
  rewrite Hwr in Haud. destruct Haud as (e & Hlog & Hname & Hcount & _).
  exists e. rewrite Hlog. cbn [audit_log add_events]. rewrite Ha3.
  split; [reflexivity |]. split; [exact Hname |].
  rewrite Hcount. split; [exact Hlen |].
  cbn [findings SkillScanner.aggregate]. rewrite !length_app. lia.
Qed.

Lemma X15_scan_audit_record_witness :
  is_valid (Skill.from_path (relib Sample.sample_env) Sample.benign_dir) = true
  /\ audit_writable Sample.sample_env = true
  /\ exists r w' e,
       SkillScanner.scan_skill Sample.sample_env Sample.benign_dir "all"
         (Sample.sample_world ∅) = (Ret r, w')
       /\ audit_log w' = audit_log (Sample.sample_world ∅) ++ [e].
Proof.
  split; [reflexivity |]. split; [reflexivity |].
  destruct (SkillScanner.scan_skill Sample.sample_env Sample.benign_dir "all"
              (Sample.sample_world ∅)) as [[r | x] w'] eqn:E.
  - destruct (X15_scan_audit_record Sample.sample_env Sample.benign_dir
                (Sample.sample_world ∅) w' r eq_refl eq_refl E)
      as (e & He & _).
    exists r, w', e. split; [reflexivity | exact He].
  - exfalso. vm_compute in E. discriminate E.
Defined.

(** ** The author check *)

(** X16. For an author listed in the registry with a number as
    reputation, a higher reputation never gives a more severe finding, the
    verified flag being equal: the severity is 0.0 (verified, reputation at
    least 0.8), 0.10 (reputation at least 0.5) or 0.40. *)
Theorem X16_author_severity_antitone
    (env : Env) (self1 self2 : TrustVerifier) (skill : Skill) (w : World)
    (r1 r2 : PyNumber) (ver : option PyVal) (a1 a2 : Finding) :
  let author := default "unknown" (metadata skill !! "author") in
  trusted_authors self1 !! author = Some (EntryDict (Some (PyNum r1)) ver) ->
  trusted_authors self2 !! author = Some (EntryDict (Some (PyNum r2)) ver) ->
  (PyVal.num_val r1 <= PyVal.num_val r2)%Q ->
  TrustVerifier._verify_author env self1 skill w = (Ret [a1], w) ->
  TrustVerifier._verify_author env self2 skill w = (Ret [a2], w) ->
  (severity a2 <= severity a1)%Q.
Proof.
  intros author H1 H2 Hle.
  unfold TrustVerifier._verify_author. fold author. rewrite H1, H2.
  cbn [default from_option]. unfold id.
  unfold py_ge. cbn [PyVal.as_number].
  unfold mbind, M_bind, lift, mret, M_ret.
  set (q1 := PyVal.num_val r1) in *. set (q2 := PyVal.num_val r2) in *.
  assert (T8 : Qle_bool 0.8 q1 = true -> Qle_bool 0.8 q2 = true).
  { rewrite !Qle_bool_iff. intros H. eapply Qle_trans; eauto. }
  assert (T5 : Qle_bool 0.5 q1 = true -> Qle_bool 0.5 q2 = true).
  { rewrite !Qle_bool_iff. intros H. eapply Qle_trans; eauto. }
  assert (T85 : Qle_bool 0.8 q2 = true -> Qle_bool 0.5 q2 = true).
  { rewrite !Qle_bool_iff. intros H. eapply Qle_trans; [| exact H].
    unfold Qle; simpl; lia. }
  destruct (PyVal.truthy (from_option (fun x => x) (PyNum (NBool false)) ver));
    destruct (Qle_bool 0.8 q1) eqn:E81; destruct (Qle_bool 0.8 q2) eqn:E82;
    destruct (Qle_bool 0.5 q1) eqn:E51; destruct (Qle_bool 0.5 q2) eqn:E52;
    intros Ha1 Ha2;
    inversion Ha1; inversion Ha2; subst; cbn [severity TrustVerifier.l4_finding];
    try (unfold Qle; simpl; lia);
    try (now specialize (T8 eq_refl));
    try (now specialize (T5 eq_refl));
    try (now specialize (T85 eq_refl)).
Qed.

Lemma X16_author_severity_antitone_witness :
  let skill := Skill.from_path Sample.sample_re Sample.authored_dir in
  let reg (r : Q) : TrustVerifier :=
    {| tv_config :=
         {| require_signature := false; trusted_authors_file := None;
            audit_log_file := "audit.log" |};
       trusted_authors :=
         {[ "mallory" := EntryDict (Some (PyNum (NFloat r)))
                                   (Some (PyNum (NBool true))) ]} |} in
  exists a1 a2,
    TrustVerifier._verify_author Sample.sample_env (reg 0.3%Q) skill
      (Sample.sample_world ∅) = (Ret [a1], Sample.sample_world ∅)
    /\ TrustVerifier._verify_author Sample.sample_env (reg 0.9%Q) skill
         (Sample.sample_world ∅) = (Ret [a2], Sample.sample_world ∅)
    /\ (severity a2 <= severity a1)%Q.
Proof.
  intros skill reg. eexists. eexists.
  split; [vm_compute; reflexivity |]. split; [vm_compute; reflexivity |].
  refine (X16_author_severity_antitone Sample.sample_env (reg 0.3%Q)
            (reg 0.9%Q) skill (Sample.sample_world ∅)
            (NFloat 0.3%Q) (NFloat 0.9%Q) (Some (PyNum (NBool true)))
            _ _ _ _ _ _ _);
    try (vm_compute; reflexivity).
  unfold Qle; simpl; lia.
Defined.

(** ** Classification and score *)

Lemma classify_is_class (self : SkillScanner) (s : Q) :
  is_class (SkillScanner._classify_risk self s).
Proof.
  unfold SkillScanner._classify_risk, is_class.
  repeat match goal with
         | |- context [if ?c then _ else _] => destruct c
         end; auto.
Qed.

(** X17. With thresholds in order (medium at most high at most critical) the
    classification is monotone: a score that is not lower never gets a
    lower class. The class is always one of low, medium, high, critical. *)
Theorem X17_classify_monotone (self : SkillScanner) (s1 s2 : Q) :
  let t := th_thresholds (thresholds_config self) in
  (medium_min t <= high_min t)%Q ->
  (high_min t <= critical_min t)%Q ->
  (s1 <= s2)%Q ->
  class_rank (SkillScanner._classify_risk self s1)
  <= class_rank (SkillScanner._classify_risk self s2)
  /\ is_class (SkillScanner._classify_risk self s1).
Proof.
  intros t Hmh Hhc Hs. split; [| apply classify_is_class].
  unfold SkillScanner._classify_risk. fold t.
  assert (Up : forall m, Qle_bool m s1 = true -> Qle_bool m s2 = true).
  { intros m. rewrite !Qle_bool_iff. intros H. eapply Qle_trans; eauto. }
  assert (Dn : forall a b s, (a <= b)%Q -> Qle_bool b s = true ->
                             Qle_bool a s = true).
  { intros a b s Hab. rewrite !Qle_bool_iff. intros H.
    eapply Qle_trans; eauto. }
  destruct (Qle_bool (critical_min t) s1) eqn:C1;
    destruct (Qle_bool (critical_min t) s2) eqn:C2;
    destruct (Qle_bool (high_min t) s1) eqn:H1;
    destruct (Qle_bool (high_min t) s2) eqn:H2;
    destruct (Qle_bool (medium_min t) s1) eqn:M1;
    destruct (Qle_bool (medium_min t) s2) eqn:M2;
    cbn; try lia; exfalso;
    repeat match goal with
           | H : Qle_bool ?m s1 = true, H' : Qle_bool ?m s2 = false |- _ =>
               rewrite (Up m H) in H'; discriminate H'
           | H : Qle_bool (critical_min t) ?s = true,
             H' : Qle_bool (high_min t) ?s = false |- _ =>
               rewrite (Dn _ _ s Hhc H) in H'; discriminate H'
           | H : Qle_bool (high_min t) ?s = true,
             H' : Qle_bool (medium_min t) ?s = false |- _ =>
               rewrite (Dn _ _ s Hmh H) in H'; discriminate H'
           end.
Qed.

Lemma X17_classify_monotone_witness :
  let self := Sample.sample_scanner ∅ in
  class_rank (SkillScanner._classify_risk self 0.35%Q)
  <= class_rank (SkillScanner._classify_risk self 0.7%Q).
Proof.
  intros self.
  refine (proj1 (X17_classify_monotone self 0.35%Q 0.7%Q _ _ _));
    unfold Qle; simpl; lia.
Defined.

Lemma py_max_list_app_ge (xs ys : list Q) :
  xs <> [] \/ Forall (fun y => (0 <= y)%Q) ys ->
  (py_max_list xs 0.0 <= py_max_list (xs ++ ys) 0.0)%Q.
Proof.
  intros H. destruct xs as [| x xs].
  - destruct H as [H | H]; [congruence |]. simpl app.
    destruct ys as [| y ys]; [apply Qle_refl |].
    assert (Hin : In (py_max_list (y :: ys) 0.0) (y :: ys))
      by (apply py_max_list_in; discriminate).
    rewrite List.Forall_forall in H.
    eapply Qle_trans; [| apply (H _ Hin)]. unfold Qle; simpl; lia.
  - apply py_max_list_ge. apply in_or_app. left.
    apply py_max_list_in. discriminate.
Qed.

(** X18. Findings only push the score up: with a pattern weight that is not
    negative, appending findings to a non-empty list (or findings of
    non-negative severity to any list) never lowers the aggregated score. *)
Theorem X18_score_grows_with_findings
    (self : SkillScanner) (skill : Skill) (fs more : list Finding) :
  (0 <= w_pattern_severity (th_weights (thresholds_config self)))%Q ->
  fs <> [] \/ Forall (fun f => (0 <= severity f)%Q) more ->
  (SkillScanner._calculate_risk_score self skill fs
   <= SkillScanner._calculate_risk_score self skill (fs ++ more))%Q.
Proof.
  intros Hw Hfs. unfold SkillScanner._calculate_risk_score.
  set (weights := th_weights (thresholds_config self)) in *.
  set (perm := SkillScanner._get_permission_score self skill).
  set (src := SkillScanner._get_source_trust_score self skill).
  assert (Hp : (py_max_list (map severity fs) 0.0
                <= py_max_list (map severity (fs ++ more)) 0.0)%Q).
  { rewrite map_app. apply py_max_list_app_ge.
    destruct Hfs as [H | H].
    - left. destruct fs; [congruence | discriminate].
    - right. rewrite List.Forall_forall in *. intros y Hy.
      apply in_map_iff in Hy as (f & <- & Hf). now apply H. }
  set (p1 := py_max_list (map severity fs) 0.0) in *.
  set (p2 := py_max_list (map severity (fs ++ more)) 0.0) in *.
  assert (Hraw : (w_pattern_severity weights * p1
                  + w_permission_scope weights * perm
                  + w_source_trust weights * src
                  + w_community_reports weights * 0.0
                  <= w_pattern_severity weights * p2
                     + w_permission_scope weights * perm
                     + w_source_trust weights * src
                     + w_community_reports weights * 0.0)%Q).
  { assert (H : (w_pattern_severity weights * p1
                 <= w_pattern_severity weights * p2)%Q) by nra.
    lra. }
  set (raw1 := (w_pattern_severity weights * p1 + _ + _ + _)%Q) in *.
  set (raw2 := (w_pattern_severity weights * p2 + _ + _ + _)%Q) in *.
  destruct (Qlt_bool raw1 1.0) eqn:E1; destruct (Qlt_bool raw2 1.0) eqn:E2.
  - exact Hraw.
  - apply Qlt_bool_true in E1. now apply Qlt_le_weak.
  - apply Qlt_bool_false in E1. apply Qlt_bool_true in E2.
    exfalso. apply (Qlt_irrefl 1.0).
    eapply Qle_lt_trans; [exact E1 |]. eapply Qle_lt_trans; eauto.
  - apply Qle_refl.
Qed.

Lemma X18_score_grows_with_findings_witness :
  let self := Sample.sample_scanner ∅ in
  let skill := Skill.from_path Sample.sample_re Sample.benign_dir in
  (SkillScanner._calculate_risk_score self skill
     [StaticAnalyzer.missing_disclaimer]
   <= SkillScanner._calculate_risk_score self skill
        ([StaticAnalyzer.missing_disclaimer]
         ++ TrustVerifier._verify_source skill))%Q.
Proof.
  intros self skill.
  apply (X18_score_grows_with_findings self skill
           [StaticAnalyzer.missing_disclaimer]
           (TrustVerifier._verify_source skill)).
  - unfold Qle; simpl; lia.
  - left. discriminate.
Defined.

(** ** Levels other than "all" *)

(** X19. A level name other than "all", "L1", "l1", "L2", "l2", "L4", "l4"
    runs no analysis at all. At "L3" or "l3" the gate of level 3 is
    evaluated on the empty list of findings and stays shut; any other name
    selects nothing. No analyzer is called, the world is left as it was,
    and the valid result has no finding, no top finding and a score made of
    the metadata alone. *)
Theorem X19_level_without_analysis
    (env : Env) (d : SkillDir) (lvl : string) (w : World) :
  let skill := Skill.from_path (relib env) d in
  is_valid skill = true ->
  str_in_list lvl ["all"; "L1"; "l1"; "L2"; "l2"; "L4"; "l4"] = false ->
  SkillScanner.scan_skill env d lvl w
  = (Ret (SkillScanner.aggregate (scanner w) skill d []), w)
  /\ findings (SkillScanner.aggregate (scanner w) skill d []) = []
  /\ top_finding (SkillScanner.aggregate (scanner w) skill d []) = None.
Proof.
  intros skill Hvalid Hlvl.
  split; [| split; reflexivity].
  unfold str_in_list in Hlvl. cbn [existsb] in Hlvl.
  repeat (apply orb_false_iff in Hlvl as [? Hlvl]).
  unfold SkillScanner.scan_skill. fold skill. rewrite Hvalid. cbn [negb].
  unfold str_in_list. cbn [existsb].
  repeat match goal with
         | H : String.eqb lvl _ = false |- _ => rewrite H; clear H
         end.
  cbn [orb].
  change (SkillScanner.should_run_l3 []) with false.
  destruct (lvl =? "L3")%string, (lvl =? "l3")%string; reflexivity.
Qed.

Lemma X19_level_without_analysis_witness :
  is_valid (Skill.from_path (relib Sample.sample_env) Sample.offensive_dir)
  = true
  /\ fst (SkillScanner.scan_skill Sample.sample_env Sample.offensive_dir "L3"
            (Sample.sample_world ∅))
     = Ret (SkillScanner.aggregate (scanner (Sample.sample_world ∅))
              (Skill.from_path (relib Sample.sample_env) Sample.offensive_dir)
              Sample.offensive_dir []).
Proof.
  split; [reflexivity |].
  rewrite (proj1 (X19_level_without_analysis Sample.sample_env
                    Sample.offensive_dir "L3" (Sample.sample_world ∅)
                    eq_refl eq_refl)).
  reflexivity.
Defined.

(** ** The result of a scan *)

Lemma bind_ret_inv {A B} (m : M A) (f : A -> M B) (w w' : World) (b : B) :
  (m ≫= f) w = (Ret b, w') ->
  exists a w1, m w = (Ret a, w1) /\ f a w1 = (Ret b, w').
Proof.
  unfold mbind, M_bind. destruct (m w) as [[a | e] w1]; [eauto | discriminate].
Qed.

(** A result is either the invalid one or the aggregate of some findings. *)
Lemma scan_skill_result_shape
    (env : Env) (d : SkillDir) (lvl : string) (w w' : World)
    (r : SkillResult) :
  SkillScanner.scan_skill env d lvl w = (Ret r, w') ->
  (is_valid (Skill.from_path (relib env) d) = false
   /\ r = SkillResult_default (sd_name d) (sd_path d) false
            (Some "Invalid skill: Missing or malformed SKILL.md"))
  \/ (is_valid (Skill.from_path (relib env) d) = true
      /\ exists fs,
           r = SkillScanner.aggregate (scanner w')
                 (Skill.from_path (relib env) d) d fs).
Proof.
  unfold SkillScanner.scan_skill.
  destruct (is_valid (Skill.from_path (relib env) d)); cbn [negb].
  - intros H. right. split; [reflexivity |].
    do 4 (apply bind_ret_inv in H as (? & ? & _ & H)).
    apply bind_ret_inv in H as (w2 & w3 & Hg & H).
    inversion Hg; subst. inversion H; subst. eauto.
  - intros H. inversion H; subst. now left.
Qed.





(** ** The scan of a directory *)

Lemma scan_result_path_class (env : Env) (d : SkillDir) (lvl : string)
    (w w' : World) (r : SkillResult) :
  SkillScanner.scan_skill env d lvl w = (Ret r, w') ->
  res_path r = sd_path d /\ is_class (classification r).
Proof.
  intros E.
  apply scan_skill_result_shape in E as [[_ ->] | [_ (fs & ->)]].
  - split; [reflexivity | now left].
  - split; [reflexivity | apply classify_is_class].
Qed.

Lemma one_count_per_class (c : string) :
  is_class c ->
  (if String.eqb c "low" then 1 else 0)
  + (if str_in_list c ["medium"; "high"] then 1 else 0)
  + (if String.eqb c "critical" then 1 else 0) = 1.
Proof. intros [-> | [-> | [-> | ->]]]; reflexivity. Qed.

Lemma counts_partition (rs : list SkillResult) :
  Forall (fun r => is_class (classification r)) rs ->
  total_skills (ScanReport.from_results rs)
  = passed_count (ScanReport.from_results rs)
    + flagged_count (ScanReport.from_results rs)
    + blocked_count (ScanReport.from_results rs).
Proof.
  unfold ScanReport.from_results, ScanReport.count_if.
  cbn [total_skills passed_count flagged_count blocked_count].
  induction 1 as [| r rs Hr _ IH]; [reflexivity |].
  apply one_count_per_class in Hr.
  cbn [List.filter length].
  destruct (String.eqb (classification r) "low"),
    (str_in_list (classification r) ["medium"; "high"]),
    (String.eqb (classification r) "critical");
    cbn [length] in *; lia.
Qed.

(** The loop of [full_scan]: when it returns, it returns one result per
    visible entry, in order; when it raises, the scan of a visible entry
    raised that exception. *)
Lemma scan_dirs_spec (env : Env) (dirs : list SkillDir) :
  forall w,
    match SkillScanner.scan_dirs env dirs w with
    | (Ret rs, _) =>
        map res_path rs = map sd_path (visible_dirs dirs)
        /\ Forall (fun r => is_class (classification r)) rs
    | (Raise e, w') =>
        exists d w1,
          In d (visible_dirs dirs)
          /\ SkillScanner.scan_skill env d "all" w1 = (Raise e, w')
    end.
Proof.
  induction dirs as [| d dirs IH]; intros w.
  - cbn. split; constructor.
  - cbn [SkillScanner.scan_dirs visible_dirs List.filter].
    destruct (negb (PyStr.startswith (sd_name d) ".")); [| apply IH].
    unfold mbind at 1. unfold M_bind at 1.
    destruct (SkillScanner.scan_skill env d "all" w) as [[r | e] w1] eqn:E.
    + apply scan_result_path_class in E as [Hp Hc].
      specialize (IH w1). unfold mbind, M_bind.
      destruct (SkillScanner.scan_dirs env dirs w1) as [[rs | e] w2].
      * destruct IH as [Hm Hall]. cbn [mret M_ret map]. split.
        -- now rewrite Hp, Hm.
        -- now constructor.
      * destruct IH as (d' & w1' & Hin & He).
        exists d', w1'. split; [now right | exact He].
    + exists d, w. split; [now left | exact E].
Qed.



(** ** The report: ranked list and common issues *)

Lemma insert_by_score_perm (r : SkillResult) (l : list SkillResult) :
  Permutation (r :: l) (ScanReport.insert_by_score r l).
Proof.
  induction l as [| g t IH]; simpl; [reflexivity |].
  destruct (Qlt_bool (risk_score r) (risk_score g)); [| reflexivity].
  rewrite perm_swap. now constructor.
Qed.

Lemma sort_by_score_perm (l : list SkillResult) :
  Permutation l (foldr ScanReport.insert_by_score [] l).
Proof.
  induction l as [| r l IH]; simpl; [reflexivity |].
  etransitivity; [| apply insert_by_score_perm]. now constructor.
Qed.

Lemma insert_by_score_sorted (r : SkillResult) (l : list SkillResult) :
  StronglySorted (fun a b => (risk_score b <= risk_score a)%Q) l ->
  StronglySorted (fun a b => (risk_score b <= risk_score a)%Q)
                 (ScanReport.insert_by_score r l).
Proof.
  induction l as [| g t IH]; intros Hs; simpl.
  - repeat constructor.
  - inversion Hs as [| ? ? Ht Hg]; subst.
    destruct (Qlt_bool (risk_score r) (risk_score g)) eqn:E.
    + apply Qlt_bool_true in E. constructor; [now apply IH |].
      rewrite <- (insert_by_score_perm r t). constructor; [| exact Hg].
      now apply Qlt_le_weak.
    + apply Qlt_bool_false in E. constructor; [exact Hs |].
      constructor; [exact E |].
      rewrite List.Forall_forall in Hg |- *. intros x Hx.
      eapply Qle_trans; [apply Hg; exact Hx | exact E].
Qed.

(** X23. The ranked list of a report holds exactly the results whose score
    is at least 0.6, each as often as in the input, in descending order of
    score. *)
Theorem X23_high_risk_ranked (rs : list SkillResult) :
  let ranked := high_risk_skills (ScanReport.from_results rs) in
  StronglySorted (fun a b => (risk_score b <= risk_score a)%Q) ranked
  /\ Permutation ranked
       (List.filter (fun r => Qle_bool 0.6 (risk_score r)) rs)
  /\ forall r, In r ranked <-> In r rs /\ (0.6 <= risk_score r)%Q.
Proof.
  intros ranked. subst ranked.
  cbn [high_risk_skills ScanReport.from_results].
  set (hr := List.filter (fun r => Qle_bool 0.6 (risk_score r)) rs).
  assert (Hperm : Permutation (foldr ScanReport.insert_by_score [] hr) hr)
    by (symmetry; apply sort_by_score_perm).
  split; [| split; [exact Hperm |]].
  - induction hr as [| r l IH]; simpl; [constructor |].
    apply insert_by_score_sorted, IH. symmetry. apply sort_by_score_perm.
  - intros r. split.
    + intros H. apply (Permutation_in _ Hperm) in H.
      subst hr. apply filter_In in H as [H1 H2].
      split; [exact H1 | now apply Qle_bool_iff].
    + intros [H1 H2]. apply (Permutation_in _ (Permutation_sym Hperm)).
      subst hr. apply filter_In. split; [exact H1 | now apply Qle_bool_iff].
Qed.

Lemma assoc_bump (k n : string) (l : list (string * nat)) :
  assoc k (ReportSummary.bump n l)
  = if String.eqb n k then Some (S (default 0 (assoc n l))) else assoc k l.
Proof.
  induction l as [| [k' c] r IH]; simpl.
  - now destruct (String.eqb n k).
  - destruct (String.eqb k' n) eqn:E; simpl.
    + apply String.eqb_eq in E as ->.
      now destruct (String.eqb n k).
    + rewrite IH. destruct (String.eqb n k) eqn:E2; [| reflexivity].
      apply String.eqb_eq in E2 as <-. now rewrite E.
Qed.

Lemma keys_bump_in (k n : string) (l : list (string * nat)) :
  In k (map fst (ReportSummary.bump n l)) -> k = n \/ In k (map fst l).
Proof.
  induction l as [| [k' c] r IH]; simpl.
  - intros [<- | []]. now left.
  - destruct (String.eqb k' n); simpl; [tauto |].
    intros [<- | H]; [tauto |]. destruct (IH H); tauto.
Qed.

Lemma keys_bump (n : string) (l : list (string * nat)) :
  NoDup (map fst l) -> NoDup (map fst (ReportSummary.bump n l)).
Proof.
  induction l as [| [k' c] r IH]; simpl; intros Hnd.
  - apply NoDup_singleton.
  - apply NoDup_cons in Hnd as [Hk Hr].
    destruct (String.eqb k' n) eqn:E; simpl.
    + apply NoDup_cons. split; assumption.
    + apply NoDup_cons. split; [| now apply IH].
      intros H. apply list_elem_of_In, keys_bump_in in H as [-> | H].
      * rewrite String.eqb_refl in E. discriminate E.
      * apply Hk. now apply list_elem_of_In.
Qed.

Lemma in_assoc (k : string) (c : nat) (l : list (string * nat)) :
  NoDup (map fst l) -> In (k, c) l -> assoc k l = Some c.
Proof.
  induction l as [| [k' c'] r IH]; simpl; [intros _ [] |].
  intros Hnd. apply NoDup_cons in Hnd as [Hk Hr].
  intros [H | H].
  - inversion H; subst. now rewrite String.eqb_refl.
  - destruct (String.eqb k' k) eqn:E; [| now apply IH].
    apply String.eqb_eq in E as ->. exfalso. apply Hk.
    apply list_elem_of_In. change k with (fst (k, c)). now apply in_map.
Qed.

Lemma occurrences_snoc (k n : string) (names : list string) :
  occurrences k (names ++ [n])
  = occurrences k names + (if String.eqb k n then 1 else 0).
Proof.
  unfold occurrences. rewrite List.filter_app, length_app. simpl.
  now destruct (String.eqb k n).
Qed.

(** After the names [done] have been counted, the table holds for each name
    the number of its occurrences, and no entry for a name not met. *)
Lemma count_names (names : list string) :
  forall (done : list string) (acc : list (string * nat)),
    NoDup (map fst acc) ->
    (forall k, assoc k acc
               = if (occurrences k done =? 0)%nat then None
                 else Some (occurrences k done)) ->
    let out := fold_left (fun acc n => ReportSummary.bump n acc) names acc in
    NoDup (map fst out)
    /\ forall k, assoc k out
                 = if (occurrences k (done ++ names) =? 0)%nat then None
                   else Some (occurrences k (done ++ names)).
Proof.
  induction names as [| n names IH]; intros done acc Hnd Hacc; simpl.
  - rewrite app_nil_r. auto.
  - replace (done ++ n :: names) with ((done ++ [n]) ++ names)
      by now rewrite <- app_assoc.
    apply IH; [now apply keys_bump |].
    intros k. rewrite assoc_bump, occurrences_snoc.
    destruct (String.eqb n k) eqn:E.
    + apply String.eqb_eq in E as ->. rewrite String.eqb_refl, Hacc.
      rewrite Nat.add_1_r.
      now destruct (occurrences k done) as [| m].
    + rewrite Hacc. rewrite String.eqb_sym, E. now rewrite Nat.add_0_r.
Qed.

Lemma issue_counts_flat (results : list SkillResult) :
  forall acc,
    fold_left
      (fun acc result =>
         fold_left (fun acc finding => ReportSummary.bump (name finding) acc)
                   (findings result) acc)
      results acc
    = fold_left (fun acc n => ReportSummary.bump n acc)
                (finding_names results) acc.
Proof.
  induction results as [| r rs IH]; intros acc; [reflexivity |].
  cbn [fold_left finding_names flat_map]. rewrite fold_left_app, IH.
  f_equal. clear. revert acc.
  induction (findings r) as [| f fs IHf]; intros acc; [reflexivity |].
  simpl. apply IHf.
Qed.

Lemma insert_by_count_perm (x : string * nat) (l : list (string * nat)) :
  Permutation (x :: l) (ReportSummary.insert_by_count x l).
Proof.
  induction l as [| y r IH]; simpl; [reflexivity |].
  destruct (snd x <? snd y)%nat; [| reflexivity].
  rewrite perm_swap. now constructor.
Qed.

Lemma sort_by_count_perm (l : list (string * nat)) :
  Permutation l (foldr ReportSummary.insert_by_count [] l).
Proof.
  induction l as [| x l IH]; simpl; [reflexivity |].
  etransitivity; [| apply insert_by_count_perm]. now constructor.
Qed.

Lemma insert_by_count_sorted (x : string * nat) (l : list (string * nat)) :
  StronglySorted (fun a b => snd b <= snd a) l ->
  StronglySorted (fun a b => snd b <= snd a)
                 (ReportSummary.insert_by_count x l).
Proof.
  induction l as [| y r IH]; intros Hs; simpl.
  - repeat constructor.
  - inversion Hs as [| ? ? Hr Hy]; subst.
    destruct (snd x <? snd y)%nat eqn:E.
    + apply Nat.ltb_lt in E. constructor; [now apply IH |].
      rewrite <- (insert_by_count_perm x r). constructor; [lia | exact Hy].
    + apply Nat.ltb_ge in E. constructor; [exact Hs |].
      constructor; [exact E |].
      rewrite List.Forall_forall in Hy |- *. intros z Hz.
      specialize (Hy z Hz). lia.
Qed.

Lemma sort_by_count_sorted (l : list (string * nat)) :
  StronglySorted (fun a b => snd b <= snd a)
                 (foldr ReportSummary.insert_by_count [] l).
Proof.
  induction l as [| x l IH]; simpl; [constructor |].
  now apply insert_by_count_sorted.
Qed.

Lemma strongly_sorted_take {A} (R : A -> A -> Prop) (n : nat) (l : list A) :
  StronglySorted R l -> StronglySorted R (take n l).
Proof.
  revert l. induction n as [| n IH]; intros [| x l] Hs; simpl;
    try constructor.
  - inversion Hs; subst. now apply IH.
  - inversion Hs as [| ? ? _ Hx]; subst.
    rewrite List.Forall_forall in Hx |- *. intros y Hy.
    apply Hx. now apply in_take in Hy.
Qed.

(** X24. The table of common issues has at most ten rows, in descending
    order of count, no name twice; the count of a row is the number of
    findings of that name over all the results, and is at least one. *)
Theorem X24_common_issues (results : list SkillResult) :
  let table := ReportSummary._get_common_issues results in
  length table <= 10
  /\ StronglySorted (fun a b => snd b <= snd a) table
  /\ NoDup (map fst table)
  /\ forall n c,
       In (n, c) table ->
       c = occurrences n (finding_names results) /\ 1 <= c.
Proof.
  intros table. subst table. unfold ReportSummary._get_common_issues.
  set (counts := ReportSummary.issue_counts_of results).
  assert (Hc : NoDup (map fst counts)
               /\ forall k, assoc k counts
                            = if (occurrences k (finding_names results) =? 0)%nat
                              then None
                              else Some (occurrences k (finding_names results))).
  { subst counts. unfold ReportSummary.issue_counts_of.
    rewrite issue_counts_flat.
    apply (count_names (finding_names results) [] []); [constructor |].
    intros k. reflexivity. }
  destruct Hc as [Hnd Hassoc].
  set (sorted := foldr ReportSummary.insert_by_count [] counts).
  assert (Hperm : Permutation counts sorted) by apply sort_by_count_perm.
  split; [rewrite length_take; lia |].
  split; [apply strongly_sorted_take, sort_by_count_sorted |].
  split.
  - assert (Hs : NoDup (map fst sorted)).
    { assert (Hp : Permutation (map fst counts) (map fst sorted))
        by now apply Permutation_map.
      now rewrite <- Hp. }
    rewrite <- (take_drop 10 sorted), map_app in Hs.
    now apply NoDup_app in Hs as [Hs _].
  - intros n c Hin. apply in_take in Hin.
    apply (Permutation_in _ (Permutation_sym Hperm)) in Hin.
    apply (in_assoc _ _ _ Hnd) in Hin. rewrite Hassoc in Hin.
    destruct (occurrences n (finding_names results)) as [| m];
      simpl in Hin; [discriminate |].
    inversion Hin; subst. split; [reflexivity | lia].
Qed.

Lemma X24_common_issues_witness :
  let r :=
    SkillScanner.aggregate (Sample.sample_scanner ∅)
      (Skill.from_path Sample.sample_re Sample.benign_dir) Sample.benign_dir
      [StaticAnalyzer.missing_disclaimer; StaticAnalyzer.missing_disclaimer] in
  In ("missing_disclaimer", 2) (ReportSummary._get_common_issues [r])
  /\ 2 = occurrences "missing_disclaimer" (finding_names [r]).
Proof.
  intros r.
  assert (Hin : In ("missing_disclaimer", 2)
                   (ReportSummary._get_common_issues [r]))
    by (vm_compute; left; reflexivity).
  split; [exact Hin |].
  destruct (X24_common_issues [r]) as (_ & _ & _ & H).
  exact (proj1 (H _ _ Hin)).
Defined.

(** ** Frontmatter and permission lists: what is written is read back *)

Lemma append_cons (x : ascii) (a b : string) :
  String x a +:+ b = String x (a +:+ b).
Proof. reflexivity. Qed.

Lemma append_nil_l (b : string) : "" +:+ b = b.
Proof. reflexivity. Qed.

Lemma count_append (c : ascii) (a b : string) :
  PyStr.count c (a +:+ b) = PyStr.count c a + PyStr.count c b.
Proof.
  induction a as [| x a IH]; [reflexivity |].
  rewrite append_cons. cbn [PyStr.count]. rewrite IH. lia.
Qed.

Lemma append_nil_r (s : string) : s +:+ "" = s.
Proof.
  induction s as [| c s IH]; [reflexivity |].
  now rewrite append_cons, IH.
Qed.

Lemma split_nonempty (c : ascii) (s : string) : PyStr.split c s <> [].
Proof.
  induction s as [| x s IH]; simpl; [discriminate |].
  destruct (Ascii.eqb x c); [discriminate |].
  destruct (PyStr.split c s); [contradiction | discriminate].
Qed.

Lemma split_no_sep (c : ascii) (s : string) :
  PyStr.count c s = 0 -> PyStr.split c s = [s].
Proof.
  induction s as [| x s IH]; simpl; [reflexivity |].
  destruct (Ascii.eqb x c); [discriminate |]. simpl.
  intros H. now rewrite (IH H).
Qed.

Lemma split_app_no_sep (c : ascii) (a s : string) :
  PyStr.count c a = 0 ->
  PyStr.split c (a +:+ s)
  = (a +:+ hd "" (PyStr.split c s)) :: tl (PyStr.split c s).
Proof.
  induction a as [| x a IH].
  - intros _. rewrite !append_nil_l. pose proof (split_nonempty c s).
    now destruct (PyStr.split c s).
  - rewrite !append_cons. cbn [PyStr.count PyStr.split].
    destruct (Ascii.eqb x c); [discriminate |]. cbn [Nat.add].
    intros H. now rewrite (IH H).
Qed.

Lemma join_cons (sep x y : string) (r : list string) :
  join sep (x :: y :: r) = x +:+ sep +:+ join sep (y :: r).
Proof. reflexivity. Qed.

(** Splitting a joined list on the separator's first character gives the
    pieces back, each but the first still carrying the rest of the
    separator. *)
Lemma split_join (c : ascii) (rest : string) (xs : list string) :
  Forall (fun x => PyStr.count c x = 0) xs ->
  PyStr.count c rest = 0 ->
  xs <> [] ->
  PyStr.split c (join (String c rest) xs)
  = hd "" xs :: map (fun x => rest +:+ x) (tl xs).
Proof.
  intros Hxs Hrest. induction Hxs as [| x xs Hx Hall IH]; [congruence |].
  intros _. destruct xs as [| y r].
  - cbn [join hd tl map]. now apply split_no_sep.
  - rewrite join_cons. cbn [hd tl map].
    set (j := join (String c rest) (y :: r)) in *.
    assert (Hsep : PyStr.split c (String c rest +:+ j)
                   = "" :: PyStr.split c (rest +:+ j)).
    { rewrite append_cons. cbn [PyStr.split]. now rewrite Ascii.eqb_refl. }
    rewrite (split_app_no_sep c x _ Hx), Hsep. cbn [hd tl].
    rewrite append_nil_r. f_equal.
    rewrite (split_app_no_sep c rest _ Hrest).
    rewrite IH by discriminate. reflexivity.
Qed.

Lemma split_once_line (k v : string) :
  PyStr.count ":"%char k = 0 ->
  PyStr.split_once ":"%char (k +:+ ": " +:+ v) = Some (k, " " +:+ v).
Proof.
  induction k as [| x k IH]; [reflexivity |].
  rewrite append_cons. cbn [PyStr.count PyStr.split_once].
  destruct (Ascii.eqb x ":") eqn:E; [discriminate |]. cbn [Nat.add].
  intros H. now rewrite (IH H).
Qed.

(** X25. A frontmatter written in ASCII as one [key: value] line per pair
    is read back as the dict that receives the pairs in order (a later pair
    of the same key wins). The keys have no colon, the values no quote at
    either end, neither has a line break or a blank at either end. *)
Theorem X25_frontmatter_round_trip
    (re : ReLib) (content : string) (pairs : list (string * string)) :
  re_frontmatter re content = Some (render_frontmatter pairs) ->
  Forall (fun kv => clean_key (fst kv) /\ clean_value (snd kv)) pairs ->
  Skill._parse_frontmatter re content
  = Some (fold_left (fun (m : gmap string string) kv =>
                       <[fst kv := snd kv]> m) pairs ∅).
Proof.
  intros Hre Hclean. unfold Skill._parse_frontmatter. rewrite Hre. f_equal.
  unfold render_frontmatter.
  destruct pairs as [| p ps]; [reflexivity |].
  rewrite split_join; [| | reflexivity | discriminate].
  2: { apply List.Forall_forall. intros line Hl.
       apply in_map_iff in Hl as (kv & <- & Hkv).
       rewrite List.Forall_forall in Hclean.
       destruct (Hclean kv Hkv) as [(_ & _ & Hk & _) (_ & Hv & _)].
       rewrite !count_append, Hk, Hv. reflexivity. }
  change (hd "" (map _ (p :: ps)) :: map (fun x => "" +:+ x) (tl (map _ (p :: ps))))
    with (map (fun x : string => x)
              (map (fun kv => fst kv +:+ ": " +:+ snd kv) (p :: ps))).
  rewrite map_id. clear Hre.
  generalize (∅ : gmap string string).
  induction Hclean
    as [| kv l [(_ & Hc & _ & Hs) (_ & _ & Hv1 & Hv2 & Hv3)] _ IH];
    intros m; [reflexivity |].
  cbn [map fold_left]. rewrite (split_once_line _ _ Hc).
  change (PyStr.strip (" " +:+ snd kv)) with (PyStr.strip (snd kv)).
  rewrite Hs, Hv1, Hv2, Hv3. apply IH.
Qed.

Lemma X25_frontmatter_round_trip_witness :
  let pairs := [("name", "demo"); ("risk", "safe")] in
  let re :=
    {| re_frontmatter := fun _ => Some (render_frontmatter pairs);
       re_code_fences := fun _ => [];
       re_compile := fun _ => None;
       re_rm_rf := fun _ => false;
       re_dunder_import := fun _ => false |} in
  exists m, Skill._parse_frontmatter re "" = Some m
            /\ m !! "risk" = Some "safe".
Proof.
  intros pairs re. eexists. split.
  - apply (X25_frontmatter_round_trip re "" pairs eq_refl).
    repeat constructor.
  - reflexivity.
Defined.

Lemma strip_after_blank (p : string) : PyStr.strip (" " +:+ p) = PyStr.strip p.
Proof. reflexivity. Qed.

Lemma clean_token_truthy (p : string) :
  clean_token p -> PyStr.truthy (PyStr.strip p) = true.
Proof. intros (_ & Hne & _ & ->). now destruct p. Qed.

Lemma permissions_of_pieces (l : list string) :
  Forall clean_token l ->
  map PyStr.strip
      (filter (fun p => PyStr.truthy (PyStr.strip p) = true)
              (map (fun x => " " +:+ x) l))
  = l.
Proof.
  induction 1 as [| p l Hp _ IH]; [reflexivity |].
  cbn [map]. rewrite filter_cons_True
    by (rewrite strip_after_blank; now apply clean_token_truthy).
  cbn [map]. rewrite strip_after_blank, IH.
  destruct Hp as (_ & _ & _ & ->). reflexivity.
Qed.

(** X26. A permission list written as ASCII tokens (not empty, without
    comma, without blank at either end) joined by a comma and a blank is
    read back by [Skill.permissions] as the same tokens in the same order;
    without the [permissions] key, or with an empty value, the list is
    empty. *)
Theorem X26_permissions_round_trip (skill : Skill) (perms : list string) :
  Forall clean_token perms ->
  metadata skill !! "permissions" = Some (join ", " perms)
  \/ (perms = [] /\ metadata skill !! "permissions" = None) ->
  Skill.permissions skill = perms.
Proof.
  intros Hclean Hmeta. unfold Skill.permissions.
  destruct Hmeta as [-> | [-> ->]]; [| reflexivity].
  cbn [default from_option]. unfold id.
  destruct perms as [| p ps]; [reflexivity |].
  rewrite split_join; [| | reflexivity | discriminate].
  2: { apply List.Forall_forall. intros x Hx.
       rewrite List.Forall_forall in Hclean.
       now destruct (Hclean x Hx) as (_ & _ & Hc & _). }
  cbn [hd tl].
  inversion Hclean as [| ? ? Hp Hps]; subst.
  rewrite filter_cons_True by now apply clean_token_truthy.
  cbn [map]. rewrite (permissions_of_pieces ps Hps).
  destruct Hp as (_ & _ & _ & ->). reflexivity.
Qed.

Lemma X26_permissions_round_trip_witness :
  let skill :=
    Skill.init Sample.sample_re Sample.benign_dir "demo" ""
      {[ "permissions" := "network, read_files" ]} true in
  Skill.permissions skill = ["network"; "read_files"].
Proof.
  intros skill.
  apply (X26_permissions_round_trip skill ["network"; "read_files"]).
  - repeat constructor; discriminate.
  - left. reflexivity.
Defined.

(** ** The exit status of the [scan] command *)

(** X27. The strict flag does not change what the [scan] command does: with
    or without it the command ends the same way. When it has a report, the
    exit status is 1 exactly when a skill is blocked (classified critical);
    flagged skills never make it fail. Without a target it ends with
    status 1 and scans nothing. *)
Theorem X27_scan_exit_status
    (env : Env) (skills_dir : option (list SkillDir))
    (skill : option SkillDir) (level : string) (strict verbose : bool)
    (w : World) :
  Main.scan_skills env skills_dir skill level strict verbose w
  = Main.scan_skills env skills_dir skill level (negb strict) verbose w
  /\ (forall code rep w',
        Main.scan_skills env skills_dir skill level strict verbose w
        = (Ret (code, Some rep), w') ->
        (code = 1 <-> 0 < blocked_count rep) /\ (code = 0 \/ code = 1))
  /\ (skills_dir = None -> skill = None ->
      Main.scan_skills env skills_dir skill level strict verbose w
      = (Ret (1, None), w)).
Proof.
  assert (Hstrict : forall b r, Main.exit_status b r
                                = Main.exit_status (negb b) r).
  { intros b r. unfold Main.exit_status.
    destruct (0 <? blocked_count r)%nat, b; reflexivity. }
  assert (Hcode : forall b r code,
            Main.exit_status b r = code ->
            (code = 1 <-> 0 < blocked_count r) /\ (code = 0 \/ code = 1)).
  { intros b r code <-. unfold Main.exit_status.
    destruct (0 <? blocked_count r)%nat eqn:E;
      first [apply Nat.ltb_lt in E | apply Nat.ltb_ge in E];
      destruct b; cbn [andb]; split; auto; split; intros; try lia;
      try reflexivity. }
  unfold Main.scan_skills.
  split; [| split].
  - destruct skills_dir, skill; try reflexivity;
      unfold mbind, M_bind;
      (destruct (Main.new_scanner env verbose w) as [[[] | e] w0];
       [| reflexivity]);
      match goal with
      | |- context [Main.scan_targets env ?t level w0] =>
          destruct (Main.scan_targets env t level w0) as [[rs | e] w1];
          [| reflexivity]
      end; unfold mret, M_ret; now rewrite Hstrict.
  - intros code rep w'.
    destruct skills_dir, skill; try discriminate;
      unfold mbind, M_bind;
      (destruct (Main.new_scanner env verbose w) as [[[] | e] w0];
       [| discriminate]);
      match goal with
      | |- context [Main.scan_targets env ?t level w0] =>
          destruct (Main.scan_targets env t level w0) as [[rs | e] w1];
          [| discriminate]
      end; unfold mret, M_ret; intros H; inversion H; subst;
      now apply (Hcode strict).
  - intros -> ->. reflexivity.
Qed.

Lemma X27_scan_exit_status_witness :
  exists rep w',
    Main.scan_skills Sample.sample_env None (Some Sample.benign_dir) "all"
      true false (Sample.sample_world ∅) = (Ret (0, Some rep), w')
    /\ ~ 0 < blocked_count rep.
Proof.
  eexists. eexists. split; [vm_compute; reflexivity |].
  match goal with
  | |- ~ 0 < blocked_count ?rep =>
      destruct (X27_scan_exit_status Sample.sample_env None
                  (Some Sample.benign_dir) "all" true false
                  (Sample.sample_world ∅)) as (_ & H & _);
      destruct (H 0 rep _ ltac:(vm_compute; reflexivity)) as [[_ Hb] _]
  end.
  intros Hlt. specialize (Hb Hlt). discriminate Hb.
Defined.

(** ** The compiled rule table *)

(** X28. The compiled rule table always has exactly the four buckets
    critical, high, medium, low. Every compiled rule comes from a configured
    rule of the same bucket whose expression compiles, with its name and
    severity unchanged: rules under another bucket name and rules whose
    expression does not compile are never matched. *)
Theorem X28_compile_patterns_table (re : ReLib) (config : PatternsConfig) :
  let table := StaticAnalyzer._compile_patterns re config in
  (forall k, is_Some (table !! k)
             <-> In k ["critical"; "high"; "medium"; "low"])
  /\ forall lvl rs r,
       table !! lvl = Some rs -> In r rs ->
       exists rules p,
         In (lvl, rules) (cfg_patterns config) /\ In p rules
         /\ re_compile re (cr_pattern p) = Some (r_regex r)
         /\ r_name r = cr_name p
         /\ r_severity r = cr_severity p.
Proof.
  cbv zeta. unfold StaticAnalyzer._compile_patterns.
  apply (fold_left_invariant
           (fun acc : gmap string (list CompiledRule) =>
              (forall k, is_Some (acc !! k)
                         <-> In k ["critical"; "high"; "medium"; "low"])
              /\ forall lvl rs r,
                   acc !! lvl = Some rs -> In r rs ->
                   exists rules p,
                     In (lvl, rules) (cfg_patterns config) /\ In p rules
                     /\ re_compile re (cr_pattern p) = Some (r_regex r)
                     /\ r_name r = cr_name p
                     /\ r_severity r = cr_severity p)).
  - split.
    + intros k. rewrite !lookup_insert_is_Some, lookup_empty.
      cbn [In]. split.
      * intros [<- | [_ [<- | [_ [<- | [_ [<- | [_ H]]]]]]]]; auto.
        now destruct H.
      * intros [<- | [<- | [<- | [<- | []]]]].
        -- now left.
        -- right. split; [discriminate | now left].
        -- right. split; [discriminate |].
           right. split; [discriminate | now left].
        -- right. split; [discriminate |].
           right. split; [discriminate |].
           right. split; [discriminate | now left].
    + intros lvl rs r Hl Hr.
      repeat (apply lookup_insert_Some in Hl as [[_ <-] | [_ Hl]];
              [destruct Hr |]).
      now rewrite lookup_empty in Hl.
  - intros acc [bucket rules] Hacc Hin.
    destruct (acc !! bucket) as [old |] eqn:Hb; [| exact Hacc].
    assert (Hbucket : In bucket ["critical"; "high"; "medium"; "low"]).
    { apply (proj1 Hacc). now rewrite Hb. }
    apply fold_left_invariant; [exact Hacc |].
    intros acc' p [Hdom Hprov] Hp.
    destruct (re_compile re (cr_pattern p)) as [compiled |] eqn:Hc;
      [| now split].
    split.
    + intros k. rewrite lookup_insert_is_Some, Hdom.
      split; [intros [<- | [_ H]]; assumption | intros H].
      destruct (decide (bucket = k)); [now left | right; auto].
    + intros lvl rs r Hl Hr.
      apply lookup_insert_Some in Hl as [[<- <-] | [_ Hl]];
        [| exact (Hprov _ _ _ Hl Hr)].
      apply in_app_or in Hr as [Hr | [<- | []]].
      * destruct (acc' !! bucket) as [old' |] eqn:Hb'; [| destruct Hr].
        exact (Hprov _ _ _ Hb' Hr).
      * exists rules, p. cbn [r_regex r_name r_severity]. auto.
Qed.

(** ** The disclaimer check and the trusted-domain check *)

Lemma upper_lower_char (c : ascii) :
  PyStr.upper_char (PyStr.lower_char c) = PyStr.upper_char c.
Proof.
  destruct c as [[] [] [] [] [] [] [] []]; vm_compute; reflexivity.
Qed.

Lemma upper_upper_char (c : ascii) :
  PyStr.upper_char (PyStr.upper_char c) = PyStr.upper_char c.
Proof.
  destruct c as [[] [] [] [] [] [] [] []]; vm_compute; reflexivity.
Qed.

Lemma upper_lower (s : string) : PyStr.upper (PyStr.lower s) = PyStr.upper s.
Proof.
  induction s as [| c s IH]; [reflexivity |].
  unfold PyStr.upper, PyStr.lower in *. cbn [PyStr.map_chars].
  now rewrite upper_lower_char, IH.
Qed.

Lemma upper_upper (s : string) : PyStr.upper (PyStr.upper s) = PyStr.upper s.
Proof.
  induction s as [| c s IH]; [reflexivity |].
  unfold PyStr.upper in *. cbn [PyStr.map_chars].
  now rewrite upper_upper_char, IH.
Qed.

(** X29. The disclaimer check does not depend on the case of the letters:
    a skill whose content is that of another written in lower case, or in
    upper case, has the disclaimer exactly when the other has it. *)
Theorem X29_disclaimer_case_insensitive (s1 s2 : Skill) :
  content s2 = PyStr.lower (content s1)
  \/ content s2 = PyStr.upper (content s1) ->
  Skill.has_disclaimer s2 = Skill.has_disclaimer s1.
Proof.
  unfold Skill.has_disclaimer. intros [-> | ->].
  - now rewrite upper_lower.
  - now rewrite upper_upper.
Qed.

Lemma X29_disclaimer_case_insensitive_witness :
  let s1 :=
    Skill.init Sample.sample_re Sample.benign_dir "demo"
      "Authorized Use Only" ∅ true in
  let s2 :=
    Skill.init Sample.sample_re Sample.benign_dir "demo"
      "authorized use only" ∅ true in
  Skill.has_disclaimer s2 = Skill.has_disclaimer s1
  /\ Skill.has_disclaimer s1 = true.
Proof.
  intros s1 s2. split; [| reflexivity].
  apply (X29_disclaimer_case_insensitive s1 s2). left. reflexivity.
Defined.

Lemma prefix_append (d b : string) : String.prefix d (d +:+ b) = true.
Proof.
  induction d as [| c d IH]; [now destruct b |].
  rewrite append_cons. cbn [String.prefix].
  destruct (ascii_dec c c); [exact IH | contradiction].
Qed.

Lemma contains_inside (d a b : string) :
  PyStr.contains d (a +:+ d +:+ b) = true.
Proof.
  induction a as [| c a IH].
  - rewrite append_nil_l.
    destruct (d +:+ b) eqn:E; cbn [PyStr.contains]; rewrite <- E;
      now rewrite prefix_append.
  - rewrite append_cons. cbn [PyStr.contains]. rewrite IH.
    apply orb_true_r.
Qed.

(** X30. The trusted-repository test is a substring test: a source that
    starts with "http" and mentions one of the four trusted repository
    names anywhere - in the host, in the path or in the query - is
    reported as [trusted_source] with severity 0.0. *)
Theorem X30_trusted_source_is_substring_test
    (skill : Skill) (before after domain : string) :
  In domain TrustVerifier.trusted_domains ->
  metadata skill !! "source"
  = Some ("http" +:+ before +:+ domain +:+ after) ->
  map (fun f => (name f, severity f)) (TrustVerifier._verify_source skill)
  = [("trusted_source", 0.0%Q)].
Proof.
  intros Hd Hsrc. unfold TrustVerifier._verify_source, Skill.source.
  rewrite Hsrc. cbn [default from_option]. unfold id.
  set (src := "http" +:+ before +:+ domain +:+ after).
  assert (H1 : String.eqb src "unknown" = false) by reflexivity.
  assert (H2 : PyStr.truthy src = true) by reflexivity.
  assert (H3 : String.eqb src "self" = false) by reflexivity.
  assert (H4 : PyStr.startswith src "http" = true)
    by (unfold PyStr.startswith; subst src; apply prefix_append).
  rewrite H1, H2, H3, H4. cbn [negb orb].
  assert (H5 : existsb (fun d => PyStr.contains d src)
                       TrustVerifier.trusted_domains = true).
  { apply existsb_exists. exists domain. split; [exact Hd |].
    subst src.
    change ("http" +:+ before +:+ domain +:+ after)
      with (("http" +:+ before) +:+ domain +:+ after).
    apply contains_inside. }
  rewrite H5. reflexivity.
Qed.

Lemma X30_trusted_source_is_substring_test_witness :
  let skill :=
    Skill.init Sample.sample_re Sample.benign_dir "demo" ""
      {[ "source" := "http://mirror.example/?from=github.com/google" ]} true in
  map (fun f => (name f, severity f)) (TrustVerifier._verify_source skill)
  = [("trusted_source", 0.0%Q)].
Proof.
  intros skill.
  apply (X30_trusted_source_is_substring_test skill
           "://mirror.example/?from=" "" "github.com/google").
  - right. left. reflexivity.
  - reflexivity.
Defined.
